(** * Organization controller of the MongoDB Atlas provider

    A shallow embedding of the reconciliation code of the provider:

    - package [mongodb] ([internal/clients/atlas/organization.go], the
      [Service] client with [makeRequest] and its error categories);
    - package [aws] (the Secrets Manager wrapper: [PutSecret],
      [DescribeSecret], [DeleteSecret], [GetSecret]);
    - package [organization] ([internal/controller/organization/organization.go]:
      [finalSecretName], [Observe], [Create], [Update], [Delete]).

    Remote systems are modelled as a world [W] that every remote operation
    reads and rewrites; the controller runs in a small state monad that
    threads the world and appends every collaborator call and every debug
    line to a trace. *)

From Stdlib Require Import ZArith String List Bool Lia.
From stdpp Require Import base option strings pretty gmap list.

Local Open Scope string_scope.
Local Open Scope Z_scope.

(** ** Go's [error] values

    One inductive type covers the dynamic types an [error] takes in this
    code base.  [None : option error] is Go's [nil]. *)

Module Error.
(** [mongodb.Error]: the decoded body of an API error response. *)
Record t := mk { Code : Z; Detail : string; Reason : string }.
End Error.

Inductive error : Type :=
| errors_New (msg : string)                    (* errors.New, errors.Errorf *)
| errors_Wrap (cause : error) (msg : string)   (* errors.Wrap(cause, msg) *)
| APIError (e : Error.t)                       (* an [Error] value *)
| NotFoundError (Err : Error.t)                (* *NotFoundError *)
| RetryableError (Err : error) (Msg : string)  (* *RetryableError *)
| ConflictError (Err : error) (Msg : string)   (* *ConflictError *)
| AWSError (code : string) (msg : string).     (* an AWS SDK API error *)

Definition Error_Error (e : Error.t) : string :=
  "MongoDB Atlas API error " +:+ pretty (Error.Code e) +:+ ": "
  +:+ Error.Reason e +:+ " - " +:+ Error.Detail e.

(** The [Error()] method of each dynamic type. *)
Fixpoint error_Error (e : error) : string :=
  match e with
  | errors_New msg => msg
  | errors_Wrap cause msg => msg +:+ ": " +:+ error_Error cause
  | APIError a => Error_Error a
  | NotFoundError a => Error_Error a
  | RetryableError err msg =>
  "retryable error: " +:+ msg +:+ " - " +:+ error_Error err
  | ConflictError err msg =>
  "conflict error (resource in transition): " +:+ msg +:+ " - "
    +:+ error_Error err
  | AWSError code msg => code +:+ ": " +:+ msg
  end.

(** A call that returns [(T, error)]. *)
Definition result (T : Type) : Type := error + T.

(** ** Panics

    A Go call either returns or panics.  The panics this code base can
    raise are dereferences of nil pointers and, inside the finalizer
    helper of crossplane-runtime, a slice expression out of bounds. *)

Inductive outcome (A : Type) : Type :=
| Returns (a : A)
| Panics (msg : string).
Arguments Returns {A} _.
Arguments Panics {A} _.

Definition nilDereference : string :=
  "runtime error: invalid memory address or nil pointer dereference".

(** The panic of a slice expression [f[low:]] on a slice of length [len]
    with [low > len]. *)
Definition sliceBounds (low len : nat) : string :=
  "runtime error: slice bounds out of range [" +:+ pretty low +:+ ":"
  +:+ pretty len +:+ "]".

(** ** Kubernetes object model (packages [metav1], [xpv1], [v1alpha1]) *)

Module xpv1.
Inductive ConditionType := TypeReady | TypeSynced.
Inductive ConditionStatus := ConditionTrue | ConditionFalse | ConditionUnknown.
Inductive ConditionReason :=
  | ReasonAvailable | ReasonCreating | ReasonDeleting
  | ReasonReconcileSuccess | ReasonReconcileError.

Record Condition := mkCondition {
  Type_ : ConditionType;
  Status : ConditionStatus;
  Reason : ConditionReason;
  Message : string
}.

Global Instance ConditionType_eq_dec : EqDecision ConditionType.
Proof. solve_decision. Defined.

Definition Available : Condition :=
  mkCondition TypeReady ConditionTrue ReasonAvailable "".
Definition Deleting : Condition :=
  mkCondition TypeReady ConditionFalse ReasonDeleting "".
Definition ReconcileSuccess : Condition :=
  mkCondition TypeSynced ConditionTrue ReasonReconcileSuccess "".
Definition ReconcileError (err : error) : Condition :=
  mkCondition TypeSynced ConditionFalse ReasonReconcileError (error_Error err).

Global Instance ConditionStatus_eq_dec : EqDecision ConditionStatus.
Proof. solve_decision. Defined.
Global Instance ConditionReason_eq_dec : EqDecision ConditionReason.
Proof. solve_decision. Defined.

(** [Condition.Equal]: the conditions agree on every field but the
    transition time (which is not modelled). *)
Definition Condition_Equal (c other : Condition) : bool :=
  bool_decide (Type_ c = Type_ other)
  && bool_decide (Status c = Status other)
  && bool_decide (Reason c = Reason other)
  && bool_decide (Message c = Message other).

(** [ConditionedStatus.SetConditions] of crossplane-runtime for one
    condition.  Its loop visits every stored condition: one of another
    type is skipped, one that is [Equal] to the new condition is kept, any
    other condition of the same type is overwritten in place; the new
    condition is appended when no stored condition has its type.
    [SetCondition_loop] returns the conditions after the loop and its
    [exists] flag. *)
Fixpoint SetCondition_loop (cs : list Condition) (c : Condition)
    : list Condition * bool :=
  match cs with
  | [] => ([], false)
  | existing :: rest =>
    let '(rest', exists_) := SetCondition_loop rest c in
    if bool_decide (Type_ existing ≠ Type_ c) then (existing :: rest', exists_)
    else if Condition_Equal existing c then (existing :: rest', true)
    else (c :: rest', true)
  end.

Definition SetCondition (cs : list Condition) (c : Condition) : list Condition :=
  let '(cs', exists_) := SetCondition_loop cs c in
  if exists_ then cs' else cs' ++ [c].
End xpv1.

Module v1alpha1.
Module AWSSecretsManagerReference.
Record t := mk {
  Region : string;
  SecretName : option string;   (* *string, omitempty *)
  KMSKeyID : option string      (* *string, omitempty *)
}.
End AWSSecretsManagerReference.

Module OrganizationAPIKey.
Record t := mk { Description : string; Roles : list string }.
End OrganizationAPIKey.

Module OrganizationParameters.
Record t := mk {
  APIKey : OrganizationAPIKey.t;
  OwnerID : string;
  AWSSecretsConfig : AWSSecretsManagerReference.t
}.
End OrganizationParameters.

Module OrganizationObservation.
Record t := mk {
  OrgID : string;
  OrgName : string;
  SecretName : string;
  SecretARN : string;
  KMSKeyID : string;
  CreatedAt : option Z;
  State : option string;
  DeletedAt : option Z
}.
Definition zero : t := mk "" "" "" "" "" None None None.
End OrganizationObservation.

(** [Organization]: the embedded [ObjectMeta], [OrganizationSpec] and
    [OrganizationStatus] are flattened to the fields the controller
    reads or writes (Go promotes embedded fields the same way). *)
Module Organization.
Record t := mk {
  Name : string;                         (* metadata.name *)
  Annotations : gmap string string;      (* metadata.annotations *)
  Finalizers : list string;              (* metadata.finalizers *)
  DeletionTimestamp : option Z;          (* metadata.deletionTimestamp *)
  ForProvider : OrganizationParameters.t;   (* spec.forProvider *)
  Conditions : list xpv1.Condition;      (* status.conditions *)
  AtProvider : OrganizationObservation.t (* status.atProvider *)
}.

Definition with_Annotations (a : gmap string string) (cr : t) : t :=
  mk (Name cr) a (Finalizers cr) (DeletionTimestamp cr) (ForProvider cr)
     (Conditions cr) (AtProvider cr).
Definition with_Finalizers (f : list string) (cr : t) : t :=
  mk (Name cr) (Annotations cr) f (DeletionTimestamp cr) (ForProvider cr)
     (Conditions cr) (AtProvider cr).
Definition with_Conditions (c : list xpv1.Condition) (cr : t) : t :=
  mk (Name cr) (Annotations cr) (Finalizers cr) (DeletionTimestamp cr)
     (ForProvider cr) c (AtProvider cr).
Definition with_AtProvider (o : OrganizationObservation.t) (cr : t) : t :=
  mk (Name cr) (Annotations cr) (Finalizers cr) (DeletionTimestamp cr)
     (ForProvider cr) (Conditions cr) o.

(** [cr.Status.AtProvider.X = v] *)
Definition set_OrgID (v : string) (cr : t) : t :=
  let o := AtProvider cr in
  with_AtProvider
    (OrganizationObservation.mk v (OrganizationObservation.OrgName o)
       (OrganizationObservation.SecretName o)
       (OrganizationObservation.SecretARN o)
       (OrganizationObservation.KMSKeyID o)
       (OrganizationObservation.CreatedAt o)
       (OrganizationObservation.State o)
       (OrganizationObservation.DeletedAt o)) cr.
Definition set_OrgName (v : string) (cr : t) : t :=
  let o := AtProvider cr in
  with_AtProvider
    (OrganizationObservation.mk (OrganizationObservation.OrgID o) v
       (OrganizationObservation.SecretName o)
       (OrganizationObservation.SecretARN o)
       (OrganizationObservation.KMSKeyID o)
       (OrganizationObservation.CreatedAt o)
       (OrganizationObservation.State o)
       (OrganizationObservation.DeletedAt o)) cr.
Definition set_SecretName (v : string) (cr : t) : t :=
  let o := AtProvider cr in
  with_AtProvider
    (OrganizationObservation.mk (OrganizationObservation.OrgID o)
       (OrganizationObservation.OrgName o) v
       (OrganizationObservation.SecretARN o)
       (OrganizationObservation.KMSKeyID o)
       (OrganizationObservation.CreatedAt o)
       (OrganizationObservation.State o)
       (OrganizationObservation.DeletedAt o)) cr.
Definition set_SecretARN (v : string) (cr : t) : t :=
  let o := AtProvider cr in
  with_AtProvider
    (OrganizationObservation.mk (OrganizationObservation.OrgID o)
       (OrganizationObservation.OrgName o)
       (OrganizationObservation.SecretName o) v
       (OrganizationObservation.KMSKeyID o)
       (OrganizationObservation.CreatedAt o)
       (OrganizationObservation.State o)
       (OrganizationObservation.DeletedAt o)) cr.

(** [cr.SetConditions(c)] *)
Definition SetConditions (c : xpv1.Condition) (cr : t) : t :=
  with_Conditions (xpv1.SetCondition (Conditions cr) c) cr.
End Organization.
End v1alpha1.

(** ** Package [meta] of crossplane-runtime

    Library code outside this repository, embedded as the library has it:
    the external name is the annotation [crossplane.io/external-name];
    [FinalizerExists], [AddFinalizer] and [RemoveFinalizer] are loops over
    the slice [metadata.finalizers], in which nothing keeps a token from
    occurring more than once. *)

Module meta.
Import v1alpha1.

Definition AnnotationKeyExternalName : string := "crossplane.io/external-name".

Definition GetExternalName (cr : Organization.t) : string :=
  default "" (Organization.Annotations cr !! AnnotationKeyExternalName).

Definition SetExternalName (cr : Organization.t) (name : string)
  : Organization.t :=
  Organization.with_Annotations
  (<[AnnotationKeyExternalName := name]> (Organization.Annotations cr)) cr.

Definition FinalizerExists (cr : Organization.t) (finalizer : string) : bool :=
  bool_decide (finalizer ∈ Organization.Finalizers cr).

Definition AddFinalizer (cr : Organization.t) (finalizer : string)
  : Organization.t :=
  if FinalizerExists cr finalizer then cr
  else Organization.with_Finalizers
       (Organization.Finalizers cr ++ [finalizer]) cr.

(** [f = append(f[:i], f[i+1:]...)] on a slice [f] of length [len] over
    the backing array [arr]: the elements [i+1 .. len-1] move one place
    down inside the array, everything from place [len-1] on stays as it
    was, and the slice is one element shorter. *)
Definition removeAt (arr : list string) (i len : nat) : list string :=
  take i arr ++ take (len - (i + 1)) (drop (i + 1) arr) ++ drop (len - 1) arr.

(** The loop of [RemoveFinalizer]:

      for i, e := range f { if e == finalizer { f = append(f[:i], f[i+1:]...) } }

    [range] fixes the number of iterations at the length the slice had
    when the loop began and reads [e] from the backing array [arr], which
    the appends rewrite in place, while [len] is the current length of
    [f].  [todo] iterations are left, the next one at index [i].  The
    slice expression [f[i+1:]] panics once [i + 1] exceeds [len]. *)
Fixpoint RemoveFinalizer_loop (finalizer : string) (todo i : nat)
    (arr : list string) (len : nat) : outcome (list string) :=
  match todo with
  | O => Returns (take len arr)
  | S todo =>
    match arr !! i with
    | Some e =>
      if bool_decide (e = finalizer)
      then
        if bool_decide (i + 1 ≤ len)%nat
        then RemoveFinalizer_loop finalizer todo (S i) (removeAt arr i len)
               (len - 1)
        else Panics (sliceBounds (i + 1) len)
      else RemoveFinalizer_loop finalizer todo (S i) arr len
    | None => Returns (take len arr)
    end
  end.

(** [RemoveFinalizer]: [f := o.GetFinalizers()], the loop, then
    [o.SetFinalizers(f)]. *)
Definition RemoveFinalizer (cr : Organization.t) (finalizer : string)
  : outcome Organization.t :=
  let f := Organization.Finalizers cr in
  match RemoveFinalizer_loop finalizer (length f) 0 f (length f) with
  | Returns f => Returns (Organization.with_Finalizers f cr)
  | Panics msg => Panics msg
  end.
End meta.

(** ** Package [mongodb]: the MongoDB Atlas client *)

Module mongodb.

Module Organization.
Record t := mk {
  ID : string;
  Name : string;
  OrgOwnerId : string;
  IsDeleted : bool;
  Created : Z
}.
Definition zero : t := mk "" "" "" false 0.
End Organization.

Module APIKey.
Record t := mk { Description : string; Roles : list string }.
End APIKey.

Module CreateOrganizationInput.
Record t := mk { Name : string; OwnerID : string; APIKey : APIKey.t }.
End CreateOrganizationInput.

Module UpdateOrganizationInput.
Record t := mk { ID : string; Name : string }.
End UpdateOrganizationInput.

Module APIKeyPair.
Record t := mk { PublicKey : string; PrivateKey : string }.
Definition zero : t := mk "" "".
End APIKeyPair.

Module CreateOrgPayload.
Record t := mk { Name : string; OrgOwnerID : string; APIKey : APIKey.t }.
End CreateOrgPayload.

Module CreateOrgResponse.
Record t := mk {
  APIKey_ID : string;
  APIKey_PrivateKey : string;
  APIKey_PublicKey : string;
  Organization_ID : string;
  Organization_IsDeleted : bool;
  Organization_Name : string
}.
Definition zero : t := mk "" "" "" "" false "".
End CreateOrgResponse.

(** The [Service] interface.  Every method may read and change the remote
    world. *)
Class Service (W : Type) := {
  CreateOrganization :
    CreateOrganizationInput.t → W → result (Organization.t * APIKeyPair.t) * W;
  GetOrganization : string → W → result Organization.t * W;
  UpdateOrganization :
    UpdateOrganizationInput.t → W → result Organization.t * W;
  DeleteOrganization : string → W → option error * W;
  VerifyOrganizationDeletion : string → W → option error * W
}.

(** Error classification functions: plain type assertions on the dynamic
    type, with no unwrapping. *)
Definition IsNotFoundError (err : option error) : bool :=
  match err with
  | Some (NotFoundError _) => true
  | _ => false
  end.

Definition IsRetryableError (err : option error) : bool :=
  match err with
  | Some (RetryableError _ _) => true
  | _ => false
  end.

Definition IsConflictError (err : option error) : bool :=
  match err with
  | Some (ConflictError _ _) => true
  | _ => false
  end.

(** *** The HTTP client and [encoding/json] *)

Module Request.
Record t := mk {
  Method : string;
  URL : string;
  Body : option string;
  Header : list (string * string)
}.
Definition Header_Set (k v : string) (r : t) : t :=
  mk (Method r) (URL r) (Body r)
     ((k, v) :: filter (λ kv, kv.1 ≠ k) (Header r)).
End Request.

Module Response.
Record t := mk { StatusCode : Z; Status : string; Body : string }.
End Response.

(** [http.NewRequestWithContext] and [httpClient.Do]. *)
Class HTTP (W : Type) := {
  NewRequestWithContext : string → string → option string → result Request.t;
  Do : Request.t → W → result Response.t * W
}.

(** [json.Marshal] and [json.Unmarshal] / [Decoder.Decode] at a Go type. *)
Class Marshal (P : Type) := json_Marshal : P → result string.
Class Unmarshal (R : Type) := json_Unmarshal : string → result R.

Definition http_MethodGet : string := "GET".
Definition http_MethodPost : string := "POST".
Definition http_MethodPatch : string := "PATCH".
Definition http_MethodDelete : string := "DELETE".
Definition http_StatusNoContent : Z := 204.

Section client.
Context {W : Type} `{!HTTP W}.
Context `{!Unmarshal Error.t, !Unmarshal CreateOrgResponse.t,
          !Unmarshal Organization.t}.
Context `{!Marshal CreateOrgPayload.t, !Marshal (list (string * string))}.

(** The [client] struct; [httpClient] is the [HTTP W] instance. *)
Variable baseURL : string.

(** The block [if resp.StatusCode >= 400 { ... }] of [makeRequest]: the
    error returned for an error response. *)
Definition categorize (resp : Response.t) : error :=
  let raw := Response.Body resp in
  match json_Unmarshal (R := Error.t) raw with
  | inl _ =>
      (* If we can't parse the error, return generic error *)
      let errorMsg :=
        "HTTP " +:+ pretty (Response.StatusCode resp) +:+ ": "
          +:+ Response.Status resp in
      if bool_decide (500 ≤ Response.StatusCode resp)
      then RetryableError (errors_New errorMsg) "server error"
      else errors_New errorMsg
  | inr apiErr =>
      if bool_decide (Response.StatusCode resp = 404)
      then NotFoundError apiErr
      else if bool_decide (Response.StatusCode resp = 409)
      then ConflictError (APIError apiErr) "resource in conflict state"
      else if bool_decide (Response.StatusCode resp = 429)
      then RetryableError (APIError apiErr) "rate limited"
      else if bool_decide (500 ≤ Response.StatusCode resp)
      then RetryableError (APIError apiErr) "server error"
      else APIError apiErr
  end.

(** [makeRequest].  [payload] is [None] for a nil payload and otherwise
    the outcome of [json.Marshal] on it; [decode] is [None] for a nil
    [result] and otherwise the decoder of the pointer's type.  The value
    returned on success is what was decoded into [result], [None] when
    nothing was decoded. *)
Definition makeRequest {R : Type} (method endpoint : string)
    (payload : option (result string)) (decode : option (string → result R))
    (w : W) : result (option R) * W :=
  let url := baseURL +:+ endpoint in
  let body : result (option string) :=
    match payload with
    | None => inr None
    | Some (inl err) => inl (errors_Wrap err "marshal payload")
    | Some (inr j) => inr (Some j)
    end in
  match body with
  | inl err => (inl err, w)
  | inr body =>
      match NewRequestWithContext method url body with
      | inl err => (inl (errors_Wrap err "create HTTP request"), w)
      | inr req =>
          let req := Request.Header_Set "Content-Type" "application/json" req in
          let req := Request.Header_Set "Accept" "application/json" req in
          match Do req w with
          | (inl err, w') =>
              (* Network errors are retryable *)
              (inl (RetryableError err "HTTP request failed (network error)"),
               w')
          | (inr resp, w') =>
              if bool_decide (400 ≤ Response.StatusCode resp)
              then (inl (categorize resp), w')
              else
                match decode with
                | Some dec =>
                    if bool_decide
                         (Response.StatusCode resp ≠ http_StatusNoContent)
                    then
                      match dec (Response.Body resp) with
                      | inl err =>
                          (inl (errors_Wrap err "decode response"), w')
                      | inr r => (inr (Some r), w')
                      end
                    else (inr None, w')
                | None => (inr None, w')
                end
          end
      end
  end.

Definition client_CreateOrganization (input : CreateOrganizationInput.t)
    (w : W) : result (Organization.t * APIKeyPair.t) * W :=
  if bool_decide (CreateOrganizationInput.Name input = "")
  then (inl (errors_New "organization name cannot be empty"), w)
  else if bool_decide (CreateOrganizationInput.OwnerID input = "")
  then (inl (errors_New "organization ownerID cannot be empty"), w)
  else
    let payload :=
      CreateOrgPayload.mk (CreateOrganizationInput.Name input)
        (CreateOrganizationInput.OwnerID input)
        (CreateOrganizationInput.APIKey input) in
    match makeRequest http_MethodPost "/orgs" (Some (json_Marshal payload))
            (Some (json_Unmarshal (R := CreateOrgResponse.t))) w with
    | (inl err, w') => (inl (errors_Wrap err "cannot create organization"), w')
    | (inr decoded, w') =>
        let orgResp := default CreateOrgResponse.zero decoded in
        let org :=
          Organization.mk (CreateOrgResponse.Organization_ID orgResp)
            (CreateOrgResponse.Organization_Name orgResp)
            (CreateOrganizationInput.OwnerID input)
            (CreateOrgResponse.Organization_IsDeleted orgResp) 0 in
        let keys :=
          APIKeyPair.mk (CreateOrgResponse.APIKey_PublicKey orgResp)
            (CreateOrgResponse.APIKey_PrivateKey orgResp) in
        (inr (org, keys), w')
    end.

Definition client_GetOrganization (id : string) (w : W)
    : result Organization.t * W :=
  match makeRequest http_MethodGet ("/orgs/" +:+ id) None
          (Some (json_Unmarshal (R := Organization.t))) w with
  | (inl err, w') => (inl err, w')
  | (inr decoded, w') => (inr (default Organization.zero decoded), w')
  end.

Definition client_UpdateOrganization (input : UpdateOrganizationInput.t)
    (w : W) : result Organization.t * W :=
  let payload : list (string * string) :=
    if bool_decide (UpdateOrganizationInput.Name input ≠ "")
    then [("name", UpdateOrganizationInput.Name input)] else [] in
  match makeRequest http_MethodPatch
          ("/orgs/" +:+ UpdateOrganizationInput.ID input)
          (Some (json_Marshal payload))
          (Some (json_Unmarshal (R := Organization.t))) w with
  | (inl err, w') => (inl err, w')
  | (inr decoded, w') => (inr (default Organization.zero decoded), w')
  end.

Definition client_DeleteOrganization (id : string) (w : W)
    : option error * W :=
  if bool_decide (id = "")
  then (Some (errors_New "organization id cannot be empty"), w)
  else
    match makeRequest (R := unit) http_MethodDelete ("/orgs/" +:+ id)
            None None w with
    | (inl err, w') => (Some err, w')
    | (inr _, w') => (None, w')
    end.

Definition client_VerifyOrganizationDeletion (id : string) (w : W)
    : option error * W :=
  if bool_decide (id = "")
  then (Some (errors_New "organization id cannot be empty"), w)
  else
    let '(r, w') :=
      makeRequest http_MethodGet ("/orgs/" +:+ id) None
        (Some (json_Unmarshal (R := Organization.t))) w in
    let err := match r with inl e => Some e | inr _ => None end in
    if IsNotFoundError err then (None, w')
    else
      match err with
      | Some e =>
          (Some (errors_Wrap e "failed to verify organization deletion"), w')
      | None =>
          (Some (errors_New ("organization " +:+ id +:+ " still exists")), w')
      end.

(** [client] implements [Service]. *)
Definition client_Service : Service W := {|
  CreateOrganization := client_CreateOrganization;
  GetOrganization := client_GetOrganization;
  UpdateOrganization := client_UpdateOrganization;
  DeleteOrganization := client_DeleteOrganization;
  VerifyOrganizationDeletion := client_VerifyOrganizationDeletion
|}.

End client.

End mongodb.

(** ** Package [aws]: the Secrets Manager wrapper *)

Module aws.

Module MongoDBAPICredentials.
Record t := mk { PublicKey : string; PrivateKey : string }.
End MongoDBAPICredentials.

Module CreateSecretInput.
Record t := mk {
  Name : string;
  SecretString : string;
  Description : string;
  Tags : list (string * string);
  KmsKeyId : option string
}.
End CreateSecretInput.

Module UpdateSecretInput.
Record t := mk {
  SecretId : string;
  SecretString : string;
  KmsKeyId : option string
}.
End UpdateSecretInput.

Module DeleteSecretInput.
Record t := mk {
  SecretId : string;
  ForceDeleteWithoutRecovery : option bool;
  RecoveryWindowInDays : option Z
}.
End DeleteSecretInput.

Module DescribeSecretOutput.
Record t := mk { ARN : option string; Name : option string }.
End DescribeSecretOutput.

(** The operations of [secretsmanager.Client] the wrapper calls.  The
    create and update outputs are reduced to their [ARN], the value output
    to its [SecretString]. *)
Class SecretsManager (W : Type) := {
  sm_CreateSecret : CreateSecretInput.t → W → result (option string) * W;
  sm_UpdateSecret : UpdateSecretInput.t → W → result (option string) * W;
  sm_GetSecretValue : string → W → result (option string) * W;
  sm_DescribeSecret : string → W → result DescribeSecretOutput.t * W;
  sm_DeleteSecret : DeleteSecretInput.t → W → option error * W
}.

(** [aws.ToString]: a nil pointer reads as the empty string. *)
Definition ToString (p : option string) : string := default "" p.

(** [errors.As(err, &existsErr)] for [*smtypes.ResourceExistsException]:
    follows the chain of wrapped causes. *)
Fixpoint errors_As_ResourceExistsException (err : error) : bool :=
  match err with
  | AWSError code _ => bool_decide (code = "ResourceExistsException")
  | errors_Wrap cause _ => errors_As_ResourceExistsException cause
  | _ => false
  end.

Section Client.
Context {W : Type} `{!SecretsManager W}.
Context `{!mongodb.Marshal MongoDBAPICredentials.t,
          !mongodb.Unmarshal MongoDBAPICredentials.t}.

(** [PutSecret] creates or updates a MongoDB API key secret. *)
Definition PutSecret (secretName : string) (creds : MongoDBAPICredentials.t)
    (OrgID : string) (kmsKeyID : option string) (w : W) : result string * W :=
  match mongodb.json_Marshal creds with
  | inl err => (inl (errors_Wrap err "cannot marshal MongoDB credentials"), w)
  | inr data =>
      let input :=
        CreateSecretInput.mk secretName data
          ("MongoDB API credentials for organization " +:+ OrgID)
          [("Provider", "mongodb-crossplane"); ("OrgID", OrgID);
           ("CreatedBy", "crossplane-mongodb-provider")]
          kmsKeyID in
      match sm_CreateSecret input w with
      | (inl err, w1) =>
          if errors_As_ResourceExistsException err then
            (* Secret exists, update it *)
            let updateInput := UpdateSecretInput.mk secretName data kmsKeyID in
            match sm_UpdateSecret updateInput w1 with
            | (inl err, w2) =>
                (inl (errors_Wrap err "cannot update existing AWS secret"), w2)
            | (inr arn, w2) => (inr (ToString arn), w2)
            end
          else (inl (errors_Wrap err "cannot create AWS secret"), w1)
      | (inr arn, w1) => (inr (ToString arn), w1)
      end
  end.

(** [GetSecret] retrieves and decodes a secret. *)
Definition GetSecret (secretName : string) (w : W)
    : result MongoDBAPICredentials.t * W :=
  match sm_GetSecretValue secretName w with
  | (inl err, w1) =>
      (inl (errors_Wrap err "cannot get secret from AWS Secrets Manager"), w1)
  | (inr None, w1) => (inl (errors_New "secret string is nil"), w1)
  | (inr (Some s), w1) =>
      match mongodb.json_Unmarshal (R := MongoDBAPICredentials.t) s with
      | inl err => (inl (errors_Wrap err "cannot unmarshal AWS secret JSON"), w1)
      | inr creds => (inr creds, w1)
      end
  end.

(** [DescribeSecret] returns secret metadata including the ARN. *)
Definition DescribeSecret (secretName : string) (w : W)
    : result DescribeSecretOutput.t * W :=
  sm_DescribeSecret secretName w.

(** [DeleteSecret] deletes a secret. *)
Definition DeleteSecret (secretName : string) (forceDelete : bool) (w : W)
    : option error * W :=
  let input :=
    if forceDelete
    then DeleteSecretInput.mk secretName (Some true) None
    else DeleteSecretInput.mk secretName None (Some 7) in
  match sm_DeleteSecret input w with
  | (Some err, w1) =>
      (Some (errors_Wrap err "cannot delete secret from AWS Secrets Manager"),
       w1)
  | (None, w1) => (None, w1)
  end.

End Client.

End aws.

(** ** Package [managed] of crossplane-runtime: the result types *)

Module managed.

Module ExternalObservation.
Record t := mk { ResourceExists : bool; ResourceUpToDate : bool }.
End ExternalObservation.

Module ExternalCreation.
Record t := mk { ConnectionDetails : gmap string string }.
Definition zero : t := mk ∅.
End ExternalCreation.

Module ExternalUpdate.
Record t := mk { ConnectionDetails : gmap string string }.
Definition zero : t := mk ∅.
End ExternalUpdate.

End managed.

(** ** Package [organization]: the controller *)

Module organization.

Import v1alpha1 managed.

Definition secretPrefix : string := "product/mongodb/".
Definition errDeleteExternal : string := "cannot delete external organization".
Definition FinalizerOrganizationCleanup : string :=
  "organization.platform.allianz.io/cleanup".

(** What an operation of the controller does to its collaborators, in
    order: one event per method called on the [Service] client or on the
    AWS client, and one per debug line. *)
Inductive Event :=
| CallCreateOrganization (input : mongodb.CreateOrganizationInput.t)
| CallGetOrganization (id : string)
| CallUpdateOrganization (input : mongodb.UpdateOrganizationInput.t)
| CallDeleteOrganization (id : string)
| CallVerifyOrganizationDeletion (id : string)
| CallPutSecret (secretName : string) (creds : aws.MongoDBAPICredentials.t)
    (orgID : string) (kmsKeyID : option string)
| CallGetSecret (secretName : string)
| CallDescribeSecret (secretName : string)
| CallDeleteSecret (secretName : string) (forceDelete : bool)
| LogDebug (msg : string).

(** Calls on the Organization API client. *)
Definition isServiceCall (e : Event) : bool :=
  match e with
  | CallCreateOrganization _ | CallGetOrganization _
  | CallUpdateOrganization _ | CallDeleteOrganization _
  | CallVerifyOrganizationDeletion _ => true
  | _ => false
  end.

(** Calls on the credential store client. *)
Definition isSecretCall (e : Event) : bool :=
  match e with
  | CallPutSecret _ _ _ _ | CallGetSecret _ | CallDescribeSecret _
  | CallDeleteSecret _ _ => true
  | _ => false
  end.

Definition isRemoteCall (e : Event) : bool := isServiceCall e || isSecretCall e.

(** Remote delete calls, on either backend. *)
Definition isRemoteDelete (e : Event) : bool :=
  match e with
  | CallDeleteOrganization _ | CallDeleteSecret _ _ => true
  | _ => false
  end.

(** How many times a finalizer token is recorded on a resource. *)
Definition finalizerCount (cr : Organization.t) (finalizer : string) : nat :=
  length (filter (λ e, e = finalizer) (Organization.Finalizers cr)).

(** The calls among the events of a trace, in order. *)
Definition remoteCalls (tr : list Event) : list Event :=
  List.filter isRemoteCall tr.

(** *** The monad of the controller *)

Record State (W : Type) := mkState { world : W; trace : list Event }.
Arguments mkState {W} _ _.
Arguments world {W} _.
Arguments trace {W} _.

Definition M (W A : Type) : Type := State W → A * State W.

Global Instance M_ret {W} : MRet (M W) := λ A a s, (a, s).
Global Instance M_bind {W} : MBind (M W) :=
  λ A B f m s, let '(a, s') := m s in f a s'.

(** Record an event. *)
Definition emit {W} (e : Event) : M W unit :=
  λ s, (tt, mkState (world s) (trace s ++ [e])).

(** Run a remote operation on the world and record the call. *)
Definition remote {W A} (e : Event) (op : W → A * W) : M W A :=
  λ s, let '(a, w') := op (world s) in (a, mkState w' (trace s ++ [e])).

Definition logger_Debug {W} (msg : string) : M W unit := emit (LogDebug msg).

(** derive final secret name *)
Definition finalSecretName (cr : Organization.t) : string :=
  match AWSSecretsManagerReference.SecretName
          (OrganizationParameters.AWSSecretsConfig (Organization.ForProvider cr))
  with
  | Some n => if bool_decide (n ≠ "") then secretPrefix +:+ n
              else secretPrefix +:+ Organization.Name cr
  | None => secretPrefix +:+ Organization.Name cr
  end.

(** The [svc.CreateOrganizationInput] literal that [Create] passes to the
    client. *)
Definition createInput (cr : Organization.t) : mongodb.CreateOrganizationInput.t :=
  let fp := Organization.ForProvider cr in
  mongodb.CreateOrganizationInput.mk (Organization.Name cr)
    (OrganizationParameters.OwnerID fp)
    (mongodb.APIKey.mk
       (OrganizationAPIKey.Description (OrganizationParameters.APIKey fp))
       (OrganizationAPIKey.Roles (OrganizationParameters.APIKey fp))).

(** The [awsclient.MongoDBAPICredentials] literal that [Create] stores. *)
Definition credentials (apiKey : mongodb.APIKeyPair.t)
    : aws.MongoDBAPICredentials.t :=
  aws.MongoDBAPICredentials.mk (mongodb.APIKeyPair.PublicKey apiKey)
    (mongodb.APIKeyPair.PrivateKey apiKey).

Section external.
Context {W : Type} `{!mongodb.Service W, !aws.SecretsManager W}.
Context `{!mongodb.Marshal aws.MongoDBAPICredentials.t}.

(** The methods of [c.client] and [c.awsClient], as the controller calls
    them. *)
Definition client_CreateOrganization (input : mongodb.CreateOrganizationInput.t)
    : M W (result (mongodb.Organization.t * mongodb.APIKeyPair.t)) :=
  remote (CallCreateOrganization input) (mongodb.CreateOrganization input).

Definition client_DeleteOrganization (id : string) : M W (option error) :=
  remote (CallDeleteOrganization id) (mongodb.DeleteOrganization id).

Definition awsClient_PutSecret (secretName : string)
    (creds : aws.MongoDBAPICredentials.t) (orgID : string)
    (kmsKeyID : option string) : M W (result string) :=
  remote (CallPutSecret secretName creds orgID kmsKeyID)
         (aws.PutSecret secretName creds orgID kmsKeyID).

Definition awsClient_DescribeSecret (secretName : string)
    : M W (result aws.DescribeSecretOutput.t) :=
  remote (CallDescribeSecret secretName) (aws.DescribeSecret secretName).

Definition awsClient_DeleteSecret (secretName : string) (forceDelete : bool)
    : M W (option error) :=
  remote (CallDeleteSecret secretName forceDelete)
         (aws.DeleteSecret secretName forceDelete).

(** Enhanced Observe with deletion state detection *)
Definition Observe (cr : Organization.t)
    : M W (Organization.t * ExternalObservation.t * option error) :=
  let orgID := meta.GetExternalName cr in
  if bool_decide (orgID = "")
  then mret (cr, ExternalObservation.mk false false, None)
  else
    let cr := Organization.set_OrgID orgID cr in
    (* Check if resource is marked for deletion *)
    match Organization.DeletionTimestamp cr with
    | Some _ =>
        logger_Debug "Organization marked for deletion";;
        let cr := Organization.SetConditions xpv1.Deleting cr in
        mret (cr, ExternalObservation.mk true false, None)
    | None =>
        (* refresh secret metadata *)
        let secretName := finalSecretName cr in
        r ← awsClient_DescribeSecret secretName;
        match r with
        | inl err =>
            logger_Debug "Failed to describe secret";;
            (* Don't fail if secret doesn't exist - it might be cleaned up *)
            let cr := Organization.SetConditions xpv1.Available cr in
            mret (cr, ExternalObservation.mk true true, None)
        | inr desc =>
            let cr :=
              match aws.DescribeSecretOutput.ARN desc with
              | Some arn =>
                  Organization.set_SecretARN arn
                    (Organization.set_SecretName secretName cr)
              | None => cr
              end in
            let cr := Organization.SetConditions xpv1.Available cr in
            mret (cr, ExternalObservation.mk true true, None)
        end
    end.

Definition Create (cr : Organization.t)
    : M W (Organization.t * ExternalCreation.t * option error) :=
  let fp := Organization.ForProvider cr in
  r ← client_CreateOrganization (createInput cr);
  match r with
  | inl err => mret (cr, ExternalCreation.zero, Some err)
  | inr (org, apiKey) =>
      let cr := meta.SetExternalName cr (mongodb.Organization.ID org) in
      let cr := Organization.set_OrgID (mongodb.Organization.ID org) cr in
      let cr := Organization.set_OrgName (mongodb.Organization.Name org) cr in
      let secretName := finalSecretName cr in
      let creds := credentials apiKey in
      r2 ← awsClient_PutSecret secretName creds (mongodb.Organization.ID org)
             (AWSSecretsManagerReference.KMSKeyID
                (OrganizationParameters.AWSSecretsConfig fp));
      match r2 with
      | inl err =>
          mret (cr, ExternalCreation.zero,
                Some (errors_Wrap err "failed to put secret"))
      | inr arn =>
          let cr := Organization.set_SecretName secretName cr in
          let cr := Organization.set_SecretARN arn cr in
          mret (cr,
                ExternalCreation.mk
                  (<["secretARN" := arn]>
                     (<["privateKey" := mongodb.APIKeyPair.PrivateKey apiKey]>
                        (<["publicKey" := mongodb.APIKeyPair.PublicKey apiKey]>
                           ∅))),
                None)
      end
  end.

Definition Update (cr : Organization.t)
    : M W (Organization.t * ExternalUpdate.t * option error) :=
  mret (cr, ExternalUpdate.zero, None).

(** Enhanced Delete with finalizer management and error handling.  The
    call of [meta.RemoveFinalizer] can panic, and then so does [Delete]. *)
Definition Delete (cr : Organization.t)
    : M W (outcome (Organization.t * option error)) :=
  let orgID := meta.GetExternalName cr in
  if bool_decide (orgID = "")
  then
    logger_Debug "Delete called but externalName (orgID) is empty — no external delete API will be invoked";;
    mret (Returns (cr, None))
  else
    (* Debug: Starting delete workflow *)
    logger_Debug "Delete() invoked for Organization";;
    (* 1. Add finalizer if missing *)
    if negb (meta.FinalizerExists cr FinalizerOrganizationCleanup)
    then
      logger_Debug "Finalizer missing — adding finalizer before delete";;
      let cr := meta.AddFinalizer cr FinalizerOrganizationCleanup in
      mret (Returns (cr, None))
    else
      logger_Debug "Calling MongoDB Atlas API → DeleteOrganization()";;
      err ← client_DeleteOrganization orgID;
      (* 404 means already deleted *)
      if mongodb.IsNotFoundError err
      then
        logger_Debug "MongoDB Atlas API returned 404 — org already deleted";;
        let secretName := finalSecretName cr in
        logger_Debug "Secret cleanup step: calling AWS DeleteSecret()";;
        delErr ← awsClient_DeleteSecret secretName true;
        (if delErr is Some _ then logger_Debug "AWS DeleteSecret failed"
         else mret tt);;
        match meta.RemoveFinalizer cr FinalizerOrganizationCleanup with
        | Panics msg => mret (Panics msg)
        | Returns cr =>
            let cr := Organization.SetConditions xpv1.ReconcileSuccess cr in
            mret (Returns (cr, None))
        end
      else
        match err with
        | Some e =>
            (* Handle other failures *)
            logger_Debug "Atlas DeleteOrganization() returned error";;
            let cr := Organization.SetConditions (xpv1.ReconcileError e) cr in
            mret (Returns (cr, Some (errors_Wrap e errDeleteExternal)))
        | None =>
            (* 3. SUCCESS — remove finalizer *)
            logger_Debug "MongoDB Atlas organization deleted successfully";;
            let secretName := finalSecretName cr in
            logger_Debug "Secret cleanup step: calling AWS DeleteSecret()";;
            delErr ← awsClient_DeleteSecret secretName true;
            (if delErr is Some _ then logger_Debug "AWS DeleteSecret failed"
             else mret tt);;
            match meta.RemoveFinalizer cr FinalizerOrganizationCleanup with
            | Panics msg => mret (Panics msg)
            | Returns cr =>
                let cr := Organization.SetConditions xpv1.ReconcileSuccess cr in
                mret (Returns (cr, None))
            end
        end.

End external.

End organization.

(** ** In-memory backends

    Executable instances of the collaborator interfaces, used to run the
    controller on concrete inputs. *)

Module fake.

Import v1alpha1.

Definition dq : string := String (Ascii.ascii_of_nat 34) EmptyString.

(** A JSON object with string members. *)
Definition jsonObject (members : list (string * string)) : string :=
  "{" +:+ String.concat ","
            (map (λ kv, dq +:+ kv.1 +:+ dq +:+ ":" +:+ dq +:+ kv.2 +:+ dq)
                 members)
      +:+ "}".

Global Instance Marshal_creds : mongodb.Marshal aws.MongoDBAPICredentials.t :=
  λ c, inr (jsonObject [("publicKey", aws.MongoDBAPICredentials.PublicKey c);
                        ("privateKey", aws.MongoDBAPICredentials.PrivateKey c)]).

(** The two remote systems: the organizations known to the Organization
    API, the secrets held by the credential store, and a switch that takes
    the credential store down. *)
Record World := mkWorld {
  orgs : gmap string mongodb.Organization.t;
  secrets : gmap string aws.CreateSecretInput.t;
  storeDown : bool
}.

Definition notFound : error :=
  NotFoundError (Error.mk 404 "organization does not exist" "RESOURCE_NOT_FOUND").

Definition newOrgID : string := "org-42".

Global Instance Service_fake : mongodb.Service World := {|
  mongodb.CreateOrganization input w :=
    let org :=
      mongodb.Organization.mk newOrgID (mongodb.CreateOrganizationInput.Name input)
        (mongodb.CreateOrganizationInput.OwnerID input) false 0 in
    (inr (org, mongodb.APIKeyPair.mk "pub" "priv"),
     mkWorld (<[newOrgID := org]> (orgs w)) (secrets w) (storeDown w));
  mongodb.GetOrganization id w :=
    match orgs w !! id with
    | Some org => (inr org, w)
    | None => (inl notFound, w)
    end;
  mongodb.UpdateOrganization input w :=
    match orgs w !! mongodb.UpdateOrganizationInput.ID input with
    | Some org => (inr org, w)
    | None => (inl notFound, w)
    end;
  mongodb.DeleteOrganization id w :=
    match orgs w !! id with
    | Some _ => (None, mkWorld (delete id (orgs w)) (secrets w) (storeDown w))
    | None => (Some notFound, w)
    end;
  mongodb.VerifyOrganizationDeletion id w :=
    match orgs w !! id with
    | Some _ =>
        (Some (errors_New ("organization " +:+ id +:+ " still exists")), w)
    | None => (None, w)
    end
|}.

Definition unavailable : error :=
  AWSError "InternalServiceError" "the credential store is unavailable".
Definition missing (name : string) : error :=
  AWSError "ResourceNotFoundException" name.
Definition arnOf (name : string) : string :=
  "arn:aws:secretsmanager:eu-central-1:000000000000:secret:" +:+ name.

Global Instance SecretsManager_fake : aws.SecretsManager World := {|
  aws.sm_CreateSecret input w :=
    if storeDown w then (inl unavailable, w)
    else
      match secrets w !! aws.CreateSecretInput.Name input with
      | Some _ =>
          (inl (AWSError "ResourceExistsException"
                         (aws.CreateSecretInput.Name input)), w)
      | None =>
          (inr (Some (arnOf (aws.CreateSecretInput.Name input))),
           mkWorld (orgs w)
             (<[aws.CreateSecretInput.Name input := input]> (secrets w))
             (storeDown w))
      end;
  aws.sm_UpdateSecret input w :=
    if storeDown w then (inl unavailable, w)
    else
      match secrets w !! aws.UpdateSecretInput.SecretId input with
      | Some old =>
          (inr (Some (arnOf (aws.UpdateSecretInput.SecretId input))),
           mkWorld (orgs w)
             (<[aws.UpdateSecretInput.SecretId input :=
                  aws.CreateSecretInput.mk (aws.CreateSecretInput.Name old)
                    (aws.UpdateSecretInput.SecretString input)
                    (aws.CreateSecretInput.Description old)
                    (aws.CreateSecretInput.Tags old)
                    (aws.UpdateSecretInput.KmsKeyId input)]> (secrets w))
             (storeDown w))
      | None => (inl (missing (aws.UpdateSecretInput.SecretId input)), w)
      end;
  aws.sm_GetSecretValue name w :=
    if storeDown w then (inl unavailable, w)
    else
      match secrets w !! name with
      | Some s => (inr (Some (aws.CreateSecretInput.SecretString s)), w)
      | None => (inl (missing name), w)
      end;
  aws.sm_DescribeSecret name w :=
    if storeDown w then (inl unavailable, w)
    else
      match secrets w !! name with
      | Some _ => (inr (aws.DescribeSecretOutput.mk (Some (arnOf name)) (Some name)), w)
      | None => (inl (missing name), w)
      end;
  aws.sm_DeleteSecret input w :=
    if storeDown w then (Some unavailable, w)
    else
      (None,
       mkWorld (orgs w) (delete (aws.DeleteSecretInput.SecretId input) (secrets w))
         (storeDown w))
|}.

(** The resource of the concrete scenario: name [acme], owner [u-1],
    credential description [x], roles [OWNER], no explicit secret name. *)
Definition acme : Organization.t :=
  Organization.mk "acme" ∅ [] None
    (OrganizationParameters.mk (OrganizationAPIKey.mk "x" ["OWNER"]) "u-1"
       (AWSSecretsManagerReference.mk "eu-central-1" None None))
    [] OrganizationObservation.zero.

(** [acme] after creation: external name [org-42]. *)
Definition acmeCreated : Organization.t :=
  meta.SetExternalName acme "org-42".

(** A second created resource: the external name of [acmeCreated] under
    another [metadata.name]. *)
Definition otherCreated : Organization.t :=
  meta.SetExternalName
    (Organization.mk "other" ∅ [] None (Organization.ForProvider acme) []
       OrganizationObservation.zero) "org-42".

(** [acmeCreated] with the cleanup finalizer recorded. *)
Definition acmeFinalized : Organization.t :=
  meta.AddFinalizer acmeCreated organization.FinalizerOrganizationCleanup.

Definition acmeOrg : mongodb.Organization.t :=
  mongodb.Organization.mk "org-42" "acme" "u-1" false 0.

Definition acmeSecret : aws.CreateSecretInput.t :=
  aws.CreateSecretInput.mk "product/mongodb/acme"
    (jsonObject [("publicKey", "pub"); ("privateKey", "priv")])
    "MongoDB API credentials for organization org-42"
    [("Provider", "mongodb-crossplane"); ("OrgID", "org-42");
     ("CreatedBy", "crossplane-mongodb-provider")] None.

(** Worlds: nothing created yet; organization and secret both present;
    organization gone but secret left; the same with the store down. *)
Definition empty : World := mkWorld ∅ ∅ false.
Definition emptyStoreDown : World := mkWorld ∅ ∅ true.
Definition both : World :=
  mkWorld {[ "org-42" := acmeOrg ]} {[ "product/mongodb/acme" := acmeSecret ]}
          false.
Definition bothStoreDown : World :=
  mkWorld {[ "org-42" := acmeOrg ]} {[ "product/mongodb/acme" := acmeSecret ]}
          true.
Definition orgGone : World :=
  mkWorld ∅ {[ "product/mongodb/acme" := acmeSecret ]} false.
Definition secretGone : World :=
  mkWorld {[ "org-42" := acmeOrg ]} ∅ false.

Definition start (w : World) : organization.State World :=
  organization.mkState w [].

(** *** A canned HTTP exchange

    The world is the outcome the next [Do] will have.  The decoder of
    error bodies fails on the empty body, as [json.Unmarshal] does, and
    otherwise knows the documents of [knownErrors]. *)

Definition knownErrors : list Error.t :=
  [ Error.mk 404 "organization does not exist" "RESOURCE_NOT_FOUND";
    Error.mk 409 "organization is being modified" "CONFLICT";
    Error.mk 429 "too many requests" "RATE_LIMITED";
    Error.mk 503 "try again later" "SERVICE_UNAVAILABLE";
    Error.mk 400 "bad request" "INVALID_ATTRIBUTE" ].

Definition renderError (e : Error.t) : string :=
  "{" +:+ dq +:+ "error" +:+ dq +:+ ":" +:+ pretty (Error.Code e) +:+ ","
      +:+ dq +:+ "detail" +:+ dq +:+ ":" +:+ dq +:+ Error.Detail e +:+ dq +:+ ","
      +:+ dq +:+ "reason" +:+ dq +:+ ":" +:+ dq +:+ Error.Reason e +:+ dq +:+ "}".

Global Instance Unmarshal_Error : mongodb.Unmarshal Error.t :=
  λ raw,
    if bool_decide (raw = "") then inl (errors_New "unexpected end of JSON input")
    else
      match List.find (λ e, bool_decide (renderError e = raw)) knownErrors with
      | Some e => inr e
      | None => inl (errors_New "invalid character")
      end.

Global Instance HTTP_canned : mongodb.HTTP (result mongodb.Response.t) := {|
  mongodb.NewRequestWithContext method url body :=
    inr (mongodb.Request.mk method url body []);
  mongodb.Do req w := (w, w)
|}.

Definition baseURL : string := "https://cloud.mongodb.com/api/atlas/v1.0".

Definition respond (status : Z) (text body : string)
    : result mongodb.Response.t :=
  inr (mongodb.Response.mk status text body).

End fake.

(** ** Package [organization] of [internal/clients/atlas]: the first Atlas
    client, which signs with the root key pair or with the key pair of the
    organization *)

Module atlas.

Definition errRequest (code : Z) (reason : string) : string :=
  "request failed with status code " +:+ pretty code +:+ " and reason: "
    +:+ reason.

Definition getOrganizationURL (orgID : string) : string :=
  "https://cloud.mongodb.com/api/atlas/v1.0/orgs/" +:+ orgID.
Definition createOrganizationURL : string :=
  "https://cloud.mongodb.com/api/atlas/v1.0/orgs".
Definition deleteOrganizationURL (orgID : string) : string :=
  "https://cloud.mongodb.com/api/atlas/v1.0/orgs/" +:+ orgID.

Module Credentials.
Record t := mk { PublicKey : string; PrivateKey : string }.
End Credentials.

Module Client.
Record t := mk {
  rootCredentials : Credentials.t;
  orgCredentials : option Credentials.t   (* *Credentials *)
}.
End Client.

Module GetOrgResponse.
Record t := mk { IsDeleted : bool; Name : string }.
Definition zero : t := mk false "".
End GetOrgResponse.

Module ErrorResponse.
Record t := mk { Reason : string; Detail : string }.
End ErrorResponse.

Module APIKey.
Record t := mk { Description : string; Roles : list string }.
End APIKey.

Module CreateOrgPayload.
Record t := mk { Name : string; OrgOwnerID : string; APIKey : APIKey.t }.
End CreateOrgPayload.

Module CreateOrgResponse.
Record t := mk {
  APIKey_ID : string;
  APIKey_PrivateKey : string;
  APIKey_PublicKey : string;
  Organization_ID : string;
  Organization_IsDeleted : bool
}.
End CreateOrgResponse.

(** [ErrNotFound] is an error representing a 404 http response. *)
Definition ErrNotFound : error := errors_New "not found".

(** A response: its status code and what [io.ReadAll(res.Body)] returns
    when the body is read. *)
Module Response.
Record t := mk { StatusCode : Z; Body : result string }.
End Response.

(** [http.NewRequestWithContext], and [Do] on an [http.Client] whose digest
    transport signs with the given key pair. *)
Class HTTP (W : Type) := {
  NewRequestWithContext :
    string → string → option string → result mongodb.Request.t;
  Do : Credentials.t → mongodb.Request.t → W → result Response.t * W
}.

(** [NewAtlasClient] creates an atlas client. *)
Definition NewAtlasClient (rootCredentials : Credentials.t)
    (orgCredentials : option Credentials.t) : result Client.t :=
  inr (Client.mk rootCredentials orgCredentials).

(** The key pair of the digest transport of [getRootClient]. *)
Definition getRootClient (c : Client.t) : Credentials.t :=
  Client.rootCredentials c.

(** The key pair of the digest transport of [getOrgClient]; reading the
    fields of a nil [orgCredentials] panics. *)
Definition getOrgClient (c : Client.t) : outcome Credentials.t :=
  match Client.orgCredentials c with
  | Some k => Returns k
  | None => Panics nilDereference
  end.

Section Client.
Context {W : Type} `{!HTTP W}.
Context `{!mongodb.Unmarshal GetOrgResponse.t, !mongodb.Unmarshal ErrorResponse.t,
          !mongodb.Unmarshal CreateOrgResponse.t,
          !mongodb.Marshal CreateOrgPayload.t}.

(** [GetOrganization] function to check the status of the organization *)
Definition GetOrganization (c : Client.t) (orgID : string) (w : W)
    : outcome (result GetOrgResponse.t) * W :=
  if bool_decide (Client.orgCredentials c = None)
  then (Returns (inl (errors_New "missing org credentials to get organization")),
        w)
  else
    let requestURL := getOrganizationURL orgID in
    match NewRequestWithContext "GET" requestURL None with
    | inl err => (Returns (inl err), w)
    | inr request =>
        match getOrgClient c with
        | Panics msg => (Panics msg, w)
        | Returns k =>
            match Do k request w with
            | (inl err, w') => (Returns (inl err), w')
            | (inr res, w') =>
                match Response.Body res with
                | inl err => (Returns (inl err), w')
                | inr resBody =>
                    if bool_decide (Response.StatusCode res = 200)
                    then
                      match mongodb.json_Unmarshal (R := GetOrgResponse.t)
                              resBody with
                      | inl err => (Returns (inl err), w')
                      | inr org => (Returns (inr org), w')
                      end
                    else if bool_decide (Response.StatusCode res = 404)
                    then
                      (* return GetOrgResponse{}, err   with err == nil *)
                      (Returns (inr GetOrgResponse.zero), w')
                    else
                      (* error status code *)
                      match mongodb.json_Unmarshal (R := ErrorResponse.t)
                              resBody with
                      | inl err => (Returns (inl err), w')
                      | inr errResp =>
                          (Returns
                             (inl (errors_New
                                     (errRequest (Response.StatusCode res)
                                        resBody))), w')
                      end
                end
            end
        end
    end.

(** [CreateOrganization] function to create a new organization *)
Definition CreateOrganization (c : Client.t) (name : string)
    (apiKey : APIKey.t) (ownerID : string) (w : W)
    : outcome (result CreateOrgResponse.t) * W :=
  let payload := CreateOrgPayload.mk name ownerID apiKey in
  match mongodb.json_Marshal payload with
  | inl err => (Returns (inl err), w)
  | inr payloadBytes =>
      match NewRequestWithContext "POST" createOrganizationURL
              (Some payloadBytes) with
      | inl err => (Returns (inl err), w)
      | inr request =>
          let request :=
            mongodb.Request.Header_Set "Content-Type" "application/json"
              request in
          match Do (getRootClient c) request w with
          | (inl err, w') => (Returns (inl err), w')
          | (inr res, w') =>
              match Response.Body res with
              | inl err => (Returns (inl err), w')
              | inr resBody =>
                  if bool_decide (Response.StatusCode res = 201)
                  then
                    match mongodb.json_Unmarshal (R := CreateOrgResponse.t)
                            resBody with
                    | inl err => (Returns (inl err), w')
                    | inr org => (Returns (inr org), w')
                    end
                  else if bool_decide (Response.StatusCode res = 404)
                  then
                    (Returns (inl (errors_New ("not found: " +:+ resBody))),
                     w')
                  else
                    (* error status code *)
                    match mongodb.json_Unmarshal (R := ErrorResponse.t)
                            resBody with
                    | inl err => (Returns (inl err), w')
                    | inr errResp =>
                        (Returns
                           (inl (errors_New
                                   (errRequest (Response.StatusCode res)
                                      (ErrorResponse.Detail errResp)))), w')
                    end
              end
          end
      end
  end.

(** [DeleteOrganization] function to delete an existing organization *)
Definition DeleteOrganization (c : Client.t) (orgID : string) (w : W)
    : outcome (option error) * W :=
  let requestURL := deleteOrganizationURL orgID in
  match NewRequestWithContext "POST" requestURL None with
  | inl err => (Returns (Some err), w)
  | inr request =>
      let request :=
        mongodb.Request.Header_Set "Content-Type" "application/json" request in
      match getOrgClient c with
      | Panics msg => (Panics msg, w)
      | Returns k =>
          match Do k request w with
          | (inl err, w') => (Returns (Some err), w')
          | (inr res, w') =>
              if bool_decide (Response.StatusCode res = 204)
              then (Returns None, w')
              else if bool_decide (Response.StatusCode res = 404)
              then (Returns (Some ErrNotFound), w')
              else
                (* error status code *)
                match Response.Body res with
                | inl err => (Returns (Some err), w')
                | inr resBody =>
                    match mongodb.json_Unmarshal (R := ErrorResponse.t)
                            resBody with
                    | inl err => (Returns (Some err), w')
                    | inr errResp =>
                        (Returns
                           (Some (errors_New
                                    (errRequest (Response.StatusCode res)
                                       (ErrorResponse.Reason errResp)))), w')
                    end
                end
          end
      end
  end.

End Client.

End atlas.

(** ** Package [v1alpha1] of [apis]: the provider configuration *)

Module apisv1alpha1.

Definition CredentialsSourceAWS : string := "AWS".

Module AWSSecretsManagerReference.
Record t := mk {
  Region : string;
  SecretName : option string;
  KMSKeyID : option string;
  SecretKey : option string
}.
End AWSSecretsManagerReference.

Module AWSCredentialsSource.
Record t := mk { SecretsManager : option AWSSecretsManagerReference.t }.
End AWSCredentialsSource.

Module ProviderCredentials.
Record t := mk { Source : string; AWS : option AWSCredentialsSource.t }.
End ProviderCredentials.

(** [ProviderConfig], reduced to [spec.credentials]. *)
Module ProviderConfig.
Record t := mk { Credentials : ProviderCredentials.t }.
End ProviderConfig.

End apisv1alpha1.

(** ** The connector of the organization controller *)

Module connector.

Import v1alpha1.

Definition errNotOrganization : string :=
  "managed resource is not an Organization custom resource".
Definition errTrackPCUsage : string := "cannot track ProviderConfig usage".
Definition errGetPC : string := "cannot get ProviderConfig".
Definition errInvalidPCConfig : string :=
  "ProviderConfig must use AWS Secret containing publicKey and privateKey".
Definition errAWSClient : string := "cannot create AWS client".
Definition CredentialsSourceAWS : string := "AWS".

(** A [resource.Managed]: an [Organization] together with what its
    [GetProviderConfigReference] returns, the name of the reference or
    [None] for a nil pointer (the method is generated code; the VPC
    endpoint connector tests its result against nil), or a resource of
    another kind. *)
Inductive Managed :=
| IsOrganization (cr : Organization.t) (providerConfigReference : option string)
| OtherKind (kind : string).

(** [svc.Credentials]: the key pair handed to [newServiceFn]. *)
Module Credentials.
Record t := mk { PublicKey : string; PrivateKey : string }.
End Credentials.

(** [*awsclient.Client], as [NewClient] builds it for a region. *)
Module awsClient.
Record t := mk { Region : string }.
End awsClient.

(** The [external] client that [Connect] returns: [client] is
    [newServiceFn] applied to the key pair kept here. *)
Module external.
Record t := mk { client : Credentials.t; awsClient : awsClient.t }.
End external.

(** The collaborators of the [connector]: [usage.Track], [kube.Get] of a
    [ProviderConfig] by name, and [newAWSClientFn]. *)
Class Collaborators (W : Type) := {
  usage_Track : Managed → W → option error * W;
  kube_Get : string → W → result apisv1alpha1.ProviderConfig.t * W;
  newAWSClientFn : string → W → result awsClient.t * W
}.

Section connector.
Context {W : Type} `{!Collaborators W, !aws.SecretsManager W}.
Context `{!mongodb.Unmarshal aws.MongoDBAPICredentials.t}.

Definition Connect (mg : Managed) (w : W) : outcome (result external.t) * W :=
  match mg with
  | OtherKind _ => (Returns (inl (errors_New errNotOrganization)), w)
  | IsOrganization cr ref =>
      match usage_Track mg w with
      | (Some err, w1) => (Returns (inl (errors_Wrap err errTrackPCUsage)), w1)
      | (None, w1) =>
          (* cr.GetProviderConfigReference().Name *)
          match ref with
          | None => (Panics nilDereference, w1)
          | Some name =>
              match kube_Get name w1 with
              | (inl err, w2) => (Returns (inl (errors_Wrap err errGetPC)), w2)
              | (inr pc, w2) =>
                  let creds := apisv1alpha1.ProviderConfig.Credentials pc in
                  if bool_decide (apisv1alpha1.ProviderCredentials.Source creds
                                  ≠ CredentialsSourceAWS)
                  then (Returns (inl (errors_New errInvalidPCConfig)), w2)
                  else
                    (* awsCfg := pc.Spec.Credentials.AWS.SecretsManager *)
                    match apisv1alpha1.ProviderCredentials.AWS creds with
                    | None => (Panics nilDereference, w2)
                    | Some awsSource =>
                        (* awsCfg.Region *)
                        match apisv1alpha1.AWSCredentialsSource.SecretsManager
                                awsSource with
                        | None => (Panics nilDereference, w2)
                        | Some awsCfg =>
                            match newAWSClientFn
                                    (apisv1alpha1.AWSSecretsManagerReference.Region
                                       awsCfg) w2 with
                            | (inl err, w3) =>
                                (Returns (inl (errors_Wrap err errAWSClient)), w3)
                            | (inr awsClient, w3) =>
                                (* *awsCfg.SecretName *)
                                match apisv1alpha1.AWSSecretsManagerReference.SecretName
                                        awsCfg with
                                | None => (Panics nilDereference, w3)
                                | Some secretName =>
                                    match aws.GetSecret secretName w3 with
                                    | (inl err, w4) =>
                                        (Returns
                                           (inl (errors_Wrap err
                                                   "cannot get AWS secret from ProviderConfig")),
                                         w4)
                                    | (inr credsAWS, w4) =>
                                        (Returns
                                           (inr (external.mk
                                                   (Credentials.mk
                                                      (aws.MongoDBAPICredentials.PublicKey
                                                         credsAWS)
                                                      (aws.MongoDBAPICredentials.PrivateKey
                                                         credsAWS))
                                                   awsClient)),
                                         w4)
                                    end
                                end
                            end
                        end
                    end
              end
          end
      end
  end.

End connector.

End connector.

(** ** More in-memory backends: JSON documents, the signed HTTP exchange
    and the cluster *)

Module testbed.

Import v1alpha1.

(** A decoder that knows the rendering of finitely many values. *)
Definition decodeKnown {A : Type} (render : A → string) (known : list A)
    (raw : string) : result A :=
  if bool_decide (raw = "")
  then inl (errors_New "unexpected end of JSON input")
  else
    match List.find (λ a, bool_decide (render a = raw)) known with
    | Some a => inr a
    | None => inl (errors_New "invalid character")
    end.

Definition renderCreds (c : aws.MongoDBAPICredentials.t) : string :=
  fake.jsonObject [("publicKey", aws.MongoDBAPICredentials.PublicKey c);
                   ("privateKey", aws.MongoDBAPICredentials.PrivateKey c)].

Definition rootKeys : aws.MongoDBAPICredentials.t :=
  aws.MongoDBAPICredentials.mk "root-pub" "root-priv".
Definition acmeKeys : aws.MongoDBAPICredentials.t :=
  aws.MongoDBAPICredentials.mk "pub" "priv".

Global Instance Unmarshal_creds : mongodb.Unmarshal aws.MongoDBAPICredentials.t :=
  decodeKnown renderCreds [rootKeys; acmeKeys].

Definition renderPayload (p : mongodb.CreateOrgPayload.t) : string :=
  fake.jsonObject [("name", mongodb.CreateOrgPayload.Name p);
                   ("orgOwnerId", mongodb.CreateOrgPayload.OrgOwnerID p)].

Global Instance Marshal_payload : mongodb.Marshal mongodb.CreateOrgPayload.t :=
  λ p, inr (renderPayload p).

Global Instance Marshal_patch : mongodb.Marshal (list (string * string)) :=
  λ m, inr (fake.jsonObject m).

Definition renderOrganization (o : mongodb.Organization.t) : string :=
  fake.jsonObject [("id", mongodb.Organization.ID o);
                   ("name", mongodb.Organization.Name o);
                   ("orgOwnerId", mongodb.Organization.OrgOwnerId o)].

Global Instance Unmarshal_Organization : mongodb.Unmarshal mongodb.Organization.t :=
  decodeKnown renderOrganization [fake.acmeOrg].

Definition acmeResponse : mongodb.CreateOrgResponse.t :=
  mongodb.CreateOrgResponse.mk "key-1" "priv" "pub" "org-42" false "acme".

Definition renderCreateOrgResponse (r : mongodb.CreateOrgResponse.t) : string :=
  fake.jsonObject [("apiKeyId", mongodb.CreateOrgResponse.APIKey_ID r);
                   ("publicKey", mongodb.CreateOrgResponse.APIKey_PublicKey r);
                   ("privateKey", mongodb.CreateOrgResponse.APIKey_PrivateKey r);
                   ("organizationId", mongodb.CreateOrgResponse.Organization_ID r);
                   ("name", mongodb.CreateOrgResponse.Organization_Name r)].

Global Instance Unmarshal_CreateOrgResponse
  : mongodb.Unmarshal mongodb.CreateOrgResponse.t :=
  decodeKnown renderCreateOrgResponse [acmeResponse].

(** The credential store with the root key pair of the provider. *)
Definition providerSecret : aws.CreateSecretInput.t :=
  aws.CreateSecretInput.mk "provider/atlas" (renderCreds rootKeys)
    "root key pair" [] None.

(** The cluster and the credential store together: a canned outcome for
    [usage.Track], the provider configs by name, and the store. *)
Record Cluster := mkCluster {
  trackFails : bool;
  configs : gmap string apisv1alpha1.ProviderConfig.t;
  store : fake.World
}.

Global Instance Collaborators_cluster : connector.Collaborators Cluster := {|
  connector.usage_Track mg c :=
    if trackFails c then (Some (errors_New "conflict"), c) else (None, c);
  connector.kube_Get name c :=
    match configs c !! name with
    | Some pc => (inr pc, c)
    | None => (inl (errors_New ("providerconfig " +:+ name +:+ " not found")), c)
    end;
  connector.newAWSClientFn region c :=
    if bool_decide (region = "")
    then (inl (errors_New "cannot load AWS config"), c)
    else (inr (connector.awsClient.mk region), c)
|}.

Definition onStore {A : Type} (op : fake.World → A * fake.World) (c : Cluster)
    : A * Cluster :=
  let '(a, s) := op (store c) in (a, mkCluster (trackFails c) (configs c) s).

Global Instance SecretsManager_cluster : aws.SecretsManager Cluster := {|
  aws.sm_CreateSecret input := onStore (aws.sm_CreateSecret input);
  aws.sm_UpdateSecret input := onStore (aws.sm_UpdateSecret input);
  aws.sm_GetSecretValue name := onStore (aws.sm_GetSecretValue name);
  aws.sm_DescribeSecret name := onStore (aws.sm_DescribeSecret name);
  aws.sm_DeleteSecret input := onStore (aws.sm_DeleteSecret input)
|}.

Definition config (source : string)
    (awsSource : option apisv1alpha1.AWSCredentialsSource.t)
    : apisv1alpha1.ProviderConfig.t :=
  apisv1alpha1.ProviderConfig.mk
    (apisv1alpha1.ProviderCredentials.mk source awsSource).

Definition secretsManager (region : string) (secretName : option string)
    : option apisv1alpha1.AWSCredentialsSource.t :=
  Some (apisv1alpha1.AWSCredentialsSource.mk
          (Some (apisv1alpha1.AWSSecretsManagerReference.mk region secretName
                   None None))).

(** Provider configs: a complete one, one with another source, one with no
    [aws] block and one with no secret name. *)
Definition cluster : Cluster :=
  mkCluster false
    (<["default" := config "AWS" (secretsManager "eu-central-1"
                                    (Some "provider/atlas"))]>
       (<["kubernetes" := config "Secret" None]>
          (<["bare" := config "AWS" None]>
             (<["unnamed" := config "AWS" (secretsManager "eu-central-1" None)]>
                ∅))))
    (fake.mkWorld ∅ {[ "provider/atlas" := providerSecret ]} false).

(** *** The signed HTTP exchange of the first Atlas client

    The world is the outcome the next [Do] will have and the key pair the
    last request was signed with. *)
Record Exchange := mkExchange {
  next : result atlas.Response.t;
  signedWith : option atlas.Credentials.t
}.

Global Instance HTTP_exchange : atlas.HTTP Exchange := {|
  atlas.NewRequestWithContext method url body :=
    inr (mongodb.Request.mk method url body []);
  atlas.Do k req x := (next x, mkExchange (next x) (Some k))
|}.

Definition renderErrorResponse (e : atlas.ErrorResponse.t) : string :=
  fake.jsonObject [("reason", atlas.ErrorResponse.Reason e);
                   ("detail", atlas.ErrorResponse.Detail e)].

Global Instance Unmarshal_ErrorResponse : mongodb.Unmarshal atlas.ErrorResponse.t :=
  decodeKnown renderErrorResponse
    [atlas.ErrorResponse.mk "Forbidden" "not allowed"].

Definition renderGetOrgResponse (r : atlas.GetOrgResponse.t) : string :=
  fake.jsonObject [("name", atlas.GetOrgResponse.Name r)].

Global Instance Unmarshal_GetOrgResponse : mongodb.Unmarshal atlas.GetOrgResponse.t :=
  decodeKnown renderGetOrgResponse [atlas.GetOrgResponse.mk false "org-name"].

Global Instance Unmarshal_atlas_CreateOrgResponse
  : mongodb.Unmarshal atlas.CreateOrgResponse.t :=
  decodeKnown
    (λ r, fake.jsonObject [("id", atlas.CreateOrgResponse.Organization_ID r)])
    [atlas.CreateOrgResponse.mk "key-1" "priv" "pub" "org-42" false].

Global Instance Marshal_atlas_payload : mongodb.Marshal atlas.CreateOrgPayload.t :=
  λ p, inr (fake.jsonObject [("name", atlas.CreateOrgPayload.Name p);
                             ("orgOwnerId", atlas.CreateOrgPayload.OrgOwnerID p)]).

Definition rootPair : atlas.Credentials.t := atlas.Credentials.mk "root-pub" "root-priv".
Definition orgPair : atlas.Credentials.t := atlas.Credentials.mk "pub" "priv".

Definition answer (status : Z) (body : result string) : Exchange :=
  mkExchange (inr (atlas.Response.mk status body)) None.

(** [acmeCreated] once its deletion has been requested. *)
Definition acmeDeleting : Organization.t :=
  Organization.mk "acme" (Organization.Annotations fake.acmeCreated) []
    (Some 1762128000) (Organization.ForProvider fake.acme) []
    OrganizationObservation.zero.

(** *** The service client over a canned exchange, beside the store

    The world holds the outcome the next [Do] will have and the credential
    store; the [Service] is the HTTP client itself. *)
Record Remote := mkRemote {
  exchange : result mongodb.Response.t;
  secretStore : fake.World
}.

Global Instance HTTP_remote : mongodb.HTTP Remote := {|
  mongodb.NewRequestWithContext method url body :=
    inr (mongodb.Request.mk method url body []);
  mongodb.Do req r := (exchange r, r)
|}.

Definition onSecretStore {A : Type} (op : fake.World → A * fake.World)
    (r : Remote) : A * Remote :=
  let '(a, s) := op (secretStore r) in (a, mkRemote (exchange r) s).

Global Instance SecretsManager_remote : aws.SecretsManager Remote := {|
  aws.sm_CreateSecret input := onSecretStore (aws.sm_CreateSecret input);
  aws.sm_UpdateSecret input := onSecretStore (aws.sm_UpdateSecret input);
  aws.sm_GetSecretValue name := onSecretStore (aws.sm_GetSecretValue name);
  aws.sm_DescribeSecret name := onSecretStore (aws.sm_DescribeSecret name);
  aws.sm_DeleteSecret input := onSecretStore (aws.sm_DeleteSecret input)
|}.

Global Instance Service_remote : mongodb.Service Remote :=
  mongodb.client_Service fake.baseURL.

Definition remote (status : Z) (text body : string) : Remote :=
  mkRemote (fake.respond status text body) fake.both.

Definition unreachable : Remote :=
  mkRemote (inl (errors_New "dial tcp: i/o timeout")) fake.both.

End testbed.

(** * Properties *)

Import v1alpha1 managed organization.

(** ** The finalizer list and the secret name *)

Lemma FinalizerExists_AddFinalizer (cr : Organization.t) (f : string) :
  meta.FinalizerExists (meta.AddFinalizer cr f) f = true.
Proof.
  unfold meta.AddFinalizer.
  destruct (meta.FinalizerExists cr f) eqn:E; [exact E|].
  unfold meta.FinalizerExists; cbn.
  apply bool_decide_eq_true. set_solver.
Qed.

(** *** The loop of [RemoveFinalizer] *)

Lemma RemoveFinalizer_loop_skip (fin : string) (todo : nat) :
  ∀ (i : nat) (arr : list string) (len : nat),
  (∀ j e, (i ≤ j)%nat → arr !! j = Some e → e ≠ fin) →
  meta.RemoveFinalizer_loop fin todo i arr len = Returns (take len arr).
Proof.
  induction todo as [|todo IH]; intros i arr len Hno; cbn; [reflexivity|].
  destruct (arr !! i) as [e|] eqn:He; [|reflexivity].
  rewrite bool_decide_eq_false_2 by (eapply Hno; [|exact He]; lia).
  apply IH. intros j e' Hj. apply Hno. lia.
Qed.

Lemma filter_ne_id (fin : string) (l : list string) :
  fin ∉ l → filter (λ e, e ≠ fin) l = l.
Proof.
  induction l as [|h l IH]; intros Hnin; [reflexivity|].
  apply not_elem_of_cons in Hnin as [Hne Hnin].
  rewrite filter_cons_True by congruence. by rewrite IH.
Qed.

Lemma filter_eq_nil (fin : string) (l : list string) :
  length (filter (λ e, e = fin) l) = 0%nat → fin ∉ l.
Proof.
  intros Hlen Hin. apply nil_length_inv in Hlen.
  assert (Hf : fin ∈ filter (λ e, e = fin) l) by (by apply list_elem_of_filter).
  rewrite Hlen in Hf. by apply elem_of_nil in Hf.
Qed.

Lemma removeAt_first (pre rest : list string) (fin : string) :
  meta.removeAt (pre ++ fin :: rest)%list (length pre)
    (length (pre ++ fin :: rest)%list)
  = (pre ++ rest ++ drop (length rest) (fin :: rest))%list.
Proof.
  unfold meta.removeAt. rewrite length_app. cbn [length].
  rewrite take_app_length, drop_app_add' by reflexivity.
  replace (length pre + S (length rest) - (length pre + 1))%nat
    with (length rest) by lia.
  replace (length pre + S (length rest) - 1)%nat
    with (length pre + length rest)%nat by lia.
  rewrite drop_app_add' by reflexivity.
  cbn [drop]. by rewrite firstn_all.
Qed.

(** With the token at one place of the slice, or at none, the loop of
    [RemoveFinalizer] returns the slice without it. *)
Lemma RemoveFinalizer_loop_once (fin : string) (rest : list string) :
  ∀ pre : list string,
  (length (filter (λ e, e = fin) rest) ≤ 1)%nat →
  meta.RemoveFinalizer_loop fin (length rest) (length pre) (pre ++ rest)%list
    (length (pre ++ rest)%list)
  = Returns (pre ++ filter (λ e, e ≠ fin) rest)%list.
Proof.
  induction rest as [|h rest IH]; intros pre Hcount;
    cbn [meta.RemoveFinalizer_loop length].
  { by rewrite firstn_all. }
  rewrite list_lookup_middle by reflexivity.
  destruct (decide (h = fin)) as [->|Hne].
  - rewrite bool_decide_eq_true_2 by reflexivity.
    rewrite bool_decide_eq_true_2 by (rewrite length_app; cbn; lia).
    rewrite filter_cons_True in Hcount by reflexivity. cbn in Hcount.
    assert (Hnin : fin ∉ rest) by (apply filter_eq_nil; lia).
    rewrite filter_cons_False by (intros Hc; by apply Hc).
    rewrite filter_ne_id by exact Hnin.
    rewrite removeAt_first, RemoveFinalizer_loop_skip.
    + f_equal. rewrite length_app. cbn [length].
      replace (length pre + S (length rest) - 1)%nat
        with (length pre + length rest)%nat by lia.
      rewrite take_app_add' by reflexivity.
      by rewrite take_app_length.
    + intros j e Hj He ->.
      rewrite lookup_app_r in He by lia.
      destruct (j - length pre)%nat as [|k] eqn:Hk; [lia|].
      apply lookup_app_Some in He as [He|[Hlen He]].
      * by apply list_elem_of_lookup_2 in He.
      * rewrite lookup_drop in He.
        replace (length rest + (S k - length rest))%nat with (S k) in He by lia.
        cbn in He. by apply list_elem_of_lookup_2 in He.
  - rewrite bool_decide_eq_false_2 by exact Hne.
    rewrite filter_cons_False in Hcount by exact Hne.
    rewrite filter_cons_True by exact Hne.
    specialize (IH (pre ++ [h])%list Hcount).
    rewrite length_app in IH. cbn [length] in IH.
    replace (length pre + 1)%nat with (S (length pre)) in IH by lia.
    rewrite <- !app_assoc in IH. cbn [app] in IH. exact IH.
Qed.

Lemma RemoveFinalizer_once (cr : Organization.t) (f : string) :
  (finalizerCount cr f ≤ 1)%nat →
  meta.RemoveFinalizer cr f
  = Returns (Organization.with_Finalizers
               (filter (λ e, e ≠ f) (Organization.Finalizers cr)) cr).
Proof.
  intros Hcount. unfold meta.RemoveFinalizer.
  pose proof (RemoveFinalizer_loop_once f (Organization.Finalizers cr) []
                Hcount) as Hloop.
  cbn [app length] in Hloop. by rewrite Hloop.
Qed.

Lemma FinalizerExists_filter (cr : Organization.t) (f : string) :
  meta.FinalizerExists
    (Organization.with_Finalizers
       (filter (λ e, e ≠ f) (Organization.Finalizers cr)) cr) f = false.
Proof.
  unfold meta.FinalizerExists; cbn.
  apply bool_decide_eq_false. rewrite list_elem_of_filter. tauto.
Qed.

Lemma FinalizerExists_finalizerCount (cr : Organization.t) (f : string) :
  meta.FinalizerExists cr f = true ↔ (0 < finalizerCount cr f)%nat.
Proof.
  unfold meta.FinalizerExists, finalizerCount.
  rewrite bool_decide_eq_true. split.
  - intros Hin.
    assert (Hf : f ∈ filter (λ e, e = f) (Organization.Finalizers cr))
      by (by apply list_elem_of_filter).
    destruct (filter (λ e, e = f) (Organization.Finalizers cr));
      [by apply elem_of_nil in Hf | cbn; lia].
  - intros Hlen.
    destruct (filter (λ e, e = f) (Organization.Finalizers cr)) as [|x l] eqn:E;
      [cbn in Hlen; lia|].
    assert (Hx : x ∈ filter (λ e, e = f) (Organization.Finalizers cr))
      by (rewrite E; apply list_elem_of_here).
    apply list_elem_of_filter in Hx as [-> Hx]. exact Hx.
Qed.

Lemma removeAt_length (arr : list string) (i len : nat) :
  (i + 1 ≤ len)%nat → (len ≤ length arr)%nat →
  length (meta.removeAt arr i len) = length arr.
Proof.
  intros Hi Hlen. unfold meta.removeAt.
  rewrite !length_app, !length_take, !length_drop. lia.
Qed.

Lemma removeAt_last (arr : list string) (i len : nat) :
  (i + 1 ≤ len)%nat → (len ≤ length arr)%nat →
  meta.removeAt arr i len !! (length arr - 1)%nat
  = arr !! (length arr - 1)%nat.
Proof.
  intros Hi Hlen. unfold meta.removeAt.
  rewrite lookup_app_r by (rewrite length_take; lia).
  rewrite lookup_app_r by (rewrite !length_take, length_drop; lia).
  rewrite lookup_drop, !length_take, length_drop. f_equal. lia.
Qed.

(** Once the slice is shorter than the range of the loop and the last
    place of the array holds the token, or when the token is still to be
    met before the last place, the loop panics. *)
Lemma RemoveFinalizer_loop_panics (fin : string) (todo : nat) :
  ∀ (i : nat) (arr : list string) (len : nat),
  (0 < todo)%nat → (i + todo = length arr)%nat → (len ≤ length arr)%nat →
  arr !! (length arr - 1)%nat = Some fin →
  ((len < length arr)%nat
   ∨ ∃ j, (i ≤ j < length arr - 1)%nat ∧ arr !! j = Some fin) →
  ∃ msg, meta.RemoveFinalizer_loop fin todo i arr len = Panics msg.
Proof.
  induction todo as [|todo IH]; intros i arr len Htodo Hi Hlen Hlast Hmore;
    [lia|].
  cbn [meta.RemoveFinalizer_loop].
  destruct (lookup_lt_is_Some_2 arr i) as [e He]; [lia|]. rewrite He.
  case_bool_decide as Hfin.
  - subst e. case_bool_decide as Hin; [|by eexists].
    destruct todo as [|todo'].
    { destruct Hmore as [Hlt|(j & Hj & _)]; lia. }
    apply IH.
    + lia.
    + rewrite removeAt_length by lia. lia.
    + rewrite removeAt_length by lia. lia.
    + rewrite removeAt_length by lia. by rewrite removeAt_last by lia.
    + left. rewrite removeAt_length by lia. lia.
  - destruct todo as [|todo'].
    { replace i with (length arr - 1)%nat in He by lia. congruence. }
    apply IH; [lia|lia|lia|exact Hlast|].
    destruct Hmore as [Hlt|(j & Hj & Hjfin)]; [by left|right].
    exists j. split; [|exact Hjfin].
    destruct (decide (j = i)) as [->|]; [congruence|lia].
Qed.

(** The loop reaches the first place that holds the token with the slice
    as it was given. *)
Lemma RemoveFinalizer_loop_prefix (fin : string) (rest : list string)
    (len : nat) (skipped : list string) :
  ∀ pre : list string,
  fin ∉ skipped →
  meta.RemoveFinalizer_loop fin (length (skipped ++ rest)%list) (length pre)
    (pre ++ skipped ++ rest)%list len
  = meta.RemoveFinalizer_loop fin (length rest)
      (length (pre ++ skipped)%list) (pre ++ skipped ++ rest)%list len.
Proof.
  induction skipped as [|h skipped IH]; intros pre Hnin.
  { cbn [app]. by rewrite app_nil_r. }
  apply not_elem_of_cons in Hnin as [Hne Hnin].
  cbn [app length meta.RemoveFinalizer_loop].
  rewrite list_lookup_middle by reflexivity.
  rewrite bool_decide_eq_false_2 by congruence.
  specialize (IH (pre ++ [h])%list Hnin).
  rewrite <- !app_assoc in IH. cbn [app] in IH.
  replace (length (pre ++ [h])%list) with (S (length pre)) in IH
    by (rewrite length_app; cbn; lia).
  exact IH.
Qed.

(** With the token at two neighbouring places, and at no other, of which
    the second is not the last, the loop removes the first of the two and
    steps over the second. *)
Lemma RemoveFinalizer_loop_neighbours (fin : string)
    (pre post : list string) :
  fin ∉ pre → fin ∉ post → post ≠ [] →
  let f := (pre ++ fin :: fin :: post)%list in
  meta.RemoveFinalizer_loop fin (length f) 0 f (length f)
  = Returns (pre ++ fin :: post)%list.
Proof.
  intros Hpre Hpost Hne f.
  pose proof (RemoveFinalizer_loop_prefix fin (fin :: fin :: post)
                (length f) pre [] Hpre) as Hskip.
  cbn [app] in Hskip. change (length (@nil string)) with 0%nat in Hskip.
  subst f. rewrite Hskip. clear Hskip.
  change (length (fin :: fin :: post)) with (S (length (fin :: post))).
  generalize (length (fin :: post)). intros todo.
  cbn [meta.RemoveFinalizer_loop].
  rewrite list_lookup_middle by reflexivity.
  rewrite bool_decide_eq_true_2 by reflexivity.
  rewrite bool_decide_eq_true_2 by (rewrite length_app; cbn; lia).
  rewrite removeAt_first, RemoveFinalizer_loop_skip.
  - f_equal. rewrite length_app. cbn [length].
    replace (length pre + S (S (length post)) - 1)%nat
      with (length pre + (S (length post)))%nat by lia.
    rewrite take_app_add' by reflexivity.
    by rewrite (take_app_length (fin :: post)).
  - intros j e Hj He ->.
    rewrite lookup_app_r in He by lia.
    destruct (j - length pre)%nat as [|k] eqn:Hk; [lia|].
    cbn [app lookup list_lookup] in He.
    apply lookup_app_Some in He as [He|[Hlen He]].
    + by apply list_elem_of_lookup_2 in He.
    + rewrite lookup_drop in He.
      destruct post as [|p post]; [done|].
      cbn [length] in He.
      replace (S (S (length post)) + (k - S (length post)))%nat
        with (S (S (k - 1))) in He by (cbn [length] in Hlen; lia).
      cbn [lookup list_lookup] in He.
      by apply list_elem_of_lookup_2 in He.
Qed.

Lemma RemoveFinalizer_trailing (cr : Organization.t) (f : string)
    (pre : list string) :
  Organization.Finalizers cr = (pre ++ [f])%list → f ∈ pre →
  ∃ msg, meta.RemoveFinalizer cr f = Panics msg.
Proof.
  intros Hfs Hin. unfold meta.RemoveFinalizer. rewrite Hfs.
  apply list_elem_of_lookup_1 in Hin as [j Hj].
  pose proof (lookup_lt_Some _ _ _ Hj) as Hjlt.
  destruct (RemoveFinalizer_loop_panics f (length (pre ++ [f])%list) 0
              (pre ++ [f])%list (length (pre ++ [f])%list)) as [msg Hmsg].
  - rewrite length_app; cbn; lia.
  - lia.
  - lia.
  - rewrite length_app. cbn [length].
    replace (length pre + 1 - 1)%nat with (length pre) by lia.
    by rewrite list_lookup_middle.
  - right. exists j. rewrite length_app. cbn [length]. split; [lia|].
    by apply lookup_app_l_Some.
  - exists msg. by rewrite Hmsg.
Qed.

Lemma RemoveFinalizer_neighbours (cr : Organization.t) (f : string)
    (pre post : list string) :
  Organization.Finalizers cr = (pre ++ f :: f :: post)%list →
  f ∉ pre → f ∉ post → post ≠ [] →
  meta.RemoveFinalizer cr f
  = Returns (Organization.with_Finalizers (pre ++ f :: post)%list cr).
Proof.
  intros Hfs Hpre Hpost Hne. unfold meta.RemoveFinalizer. rewrite Hfs.
  by rewrite (RemoveFinalizer_loop_neighbours f pre post Hpre Hpost Hne).
Qed.

(** Whatever [RemoveFinalizer] returns differs from the resource it was
    given in the finalizers only. *)
Lemma RemoveFinalizer_Returns (cr cr' : Organization.t) (f : string) :
  meta.RemoveFinalizer cr f = Returns cr' →
  cr' = Organization.with_Finalizers (Organization.Finalizers cr') cr.
Proof.
  unfold meta.RemoveFinalizer.
  destruct (meta.RemoveFinalizer_loop _ _ _ _ _); [|discriminate].
  by intros [= <-].
Qed.

Lemma FinalizerExists_SetConditions (cr : Organization.t) c (f : string) :
  meta.FinalizerExists (Organization.SetConditions c cr) f
  = meta.FinalizerExists cr f.
Proof. reflexivity. Qed.

Lemma remoteCalls_app (l1 l2 : list Event) :
  remoteCalls (l1 ++ l2) = (remoteCalls l1 ++ remoteCalls l2)%list.
Proof. apply List.filter_app. Qed.

Lemma GetExternalName_SetExternalName (cr : Organization.t) (id : string) :
  meta.GetExternalName (meta.SetExternalName cr id) = id.
Proof.
  unfold meta.GetExternalName, meta.SetExternalName; cbn.
  by rewrite lookup_insert_eq.
Qed.

(** The secret name reads only [metadata.name] and [spec.forProvider]. *)
Lemma finalSecretName_ext (cr cr' : Organization.t) :
  Organization.Name cr' = Organization.Name cr →
  Organization.ForProvider cr' = Organization.ForProvider cr →
  finalSecretName cr' = finalSecretName cr.
Proof. unfold finalSecretName. by intros -> ->. Qed.

Lemma AddFinalizer_same_spec (cr : Organization.t) (f : string) :
  Organization.Name (meta.AddFinalizer cr f) = Organization.Name cr
  ∧ Organization.ForProvider (meta.AddFinalizer cr f) = Organization.ForProvider cr.
Proof. unfold meta.AddFinalizer. by destruct (meta.FinalizerExists cr f). Qed.

#[local] Arguments meta.FinalizerExists : simpl never.
#[local] Arguments meta.AddFinalizer : simpl never.
#[local] Arguments meta.RemoveFinalizer : simpl never.
#[local] Arguments meta.GetExternalName : simpl never.
#[local] Arguments meta.SetExternalName : simpl never.
#[local] Arguments finalSecretName : simpl never.
#[local] Arguments Organization.SetConditions : simpl never.

(** Unfold one operation of the controller down to the world and the
    trace. *)
Ltac run :=
  unfold Observe, Create, Update, Delete, client_CreateOrganization,
    client_DeleteOrganization, awsClient_PutSecret, awsClient_DescribeSecret,
    awsClient_DeleteSecret, logger_Debug, emit, remote, mbind, M_bind, mret,
    M_ret; cbn.

(** Bring a trace to the form [trace s ++ events] and filter its calls. *)
Ltac tidy_trace :=
  repeat rewrite <- List.app_assoc; cbn [app];
  rewrite ?remoteCalls_app; cbn; rewrite ?app_nil_r.

(** Rewrite the secret name of every resource derived from [cr] to the
    secret name of [cr]. *)
Ltac same_name cr :=
  repeat match goal with
         | |- context [finalSecretName ?c] =>
             lazymatch c with
             | cr => fail
             | _ => rewrite (finalSecretName_ext cr c) by reflexivity
             end
         end.

(** Settle a statement about every event of an explicit list. *)
Ltac each_event :=
  let ev := fresh "ev" in
  let Hev := fresh "Hev" in
  intros ev Hev; cbn in Hev;
  repeat (apply elem_of_cons in Hev as [->|Hev];
          [first [reflexivity | discriminate | intros; discriminate]|]);
  by apply elem_of_nil in Hev.

Section properties.
Context {W : Type} `{!mongodb.Service W, !aws.SecretsManager W}.
Context `{!mongodb.Marshal aws.MongoDBAPICredentials.t}.

(** C10. When the external name of the resource is empty, [Delete] returns
    success at once, without a panic: the resource is returned as it came (so no finalizer
    is added), the remote world is untouched and no call is issued on the
    Organization API or on the credential store. *)
Theorem Delete_empty_external_name (cr : Organization.t) (s : State W) :
  meta.GetExternalName cr = "" →
  let '(out, s') := Delete cr s in
  ∃ cr' err,
    out = Returns (cr', err)
    ∧ err = None ∧ cr' = cr
    ∧ meta.FinalizerExists cr' FinalizerOrganizationCleanup
      = meta.FinalizerExists cr FinalizerOrganizationCleanup
    ∧ world s' = world s
    ∧ remoteCalls (trace s') = remoteCalls (trace s).
Proof.
  intros Hid. run. rewrite bool_decide_eq_true_2 by exact Hid. cbn.
  rewrite remoteCalls_app. cbn. rewrite app_nil_r.
  eexists _, _. split; [reflexivity|]. auto.
Qed.

(** C4 (amended). When no finalizer token is recorded, [Delete] issues no
    remote call on either backend, leaves the remote world as it is and
    returns (it does not panic) with success; with a non-empty external name the resource comes
    back with the token recorded and nothing else changed, with an empty
    external name it comes back unchanged. *)
Theorem Delete_without_finalizer (cr : Organization.t) (s : State W) :
  meta.FinalizerExists cr FinalizerOrganizationCleanup = false →
  let '(out, s') := Delete cr s in
  ∃ cr' err,
    out = Returns (cr', err)
    ∧ err = None
    ∧ world s' = world s
    ∧ remoteCalls (trace s') = remoteCalls (trace s)
    ∧ cr' = (if bool_decide (meta.GetExternalName cr = "") then cr
             else meta.AddFinalizer cr FinalizerOrganizationCleanup)
    ∧ (meta.GetExternalName cr ≠ "" →
       meta.FinalizerExists cr' FinalizerOrganizationCleanup = true).
Proof.
  intros Hfin. run.
  destruct (bool_decide (meta.GetExternalName cr = "")) eqn:Hid; cbn.
  - apply bool_decide_eq_true in Hid.
    rewrite remoteCalls_app, app_nil_r.
    eexists _, _. split; [reflexivity|]. repeat split; auto; congruence.
  - rewrite Hfin. cbn.
    rewrite <- app_assoc, remoteCalls_app, app_nil_r.
    eexists _, _. split; [reflexivity|].
    repeat split; auto. intros _. apply FinalizerExists_AddFinalizer.
Qed.


(** C3 (amended). Whenever [Delete] issues a remote delete call, on either
    backend, the finalizer token was recorded on the resource it was given;
    and whenever it returns a resource from which the token is gone, the
    client's [DeleteOrganization] has returned success or a not-found
    error, the secret deletion has been called after it and [Delete]
    returns no error.  A failure of the secret deletion is only logged and
    does not block the removal: once [DeleteOrganization] has returned
    success or a not-found error on a resource that carries its external
    name and the token (recorded once), [Delete] makes these two remote
    calls, removes the token and returns no error whatever the secret
    deletion returned, and a failed secret deletion shows as the debug line
    [AWS DeleteSecret failed] alone. *)
Theorem Delete_finalizer_protocol (cr : Organization.t) (s : State W) :
  let '(derr, w1) :=
    mongodb.DeleteOrganization (meta.GetExternalName cr) (world s) in
  let '(delErr, w2) := aws.DeleteSecret (finalSecretName cr) true w1 in
  let '(out, s') := Delete cr s in
  ∃ evs : list Event,
    trace s' = (trace s ++ evs)%list
    ∧ (∀ e, e ∈ evs → isRemoteDelete e = true →
         meta.FinalizerExists cr FinalizerOrganizationCleanup = true)
    ∧ (∀ cr' err, out = Returns (cr', err) →
       meta.FinalizerExists cr FinalizerOrganizationCleanup = true →
       meta.FinalizerExists cr' FinalizerOrganizationCleanup = false →
       (derr = None ∨ mongodb.IsNotFoundError derr = true)
       ∧ remoteCalls evs
         = [CallDeleteOrganization (meta.GetExternalName cr);
            CallDeleteSecret (finalSecretName cr) true]
       ∧ err = None)
    ∧ (meta.GetExternalName cr ≠ "" →
       meta.FinalizerExists cr FinalizerOrganizationCleanup = true →
       (finalizerCount cr FinalizerOrganizationCleanup ≤ 1)%nat →
       derr = None ∨ mongodb.IsNotFoundError derr = true →
       (∃ cr', out = Returns (cr', None)
               ∧ meta.FinalizerExists cr' FinalizerOrganizationCleanup = false)
       ∧ world s' = w2
       ∧ remoteCalls evs
         = [CallDeleteOrganization (meta.GetExternalName cr);
            CallDeleteSecret (finalSecretName cr) true]
       ∧ (LogDebug "AWS DeleteSecret failed" ∈ evs ↔ is_Some delErr)).
Proof.
  destruct (mongodb.DeleteOrganization (meta.GetExternalName cr) (world s))
    as [derr w1] eqn:Hdel.
  destruct (aws.DeleteSecret (finalSecretName cr) true w1)
    as [delErr w2] eqn:Hsec.
  run.
  destruct (bool_decide (meta.GetExternalName cr = "")) eqn:Hid; cbn.
  { apply bool_decide_eq_true in Hid.
    eexists; split; [reflexivity|]. split; [|split].
    - intros e He. apply list_elem_of_singleton in He as ->. discriminate.
    - intros cr' err [= <- <-]. congruence.
    - congruence. }
  destruct (meta.FinalizerExists cr FinalizerOrganizationCleanup) eqn:Hfin; cbn.
  2:{ eexists; split; [by rewrite <- List.app_assoc|]. split; [|split].
      - each_event.
      - discriminate.
      - discriminate. }
  rewrite Hdel; cbn.
  assert (Hquiet : ∀ l : list Event,
            LogDebug "AWS DeleteSecret failed" ∈ l →
            (∀ e, e ∈ l → e ≠ LogDebug "AWS DeleteSecret failed") →
            is_Some (@None error)).
  { intros l Hin Hall. by destruct (Hall _ Hin). }
  assert (Hcases :
    mongodb.IsNotFoundError derr = true
    ∨ (mongodb.IsNotFoundError derr = false ∧ derr = None)
    ∨ (mongodb.IsNotFoundError derr = false ∧ ∃ e, derr = Some e)).
  { destruct (mongodb.IsNotFoundError derr); [by left|].
    destruct derr as [e|]; [right; right; eauto|right; by left]. }
  destruct Hcases as [Hnf|[[Hnf ->]|[Hnf [e ->]]]]; rewrite Hnf; cbn.
  3:{ eexists; split; [by repeat rewrite <- List.app_assoc|].
      split; [auto|]. split.
      - intros cr' err [= <- <-] _. rewrite FinalizerExists_SetConditions.
        congruence.
      - intros _ _ _ [Hd|Hd]; congruence. }
  all: rewrite Hsec; cbn.
  all: destruct (meta.RemoveFinalizer cr FinalizerOrganizationCleanup)
         as [cr0|msg] eqn:Hrm.
  all: destruct delErr as [de|]; cbn.
  all: (eexists; split; [by repeat rewrite <- List.app_assoc|]).
  all: (split; [auto|]).
  all: split;
         [ first [ by intros cr' err [= <- <-] _ _; auto
                 | by intros cr' err [=] ]
         | intros _ _ Hcount _;
           rewrite (RemoveFinalizer_once cr _ Hcount) in Hrm;
           first [ discriminate Hrm | injection Hrm as <- ] ].
  all: split;
         [ eexists; split; [reflexivity|];
           rewrite FinalizerExists_SetConditions; apply FinalizerExists_filter
         | split; [reflexivity|]; split; [reflexivity|] ].
  all: split;
         [ first [ by eauto
                 | intros Hin; apply (Hquiet _ Hin); each_event ]
         | first [ by intros; set_solver
                 | by intros [? ?] ] ].
Qed.

(** C1 (amended). When the client's [CreateOrganization] succeeds and
    [PutSecret] then fails, [Create] returns the [PutSecret] error wrapped
    with the text [failed to put secret]; it has made exactly these two
    remote calls, so no compensating delete is issued, and the resource it
    leaves carries the new organization's identifier as external name. *)
Theorem Create_put_failure (cr : Organization.t) (s : State W)
    (org : mongodb.Organization.t) (apiKey : mongodb.APIKeyPair.t)
    (e : error) (w1 w2 : W) :
  let kmsKeyID :=
    AWSSecretsManagerReference.KMSKeyID
      (OrganizationParameters.AWSSecretsConfig (Organization.ForProvider cr)) in
  mongodb.CreateOrganization (createInput cr) (world s)
  = (inr (org, apiKey), w1) →
  aws.PutSecret (finalSecretName cr) (credentials apiKey)
    (mongodb.Organization.ID org) kmsKeyID w1 = (inl e, w2) →
  let '(cr', _, err, s') := Create cr s in
  err = Some (errors_Wrap e "failed to put secret")
  ∧ world s' = w2
  ∧ trace s'
    = (trace s
         ++ [CallCreateOrganization (createInput cr);
             CallPutSecret (finalSecretName cr) (credentials apiKey)
               (mongodb.Organization.ID org) kmsKeyID])%list
  ∧ (∀ ev, ev ∈ trace s' → isRemoteDelete ev = true → ev ∈ trace s)
  ∧ meta.GetExternalName cr' = mongodb.Organization.ID org.
Proof.
  intros kmsKeyID Hcreate Hput. subst kmsKeyID. run.
  rewrite Hcreate; cbn. same_name cr.
  rewrite Hput; cbn. same_name cr.
  repeat rewrite <- List.app_assoc; cbn [app].
  split; [reflexivity|]. split; [reflexivity|]. split; [reflexivity|]. split.
  - intros ev Hev Hrd. apply elem_of_app in Hev as [Hev|Hev]; [exact Hev|].
    repeat (apply elem_of_cons in Hev as [->|Hev]; [discriminate|]).
    by apply elem_of_nil in Hev.
  - apply GetExternalName_SetExternalName.
Qed.

(** C2 (amended). For a resource with a non-empty external name, [Observe]
    makes no call on the Organization API client and no delete call: it
    reports that the resource exists, with no error, after at most one
    remote call, the [DescribeSecret] it makes when the resource is not
    marked for deletion. *)
Theorem Observe_trusts_external_name (cr : Organization.t) (s : State W) :
  meta.GetExternalName cr ≠ "" →
  let '(cr', obs, err, s') := Observe cr s in
  err = None
  ∧ ExternalObservation.ResourceExists obs = true
  ∧ ∃ evs : list Event,
      trace s' = (trace s ++ evs)%list
      ∧ (∀ e, e ∈ evs → isServiceCall e = false)
      ∧ (∀ e, e ∈ evs → isRemoteDelete e = false)
      ∧ remoteCalls evs
        = match Organization.DeletionTimestamp cr with
          | Some _ => []
          | None => [CallDescribeSecret (finalSecretName cr)]
          end.
Proof.
  intros Hid. run. rewrite bool_decide_eq_false_2 by exact Hid. cbn.
  destruct (Organization.DeletionTimestamp cr) as [t|]; cbn.
  - split; [reflexivity|]. split; [reflexivity|].
    eexists; split; [reflexivity|].
    split; [|split]; [| |reflexivity]; each_event.
  - same_name cr.
    destruct (aws.DescribeSecret (finalSecretName cr) (world s))
      as [[e|desc] w1]; cbn;
      (split; [reflexivity|]); (split; [reflexivity|]);
      (eexists; split; [by repeat rewrite <- List.app_assoc|]);
      (split; [|split]; [| |reflexivity]); each_event.
Qed.

(** C7 (amended). When the resource has a non-empty external name, is not
    marked for deletion and [DescribeSecret] fails on its secret name,
    [Observe] returns no error and reports the resource as existing and up
    to date; the failure leaves a debug line, and the resource gets the
    [Available] condition. *)
Theorem Observe_missing_secret (cr : Organization.t) (s : State W)
    (e : error) (w1 : W) :
  meta.GetExternalName cr ≠ "" →
  Organization.DeletionTimestamp cr = None →
  aws.DescribeSecret (finalSecretName cr) (world s) = (inl e, w1) →
  let '(cr', obs, err, s') := Observe cr s in
  err = None
  ∧ obs = ExternalObservation.mk true true
  ∧ world s' = w1
  ∧ cr' = Organization.SetConditions xpv1.Available
            (Organization.set_OrgID (meta.GetExternalName cr) cr)
  ∧ trace s'
    = (trace s ++ [CallDescribeSecret (finalSecretName cr);
                   LogDebug "Failed to describe secret"])%list.
Proof.
  intros Hid Hts Hdesc. run. rewrite bool_decide_eq_false_2 by exact Hid.
  cbn. rewrite Hts. same_name cr. rewrite Hdesc. cbn.
  by rewrite <- List.app_assoc.
Qed.

(** C8 (amended). [Update] does nothing: it returns the resource as it
    came, an empty update and no error, and leaves the remote world and
    the trace as they were, so it reads and writes no secret. *)
Theorem Update_is_noop (cr : Organization.t) (s : State W) :
  let '(cr', upd, err, s') := Update cr s in
  cr' = cr
  ∧ upd = ExternalUpdate.zero
  ∧ err = None
  ∧ world s' = world s
  ∧ trace s' = trace s.
Proof. run. by repeat split. Qed.

(** Every operation of the controller returns a resource with the
    [metadata.name] and the [spec.forProvider] it was given. *)
Lemma Observe_same_spec (cr : Organization.t) (s : State W) :
  Organization.Name (Observe cr s).1.1.1 = Organization.Name cr
  ∧ Organization.ForProvider (Observe cr s).1.1.1 = Organization.ForProvider cr.
Proof.
  run. destruct (bool_decide (meta.GetExternalName cr = "")); [done|].
  cbn. destruct (Organization.DeletionTimestamp cr); [done|].
  destruct (aws.DescribeSecret _ (world s)) as [[e|desc] w1]; [done|].
  cbn. by destruct (aws.DescribeSecretOutput.ARN desc).
Qed.

Lemma Create_same_spec (cr : Organization.t) (s : State W) :
  Organization.Name (Create cr s).1.1.1 = Organization.Name cr
  ∧ Organization.ForProvider (Create cr s).1.1.1 = Organization.ForProvider cr.
Proof.
  run.
  destruct (mongodb.CreateOrganization (createInput cr) (world s))
    as [[e|[org apiKey]] w1]; [done|].
  cbn. by destruct (aws.PutSecret _ _ _ _ w1) as [[e|arn] w2].
Qed.

Lemma Delete_same_spec (cr : Organization.t) (s : State W)
    (cr' : Organization.t) (err : option error) :
  (Delete cr s).1 = Returns (cr', err) →
  Organization.Name cr' = Organization.Name cr
  ∧ Organization.ForProvider cr' = Organization.ForProvider cr.
Proof.
  run.
  destruct (meta.RemoveFinalizer cr FinalizerOrganizationCleanup)
    as [cr0|msg] eqn:Hrm; [apply RemoveFinalizer_Returns in Hrm|].
  all: destruct (bool_decide (meta.GetExternalName cr = ""));
    [by intros [= <- <-]|].
  all: cbn; destruct (meta.FinalizerExists cr FinalizerOrganizationCleanup);
    cbn; [|intros [= <- <-]; apply AddFinalizer_same_spec].
  all: destruct (mongodb.DeleteOrganization _ (world s)) as [derr w1]; cbn.
  all: destruct (mongodb.IsNotFoundError derr); cbn;
    [|destruct derr as [e|]; [by intros [= <- <-]|]; cbn].
  all: destruct (aws.DeleteSecret _ true w1) as [[e|] w2]; cbn.
  all: first [discriminate | intros [= <- <-]; by rewrite Hrm].
Qed.

(** C9 (amended). The secret name is the fixed prefix followed by the
    explicit secret name of the spec when that is present and non-empty,
    and by [metadata.name] otherwise; it does not depend on the external
    name, and it is the same on the resource that [Observe], [Create],
    [Update] or [Delete] returns ([Delete] is the one operation that can
    panic instead of returning), so every operation resolves the name a
    prior [Create] wrote under. *)
Theorem finalSecretName_resolver (cr : Organization.t) (s : State W) :
  let explicit :=
    AWSSecretsManagerReference.SecretName
      (OrganizationParameters.AWSSecretsConfig (Organization.ForProvider cr)) in
  (∀ n, explicit = Some n → n ≠ "" → finalSecretName cr = secretPrefix +:+ n)
  ∧ (explicit = None ∨ explicit = Some "" →
     finalSecretName cr = secretPrefix +:+ Organization.Name cr)
  ∧ (∀ id, finalSecretName (meta.SetExternalName cr id) = finalSecretName cr)
  ∧ finalSecretName (Observe cr s).1.1.1 = finalSecretName cr
  ∧ finalSecretName (Create cr s).1.1.1 = finalSecretName cr
  ∧ finalSecretName (Update cr s).1.1.1 = finalSecretName cr
  ∧ (∀ cr' err, (Delete cr s).1 = Returns (cr', err) →
       finalSecretName cr' = finalSecretName cr).
Proof.
  intros explicit. split_and!.
  - intros n Hn Hne. unfold finalSecretName. fold explicit. rewrite Hn.
    by rewrite bool_decide_eq_true_2.
  - intros [Hn|Hn]; unfold finalSecretName; fold explicit; by rewrite Hn.
  - intros id. by apply finalSecretName_ext.
  - apply finalSecretName_ext; apply Observe_same_spec.
  - apply finalSecretName_ext; apply Create_same_spec.
  - reflexivity.
  - intros cr' err Hret.
    apply finalSecretName_ext; by eapply Delete_same_spec.
Qed.

End properties.

(** ** The error categories of [makeRequest] *)

Section categories.
Context {W : Type} `{!mongodb.HTTP W, !mongodb.Unmarshal Error.t}.
Variable baseURL : string.

(** C6 (amended). Once the request is built, [makeRequest] returns a
    retryable network error when the transport fails before a response.
    For a response with status 400 or more whose body decodes as an API
    error it returns: a not-found error for 404, a conflict error for 409,
    a retryable [rate limited] error for 429, a retryable [server error]
    for 500 and above, and the plain, non-retryable API error for any
    other status.  When the body does not decode it returns a retryable
    [server error] for 500 and above and a generic error, which none of
    the three classification functions recognises, for any other status,
    404, 409 and 429 included. *)
Theorem makeRequest_categories {R : Type} (method endpoint : string)
    (body : option string) (decode : option (string → result R))
    (req : mongodb.Request.t) (w : W) :
  mongodb.NewRequestWithContext method (baseURL +:+ endpoint) body = inr req →
  let sent :=
    mongodb.Request.Header_Set "Accept" "application/json"
      (mongodb.Request.Header_Set "Content-Type" "application/json" req) in
  let out :=
    mongodb.makeRequest baseURL method endpoint
      (option_map (λ j, inr j : result string) body) decode w in
  match mongodb.Do sent w with
  | (inl err, w') =>
      out = (inl (RetryableError err "HTTP request failed (network error)"), w')
  | (inr resp, w') =>
      let code := mongodb.Response.StatusCode resp in
      let generic :=
        errors_New ("HTTP " +:+ pretty code +:+ ": "
                      +:+ mongodb.Response.Status resp) in
      400 ≤ code →
      ∃ e : error,
        out = (inl e, w')
        ∧ match mongodb.json_Unmarshal (mongodb.Response.Body resp) with
          | inr apiErr =>
              (code = 404 → e = NotFoundError apiErr)
              ∧ (code = 409 →
                 e = ConflictError (APIError apiErr) "resource in conflict state")
              ∧ (code = 429 →
                 e = RetryableError (APIError apiErr) "rate limited")
              ∧ (500 ≤ code →
                 e = RetryableError (APIError apiErr) "server error")
              ∧ (code < 500 → code ≠ 404 → code ≠ 409 → code ≠ 429 →
                 e = APIError apiErr)
              ∧ mongodb.IsNotFoundError (Some e) = bool_decide (code = 404)
              ∧ mongodb.IsConflictError (Some e) = bool_decide (code = 409)
              ∧ mongodb.IsRetryableError (Some e)
                = bool_decide (code = 429 ∨ 500 ≤ code)
          | inl _ =>
              (500 ≤ code → e = RetryableError generic "server error")
              ∧ (code < 500 → e = generic)
              ∧ mongodb.IsNotFoundError (Some e) = false
              ∧ mongodb.IsConflictError (Some e) = false
              ∧ mongodb.IsRetryableError (Some e) = bool_decide (500 ≤ code)
          end
  end.
Proof.
  intros Hreq sent out. subst out. unfold mongodb.makeRequest.
  destruct body as [j|]; cbn [option_map]; cbv zeta; rewrite Hreq;
    fold sent;
    (destruct (mongodb.Do sent w) as [[err|resp] w']; [reflexivity|]);
    intros Hcode; set (code := mongodb.Response.StatusCode resp) in *;
    rewrite bool_decide_eq_true_2 by exact Hcode;
    (eexists; split; [reflexivity|]);
    unfold mongodb.categorize; fold code;
    (destruct (mongodb.json_Unmarshal (mongodb.Response.Body resp))
       as [perr|apiErr]);
    repeat case_bool_decide; cbn; split_and!; intros;
    first [ reflexivity | lia
          | by rewrite bool_decide_eq_true_2 by lia
          | by rewrite bool_decide_eq_false_2 by lia
          | by rewrite bool_decide_eq_true_2 by (right; lia)
          | by rewrite bool_decide_eq_true_2 by (left; lia) ].
Qed.

(** The HTTP client's [DeleteOrganization] passes the error of
    [makeRequest] on unwrapped, so a 404 whose body decodes reaches the
    controller as an error that [IsNotFoundError] recognises. *)
Lemma client_DeleteOrganization_not_found (id : string)
    (req : mongodb.Request.t) (resp : mongodb.Response.t) (apiErr : Error.t)
    (w w' : W) :
  id ≠ "" →
  mongodb.NewRequestWithContext mongodb.http_MethodDelete
    (baseURL +:+ "/orgs/" +:+ id) None = inr req →
  mongodb.Do
    (mongodb.Request.Header_Set "Accept" "application/json"
       (mongodb.Request.Header_Set "Content-Type" "application/json" req)) w
  = (inr resp, w') →
  mongodb.Response.StatusCode resp = 404 →
  mongodb.json_Unmarshal (mongodb.Response.Body resp) = inr apiErr →
  mongodb.client_DeleteOrganization baseURL id w
  = (Some (NotFoundError apiErr), w')
  ∧ mongodb.IsNotFoundError (Some (NotFoundError apiErr)) = true.
Proof.
  intros Hid Hreq Hdo Hcode Hbody. split; [|reflexivity].
  unfold mongodb.client_DeleteOrganization, mongodb.makeRequest.
  rewrite bool_decide_eq_false_2 by exact Hid.
  cbv zeta. rewrite Hreq, Hdo, Hcode. cbn.
  unfold mongodb.categorize. by rewrite Hbody, Hcode.
Qed.

End categories.

(** ** The operations on concrete inputs *)

(** C10, on the concrete scenario: [acme] before creation. *)
Lemma Delete_empty_external_name_witness :
  meta.GetExternalName fake.acme = ""
  ∧ let '(out, s') := Delete fake.acme (fake.start fake.both) in
    ∃ cr' err,
      out = Returns (cr', err)
      ∧ err = None ∧ cr' = fake.acme
      ∧ meta.FinalizerExists cr' FinalizerOrganizationCleanup
        = meta.FinalizerExists fake.acme FinalizerOrganizationCleanup
      ∧ world s' = world (fake.start fake.both)
      ∧ remoteCalls (trace s') = remoteCalls (trace (fake.start fake.both)).
Proof.
  split; [reflexivity|].
  apply (Delete_empty_external_name fake.acme (fake.start fake.both)).
  reflexivity.
Defined.

(** C4, as stated, fails on [acme] before creation: no finalizer token is
    recorded on it, and after [Delete] there is still none. *)
Lemma Delete_empty_name_records_no_finalizer :
  meta.FinalizerExists fake.acme FinalizerOrganizationCleanup = false
  ∧ match (Delete fake.acme (fake.start fake.both)).1 with
    | Returns (cr', err) =>
        err = None
        ∧ meta.FinalizerExists cr' FinalizerOrganizationCleanup = false
    | Panics _ => False
    end.
Proof. split_and!; vm_compute; split_and?; reflexivity. Qed.

(** C4 (amended), on [acme] after creation, before any finalizer. *)
Lemma Delete_without_finalizer_witness :
  meta.FinalizerExists fake.acmeCreated FinalizerOrganizationCleanup = false
  ∧ let '(out, s') := Delete fake.acmeCreated (fake.start fake.both) in
    ∃ cr' err,
      out = Returns (cr', err)
      ∧ err = None
      ∧ world s' = world (fake.start fake.both)
      ∧ remoteCalls (trace s') = remoteCalls (trace (fake.start fake.both))
      ∧ cr' = (if bool_decide (meta.GetExternalName fake.acmeCreated = "")
               then fake.acmeCreated
               else meta.AddFinalizer fake.acmeCreated
                      FinalizerOrganizationCleanup)
      ∧ (meta.GetExternalName fake.acmeCreated ≠ "" →
         meta.FinalizerExists cr' FinalizerOrganizationCleanup = true).
Proof.
  split; [reflexivity|].
  apply (Delete_without_finalizer fake.acmeCreated (fake.start fake.both)).
  reflexivity.
Defined.


(** C3, as stated, fails when the credential store is down: the token is
    on the resource, the organization is deleted, the secret deletion
    fails, and [Delete] still removes the token and returns success while
    the secret stays in the store; the failure is the last debug line. *)
Lemma Delete_removes_finalizer_despite_secret :
  meta.FinalizerExists fake.acmeFinalized FinalizerOrganizationCleanup = true
  ∧ match (Delete fake.acmeFinalized (fake.start fake.bothStoreDown)).1 with
    | Returns (cr', err) =>
        err = None
        ∧ meta.FinalizerExists cr' FinalizerOrganizationCleanup = false
    | Panics _ => False
    end
  ∧ remoteCalls (trace (Delete fake.acmeFinalized (fake.start fake.bothStoreDown)).2)
    = [CallDeleteOrganization "org-42";
       CallDeleteSecret "product/mongodb/acme" true]
  ∧ (aws.DeleteSecret "product/mongodb/acme" true
       (mongodb.DeleteOrganization "org-42" fake.bothStoreDown).2).1
    = Some (errors_Wrap fake.unavailable
              "cannot delete secret from AWS Secrets Manager")
  ∧ last (trace (Delete fake.acmeFinalized (fake.start fake.bothStoreDown)).2)
    = Some (LogDebug "AWS DeleteSecret failed")
  ∧ fake.secrets
      (world (Delete fake.acmeFinalized (fake.start fake.bothStoreDown)).2)
      !! "product/mongodb/acme" = Some fake.acmeSecret.
Proof. split_and!; vm_compute; split_and?; reflexivity. Qed.

(** C1, as stated, fails when the credential store is down:
    [CreateOrganization] succeeds, [PutSecret] fails, and [Create] makes no
    further call: the trace holds no delete and the new organization is
    still there. *)
Lemma Create_leaves_organization_behind :
  (mongodb.CreateOrganization (createInput fake.acme) fake.emptyStoreDown).1
  = inr (fake.acmeOrg, mongodb.APIKeyPair.mk "pub" "priv")
  ∧ (Create fake.acme (fake.start fake.emptyStoreDown)).1.2
    = Some (errors_Wrap
              (errors_Wrap fake.unavailable "cannot create AWS secret")
              "failed to put secret")
  ∧ trace (Create fake.acme (fake.start fake.emptyStoreDown)).2
    = [CallCreateOrganization (createInput fake.acme);
       CallPutSecret "product/mongodb/acme"
         (aws.MongoDBAPICredentials.mk "pub" "priv") "org-42" None]
  ∧ existsb isRemoteDelete
      (trace (Create fake.acme (fake.start fake.emptyStoreDown)).2) = false
  ∧ fake.orgs (world (Create fake.acme (fake.start fake.emptyStoreDown)).2)
      !! "org-42" = Some fake.acmeOrg.
Proof. split_and!; vm_compute; reflexivity. Qed.

(** C1 (amended), on the same input. *)
Lemma Create_put_failure_witness :
  let w1 := fake.mkWorld {[ "org-42" := fake.acmeOrg ]} ∅ true in
  let apiKey := mongodb.APIKeyPair.mk "pub" "priv" in
  let e := errors_Wrap fake.unavailable "cannot create AWS secret" in
  let s := fake.start fake.emptyStoreDown in
  let kmsKeyID :=
    AWSSecretsManagerReference.KMSKeyID
      (OrganizationParameters.AWSSecretsConfig
         (Organization.ForProvider fake.acme)) in
  mongodb.CreateOrganization (createInput fake.acme) (world s)
  = (inr (fake.acmeOrg, apiKey), w1)
  ∧ aws.PutSecret (finalSecretName fake.acme) (credentials apiKey)
      (mongodb.Organization.ID fake.acmeOrg) kmsKeyID w1 = (inl e, w1)
  ∧ let '(cr', _, err, s') := Create fake.acme s in
    err = Some (errors_Wrap e "failed to put secret")
    ∧ world s' = w1
    ∧ trace s'
      = (trace s
           ++ [CallCreateOrganization (createInput fake.acme);
               CallPutSecret (finalSecretName fake.acme) (credentials apiKey)
                 (mongodb.Organization.ID fake.acmeOrg) kmsKeyID])%list
    ∧ (∀ ev, ev ∈ trace s' → isRemoteDelete ev = true → ev ∈ trace s)
    ∧ meta.GetExternalName cr' = mongodb.Organization.ID fake.acmeOrg.
Proof.
  intros w1 apiKey e s kmsKeyID.
  assert (H1 : mongodb.CreateOrganization (createInput fake.acme) (world s)
               = (inr (fake.acmeOrg, apiKey), w1))
    by (vm_compute; reflexivity).
  assert (H2 : aws.PutSecret (finalSecretName fake.acme) (credentials apiKey)
                 (mongodb.Organization.ID fake.acmeOrg) kmsKeyID w1
               = (inl e, w1)) by (vm_compute; reflexivity).
  split_and!; [exact H1 | exact H2 |].
  exact (Create_put_failure fake.acme s fake.acmeOrg apiKey e w1 w1 H1 H2).
Defined.

(** C2, as stated, fails when the organization has disappeared remotely:
    a Get would report not-found, but [Observe] makes no call on the
    Organization API client, reports the resource as existing, and the
    secret stays in the store. *)
Lemma Observe_never_queries_organization :
  meta.GetExternalName fake.acmeCreated = "org-42"
  ∧ (mongodb.GetOrganization "org-42" fake.orgGone).1 = inl fake.notFound
  ∧ mongodb.IsNotFoundError (Some fake.notFound) = true
  ∧ trace (Observe fake.acmeCreated (fake.start fake.orgGone)).2
    = [CallDescribeSecret "product/mongodb/acme"]
  ∧ existsb isServiceCall
      (trace (Observe fake.acmeCreated (fake.start fake.orgGone)).2) = false
  ∧ (Observe fake.acmeCreated (fake.start fake.orgGone)).1.1.2
    = ExternalObservation.mk true true
  ∧ fake.secrets (world (Observe fake.acmeCreated (fake.start fake.orgGone)).2)
      !! "product/mongodb/acme" = Some fake.acmeSecret.
Proof. split_and!; vm_compute; reflexivity. Qed.

(** C2 (amended), on the same input. *)
Lemma Observe_trusts_external_name_witness :
  meta.GetExternalName fake.acmeCreated ≠ ""
  ∧ let '(cr', obs, err, s') :=
      Observe fake.acmeCreated (fake.start fake.orgGone) in
    err = None
    ∧ ExternalObservation.ResourceExists obs = true
    ∧ ∃ evs : list Event,
        trace s' = (trace (fake.start fake.orgGone) ++ evs)%list
        ∧ (∀ e, e ∈ evs → isServiceCall e = false)
        ∧ (∀ e, e ∈ evs → isRemoteDelete e = false)
        ∧ remoteCalls evs
          = match Organization.DeletionTimestamp fake.acmeCreated with
            | Some _ => []
            | None => [CallDescribeSecret (finalSecretName fake.acmeCreated)]
            end.
Proof.
  assert (H1 : meta.GetExternalName fake.acmeCreated ≠ "")
    by (vm_compute; discriminate).
  split; [exact H1|].
  exact (Observe_trusts_external_name fake.acmeCreated
           (fake.start fake.orgGone) H1).
Defined.

(** C7, as stated, fails when the organization is there and its secret is
    not: [DescribeSecret] fails and [Observe] reports the resource as up to
    date. *)
Lemma Observe_missing_secret_is_up_to_date :
  fake.orgs fake.secretGone !! "org-42" = Some fake.acmeOrg
  ∧ (aws.DescribeSecret (finalSecretName fake.acmeCreated) fake.secretGone).1
    = inl (fake.missing "product/mongodb/acme")
  ∧ (Observe fake.acmeCreated (fake.start fake.secretGone)).1.2 = None
  ∧ ExternalObservation.ResourceExists
      (Observe fake.acmeCreated (fake.start fake.secretGone)).1.1.2 = true
  ∧ ExternalObservation.ResourceUpToDate
      (Observe fake.acmeCreated (fake.start fake.secretGone)).1.1.2 = true.
Proof. split_and!; vm_compute; reflexivity. Qed.

(** C7 (amended), on the same input. *)
Lemma Observe_missing_secret_witness :
  let e := fake.missing "product/mongodb/acme" in
  let s := fake.start fake.secretGone in
  meta.GetExternalName fake.acmeCreated ≠ ""
  ∧ Organization.DeletionTimestamp fake.acmeCreated = None
  ∧ aws.DescribeSecret (finalSecretName fake.acmeCreated) (world s)
    = (inl e, fake.secretGone)
  ∧ let '(cr', obs, err, s') := Observe fake.acmeCreated s in
    err = None
    ∧ obs = ExternalObservation.mk true true
    ∧ world s' = fake.secretGone
    ∧ cr' = Organization.SetConditions xpv1.Available
              (Organization.set_OrgID (meta.GetExternalName fake.acmeCreated)
                 fake.acmeCreated)
    ∧ trace s'
      = (trace s ++ [CallDescribeSecret (finalSecretName fake.acmeCreated);
                     LogDebug "Failed to describe secret"])%list.
Proof.
  intros e s.
  assert (H1 : meta.GetExternalName fake.acmeCreated ≠ "")
    by (vm_compute; discriminate).
  assert (H2 : Organization.DeletionTimestamp fake.acmeCreated = None)
    by reflexivity.
  assert (H3 : aws.DescribeSecret (finalSecretName fake.acmeCreated) (world s)
               = (inl e, fake.secretGone)) by (vm_compute; reflexivity).
  split_and!; [exact H1 | exact H2 | exact H3 |].
  exact (Observe_missing_secret fake.acmeCreated s e fake.secretGone H1 H2 H3).
Defined.

(** C8, as stated, fails on the created resource: the stored secret holds
    the key pair only and its description is not the one of the spec, yet
    [Update] makes no call and the store is left as it was. *)
Lemma Update_ignores_drift :
  OrganizationAPIKey.Description
    (OrganizationParameters.APIKey (Organization.ForProvider fake.acmeCreated))
  = "x"
  ∧ fake.secrets fake.both !! finalSecretName fake.acmeCreated
    = Some fake.acmeSecret
  ∧ aws.CreateSecretInput.Description fake.acmeSecret
    = "MongoDB API credentials for organization org-42"
  ∧ aws.CreateSecretInput.SecretString fake.acmeSecret
    = fake.jsonObject [("publicKey", "pub"); ("privateKey", "priv")]
  ∧ trace (Update fake.acmeCreated (fake.start fake.both)).2 = []
  ∧ world (Update fake.acmeCreated (fake.start fake.both)).2 = fake.both.
Proof. split_and!; vm_compute; reflexivity. Qed.

(** C9, as stated, fails after creation: two created resources with the
    same external name get different secret names, each built from its
    [metadata.name], and creation does not change the name. *)
Lemma finalSecretName_ignores_identifier :
  meta.GetExternalName fake.acmeCreated = "org-42"
  ∧ meta.GetExternalName fake.otherCreated = "org-42"
  ∧ finalSecretName fake.acmeCreated = "product/mongodb/acme"
  ∧ finalSecretName fake.otherCreated = "product/mongodb/other"
  ∧ finalSecretName fake.acme = "product/mongodb/acme".
Proof. split_and!; vm_compute; reflexivity. Qed.

(** C6, as stated, fails on a 404, a 409 or a 429 whose body does not
    decode: [makeRequest] returns a generic error that is neither a
    not-found, nor a conflict, nor a retryable error. *)
Lemma makeRequest_undecodable_body :
  (mongodb.makeRequest (R := unit) fake.baseURL mongodb.http_MethodDelete
     "/orgs/org-42" None None (fake.respond 404 "404 Not Found" "")).1
  = inl (errors_New "HTTP 404: 404 Not Found")
  ∧ mongodb.IsNotFoundError (Some (errors_New "HTTP 404: 404 Not Found"))
    = false
  ∧ (mongodb.makeRequest (R := unit) fake.baseURL mongodb.http_MethodDelete
       "/orgs/org-42" None None (fake.respond 409 "409 Conflict" "")).1
    = inl (errors_New "HTTP 409: 409 Conflict")
  ∧ mongodb.IsConflictError (Some (errors_New "HTTP 409: 409 Conflict"))
    = false
  ∧ (mongodb.makeRequest (R := unit) fake.baseURL mongodb.http_MethodDelete
       "/orgs/org-42" None None
       (fake.respond 429 "429 Too Many Requests" "")).1
    = inl (errors_New "HTTP 429: 429 Too Many Requests")
  ∧ mongodb.IsRetryableError
      (Some (errors_New "HTTP 429: 429 Too Many Requests")) = false.
Proof. split_and!; vm_compute; reflexivity. Qed.

(** C6 (amended), on a 404 whose body decodes. *)
Lemma makeRequest_categories_witness :
  let apiErr := Error.mk 404 "organization does not exist" "RESOURCE_NOT_FOUND" in
  let w := fake.respond 404 "404 Not Found" (fake.renderError apiErr) in
  let url := fake.baseURL +:+ "/orgs/org-42" in
  let req := mongodb.Request.mk mongodb.http_MethodDelete url None [] in
  mongodb.NewRequestWithContext mongodb.http_MethodDelete url None = inr req
  ∧ mongodb.json_Unmarshal (fake.renderError apiErr) = inr apiErr
  ∧ (mongodb.makeRequest (R := unit) fake.baseURL mongodb.http_MethodDelete
       "/orgs/org-42" None None w).1 = inl (NotFoundError apiErr).
Proof.
  intros apiErr w url req.
  assert (H1 : mongodb.NewRequestWithContext mongodb.http_MethodDelete url None
               = inr req) by reflexivity.
  assert (H2 : mongodb.json_Unmarshal (fake.renderError apiErr) = inr apiErr)
    by (vm_compute; reflexivity).
  split_and!; [exact H1 | exact H2 |].
  pose proof (makeRequest_categories fake.baseURL (R := unit)
                mongodb.http_MethodDelete "/orgs/org-42" None None req w H1)
    as Hcat.
  cbv zeta in Hcat. cbn [mongodb.Do fake.HTTP_canned] in Hcat.
  unfold w, fake.respond in Hcat.
  destruct (Hcat ltac:(cbn; lia)) as (e & Hout & Hkind).
  cbn [mongodb.Response.Body] in Hkind. rewrite H2 in Hkind.
  destruct Hkind as (H404 & _).
  cbn [option_map] in Hout. unfold w, fake.respond.
  rewrite Hout. cbn. f_equal. apply H404. reflexivity.
Defined.

(** The whole life of [acme] on the in-memory backends: [Create] stores the
    organization and its secret, [Observe] reports both as present, the
    first [Delete] only records the finalizer token, the second deletes the
    organization and the secret and removes the token. *)
Lemma reconcile_scenario :
  let '(cr1, _, err1, s1) := Create fake.acme (fake.start fake.empty) in
  let '(cr2, obs, err2, s2) := Observe cr1 s1 in
  match Delete cr2 s2 with
  | (Panics _, _) => False
  | (Returns (cr3, err3), s3) =>
  match Delete cr3 s3 with
  | (Panics _, _) => False
  | (Returns (cr4, err4), s4) =>
  (err1, err2, err3, err4) = (None, None, None, None)
  ∧ meta.GetExternalName cr1 = "org-42"
  ∧ world s1 = fake.both
  ∧ obs = ExternalObservation.mk true true
  ∧ meta.FinalizerExists cr3 FinalizerOrganizationCleanup = true
  ∧ world s3 = fake.both
  ∧ meta.FinalizerExists cr4 FinalizerOrganizationCleanup = false
  ∧ world s4 = fake.empty
  ∧ remoteCalls (trace s4)
    = [CallCreateOrganization (createInput fake.acme);
       CallPutSecret "product/mongodb/acme"
         (aws.MongoDBAPICredentials.mk "pub" "priv") "org-42" None;
       CallDescribeSecret "product/mongodb/acme";
       CallDeleteOrganization "org-42";
       CallDeleteSecret "product/mongodb/acme" true]
  end
  end.
Proof. vm_compute. split_and!; reflexivity. Qed.

(** * Further properties of the controller *)

Lemma Condition_Equal_refl (c : xpv1.Condition) :
  xpv1.Condition_Equal c c = true.
Proof.
  unfold xpv1.Condition_Equal. by rewrite !bool_decide_eq_true_2.
Qed.

(** A second pass of the loop of [SetConditions] with the same condition
    changes nothing. *)
Lemma SetCondition_loop_stable (c : xpv1.Condition) (cs : list xpv1.Condition) :
  ∀ (cs' : list xpv1.Condition) (b : bool),
  xpv1.SetCondition_loop cs c = (cs', b) →
  xpv1.SetCondition_loop cs' c = (cs', b).
Proof.
  induction cs as [|c0 cs IH]; intros cs' b; cbn.
  { by intros [= <- <-]. }
  destruct (xpv1.SetCondition_loop cs c) as [rest' e] eqn:Hrest.
  specialize (IH _ _ eq_refl).
  case_bool_decide as Hty.
  - intros [= <- <-]. cbn. rewrite IH.
    by rewrite bool_decide_eq_true_2 by exact Hty.
  - destruct (xpv1.Condition_Equal c0 c) eqn:Heq; intros [= <- <-]; cbn;
      rewrite IH.
    + rewrite bool_decide_eq_false_2 by (intros Hc; by apply Hc).
      by rewrite Heq.
    + rewrite bool_decide_eq_false_2 by (intros Hc; by apply Hc).
      by rewrite Condition_Equal_refl.
Qed.

Lemma SetCondition_loop_app (c : xpv1.Condition) (cs : list xpv1.Condition) :
  ∀ (cs' : list xpv1.Condition) (b : bool),
  xpv1.SetCondition_loop cs c = (cs', b) →
  xpv1.SetCondition_loop (cs ++ [c]) c = ((cs' ++ [c])%list, true).
Proof.
  induction cs as [|c0 cs IH]; intros cs' b; cbn.
  { intros [= <- <-].
    rewrite bool_decide_eq_false_2 by (intros Hc; by apply Hc).
    by rewrite Condition_Equal_refl. }
  destruct (xpv1.SetCondition_loop cs c) as [rest' e] eqn:Hrest.
  rewrite (IH _ _ eq_refl).
  case_bool_decide as Hty; [by intros [= <- <-]|].
  by destruct (xpv1.Condition_Equal c0 c); intros [= <- <-].
Qed.

Lemma SetCondition_idemp (cs : list xpv1.Condition) (c : xpv1.Condition) :
  xpv1.SetCondition (xpv1.SetCondition cs c) c = xpv1.SetCondition cs c.
Proof.
  unfold xpv1.SetCondition.
  destruct (xpv1.SetCondition_loop cs c) as [cs' b] eqn:Hloop.
  apply SetCondition_loop_stable in Hloop as Hstable.
  destruct b.
  - by rewrite Hstable.
  - by rewrite (SetCondition_loop_app c cs' cs' false Hstable).
Qed.

Lemma finalizerCount_AddFinalizer (cr : Organization.t) (f : string) :
  meta.FinalizerExists cr f = false →
  finalizerCount (meta.AddFinalizer cr f) f = 1%nat.
Proof.
  intros Hfin. unfold meta.AddFinalizer. rewrite Hfin.
  unfold finalizerCount; cbn.
  apply bool_decide_eq_false in Hfin.
  rewrite filter_app, length_app.
  rewrite filter_cons_True by reflexivity. cbn.
  assert (Hnil : filter (λ e, e = f) (Organization.Finalizers cr) = []).
  { destruct (filter (λ e, e = f) (Organization.Finalizers cr))
      as [|x l] eqn:E; [done|].
    assert (Hx : x ∈ filter (λ e, e = f) (Organization.Finalizers cr))
      by (rewrite E; apply list_elem_of_here).
    apply list_elem_of_filter in Hx as [-> Hx]. done. }
  by rewrite Hnil.
Qed.

Lemma append_inj_r (p a b : string) : p +:+ a = p +:+ b → a = b.
Proof. induction p as [|ch p IH]; cbn; [done|]. intros [= H]. auto. Qed.

Lemma SetConditions_idemp (c : xpv1.Condition) (cr : Organization.t) :
  Organization.SetConditions c (Organization.SetConditions c cr)
  = Organization.SetConditions c cr.
Proof.
  unfold Organization.SetConditions, Organization.with_Conditions; cbn.
  by rewrite SetCondition_idemp.
Qed.

(** Read the external name and the deletion timestamp of a resource
    derived from [cr] off [cr] itself. *)
Ltac frame cr :=
  repeat match goal with
         | |- context [meta.GetExternalName ?c] =>
             lazymatch c with
             | cr => fail
             | _ => change (meta.GetExternalName c)
                      with (meta.GetExternalName cr)
             end
         | |- context [Organization.DeletionTimestamp ?c] =>
             lazymatch c with
             | cr => fail
             | _ => change (Organization.DeletionTimestamp c)
                      with (Organization.DeletionTimestamp cr)
             end
         end.

Section more_properties.
Context {W : Type} `{!mongodb.Service W, !aws.SecretsManager W}.
Context `{!mongodb.Marshal aws.MongoDBAPICredentials.t}.

(** [Observe] returns no error, and reports the resource as missing exactly
    when the external name is empty. *)
Lemma Observe_exists_iff (cr : Organization.t) (s : State W) :
  let '(_, obs, err, _) := Observe cr s in
  err = None
  ∧ (meta.GetExternalName cr = ""
     ↔ ExternalObservation.ResourceExists obs = false).
Proof.
  run. case_bool_decide as Hid; cbn; [done|].
  destruct (Organization.DeletionTimestamp cr) as [t|]; cbn; [done|].
  by destruct (aws.DescribeSecret _ (world s)) as [[e|desc] w1].
Qed.

Lemma Delete_frame (cr : Organization.t) (s : State W)
    (cr' : Organization.t) (err : option error) :
  (Delete cr s).1 = Returns (cr', err) →
  Organization.Annotations cr' = Organization.Annotations cr
  ∧ Organization.DeletionTimestamp cr' = Organization.DeletionTimestamp cr
  ∧ Organization.AtProvider cr' = Organization.AtProvider cr.
Proof.
  run.
  destruct (meta.RemoveFinalizer cr FinalizerOrganizationCleanup)
    as [cr0|msg] eqn:Hrm; [apply RemoveFinalizer_Returns in Hrm|].
  all: case_bool_decide; [by intros [= <- <-]|]; cbn.
  all: destruct (meta.FinalizerExists cr FinalizerOrganizationCleanup)
         eqn:Hfin; cbn;
       [|intros [= <- <-]; unfold meta.AddFinalizer; by rewrite Hfin].
  all: destruct (mongodb.DeleteOrganization _ (world s)) as [derr w1]; cbn.
  all: destruct (mongodb.IsNotFoundError derr); cbn;
    [|destruct derr as [e|]; [by intros [= <- <-]|]; cbn].
  all: destruct (aws.DeleteSecret _ true w1) as [[e|] w2]; cbn.
  all: first [discriminate | intros [= <- <-]; by rewrite Hrm].
Qed.

(** X1. [Observe] never returns an error.  It reports the resource as
    missing exactly when the external name is empty, and as up to date
    exactly when the external name is non-empty and the resource is not
    marked for deletion, whatever the credential store answers. *)
Theorem Observe_never_fails (cr : Organization.t) (s : State W) :
  let '(_, obs, err, _) := Observe cr s in
  err = None
  ∧ (ExternalObservation.ResourceExists obs = false
     ↔ meta.GetExternalName cr = "")
  ∧ (ExternalObservation.ResourceUpToDate obs = true
     ↔ meta.GetExternalName cr ≠ "" ∧ Organization.DeletionTimestamp cr = None).
Proof.
  run. case_bool_decide as Hid; cbn.
  { split_and!; [done|done|]. split; [done|]. by intros [? _]. }
  destruct (Organization.DeletionTimestamp cr) as [t|] eqn:Hts; cbn.
  { split_and!; [done| |]; split; try done. by intros [_ ?]. }
  destruct (aws.DescribeSecret _ (world s)) as [[e|desc] w1]; cbn;
    (split_and!; [done| |]; split; done).
Qed.

(** X2. For a resource with an empty external name [Observe] does nothing
    at all: the resource, the remote world and the trace come back as they
    were, with no debug line and no call. *)
Theorem Observe_not_created (cr : Organization.t) (s : State W) :
  meta.GetExternalName cr = "" →
  Observe cr s = (cr, ExternalObservation.mk false false, None, s).
Proof. intros Hid. run. by rewrite bool_decide_eq_true_2. Qed.

(** X3. For a created resource that is marked for deletion [Observe] makes
    no remote call: it copies the external name into the status, sets the
    [Deleting] condition and reports the resource as existing and not up
    to date. *)
Theorem Observe_marked_for_deletion (cr : Organization.t) (s : State W)
    (t : Z) :
  meta.GetExternalName cr ≠ "" →
  Organization.DeletionTimestamp cr = Some t →
  let '(cr', obs, err, s') := Observe cr s in
  obs = ExternalObservation.mk true false
  ∧ err = None
  ∧ world s' = world s
  ∧ remoteCalls (trace s') = remoteCalls (trace s)
  ∧ cr' = Organization.SetConditions xpv1.Deleting
            (Organization.set_OrgID (meta.GetExternalName cr) cr).
Proof.
  intros Hid Hts. run. rewrite bool_decide_eq_false_2 by exact Hid. cbn.
  rewrite Hts. cbn. tidy_trace. done.
Qed.

(** X4. When [DescribeSecret] succeeds on a created resource that is not
    marked for deletion, [Observe] records the organization identifier,
    and records the secret name and the ARN only if the answer carries an
    ARN; without one the two status fields keep their values.  The
    resource gets the [Available] condition and its other status fields
    (organization name, KMS key, creation time, state and deletion time)
    are untouched. *)
Theorem Observe_refreshes_status (cr : Organization.t) (s : State W)
    (desc : aws.DescribeSecretOutput.t) (w1 : W) :
  meta.GetExternalName cr ≠ "" →
  Organization.DeletionTimestamp cr = None →
  aws.DescribeSecret (finalSecretName cr) (world s) = (inr desc, w1) →
  let '(cr', obs, err, s') := Observe cr s in
  let old := Organization.AtProvider cr in
  let new := Organization.AtProvider cr' in
  obs = ExternalObservation.mk true true
  ∧ world s' = w1
  ∧ OrganizationObservation.OrgID new = meta.GetExternalName cr
  ∧ OrganizationObservation.SecretARN new
    = default (OrganizationObservation.SecretARN old)
        (aws.DescribeSecretOutput.ARN desc)
  ∧ OrganizationObservation.SecretName new
    = (if aws.DescribeSecretOutput.ARN desc is Some _ then finalSecretName cr
       else OrganizationObservation.SecretName old)
  ∧ OrganizationObservation.OrgName new = OrganizationObservation.OrgName old
  ∧ OrganizationObservation.KMSKeyID new = OrganizationObservation.KMSKeyID old
  ∧ OrganizationObservation.CreatedAt new
    = OrganizationObservation.CreatedAt old
  ∧ OrganizationObservation.State new = OrganizationObservation.State old
  ∧ OrganizationObservation.DeletedAt new
    = OrganizationObservation.DeletedAt old
  ∧ Organization.Conditions cr'
    = xpv1.SetCondition (Organization.Conditions cr) xpv1.Available.
Proof.
  intros Hid Hts Hdesc. run. rewrite bool_decide_eq_false_2 by exact Hid.
  cbn. rewrite Hts. same_name cr. rewrite Hdesc. cbn.
  destruct (aws.DescribeSecretOutput.ARN desc) as [arn|]; cbn; same_name cr;
    by split_and!.
Qed.

(** X5. [Observe] is idempotent on the resource: when the credential store
    gives the same answer twice, observing the observed resource again
    returns the same resource and the same observation. *)
Theorem Observe_idempotent (cr : Organization.t) (s : State W)
    (r : result aws.DescribeSecretOutput.t) (w1 w2 : W) :
  aws.DescribeSecret (finalSecretName cr) (world s) = (r, w1) →
  aws.DescribeSecret (finalSecretName cr) w1 = (r, w2) →
  let '(cr1, obs1, _, s1) := Observe cr s in
  let '(cr2, obs2, _, _) := Observe cr1 s1 in
  cr2 = cr1 ∧ obs2 = obs1.
Proof.
  intros Hd1 Hd2.
  destruct cr as [n a f ts fp cs [oid oname sname sarn kms ca st da]].
  unfold finalSecretName, meta.GetExternalName in *.
  cbn [Organization.Annotations Organization.ForProvider Organization.Name]
    in *.
  run. unfold finalSecretName, meta.GetExternalName, Organization.SetConditions.
  cbn. case_bool_decide as Hid; cbn.
  { by rewrite bool_decide_eq_true_2. }
  destruct ts as [t|]; cbn.
  { rewrite bool_decide_eq_false_2 by exact Hid. cbn.
    by rewrite SetCondition_idemp. }
  rewrite Hd1. cbn.
  destruct r as [e|desc]; cbn;
    [|destruct (aws.DescribeSecretOutput.ARN desc) as [arn|] eqn:Harn; cbn];
    rewrite bool_decide_eq_false_2 by exact Hid; cbn;
    rewrite Hd2; cbn; rewrite ?Harn; cbn;
    by rewrite SetCondition_idemp.
Qed.

(** X6. When the client's [CreateOrganization] fails, [Create] returns its
    error as it is, not wrapped, with the resource unchanged and no
    connection details; the credential store is not called. *)
Theorem Create_organization_failure (cr : Organization.t) (s : State W)
    (e : error) (w1 : W) :
  mongodb.CreateOrganization (createInput cr) (world s) = (inl e, w1) →
  Create cr s
  = (cr, ExternalCreation.zero, Some e,
     mkState w1 (trace s ++ [CallCreateOrganization (createInput cr)])).
Proof. intros Hcreate. run. by rewrite Hcreate. Qed.

(** X7. When both remote steps succeed, [Create] returns no error and
    publishes exactly three connection details: the public key, the
    private key and the ARN of the secret.  The resource gets the new
    identifier as external name and in its status, together with the
    organization name, the secret name and the ARN; its finalizers and
    conditions are untouched. *)
Theorem Create_success (cr : Organization.t) (s : State W)
    (org : mongodb.Organization.t) (apiKey : mongodb.APIKeyPair.t)
    (arn : string) (w1 w2 : W) :
  let kmsKeyID :=
    AWSSecretsManagerReference.KMSKeyID
      (OrganizationParameters.AWSSecretsConfig (Organization.ForProvider cr)) in
  mongodb.CreateOrganization (createInput cr) (world s)
  = (inr (org, apiKey), w1) →
  aws.PutSecret (finalSecretName cr) (credentials apiKey)
    (mongodb.Organization.ID org) kmsKeyID w1 = (inr arn, w2) →
  let '(cr', creation, err, s') := Create cr s in
  let details := ExternalCreation.ConnectionDetails creation in
  err = None
  ∧ world s' = w2
  ∧ remoteCalls (trace s')
    = (remoteCalls (trace s)
         ++ [CallCreateOrganization (createInput cr);
             CallPutSecret (finalSecretName cr) (credentials apiKey)
               (mongodb.Organization.ID org) kmsKeyID])%list
  ∧ details !! "publicKey" = Some (mongodb.APIKeyPair.PublicKey apiKey)
  ∧ details !! "privateKey" = Some (mongodb.APIKeyPair.PrivateKey apiKey)
  ∧ details !! "secretARN" = Some arn
  ∧ dom details = ({["publicKey"; "privateKey"; "secretARN"]} : gset string)
  ∧ meta.GetExternalName cr' = mongodb.Organization.ID org
  ∧ Organization.AtProvider cr'
    = OrganizationObservation.mk (mongodb.Organization.ID org)
        (mongodb.Organization.Name org) (finalSecretName cr) arn
        (OrganizationObservation.KMSKeyID (Organization.AtProvider cr))
        (OrganizationObservation.CreatedAt (Organization.AtProvider cr))
        (OrganizationObservation.State (Organization.AtProvider cr))
        (OrganizationObservation.DeletedAt (Organization.AtProvider cr))
  ∧ Organization.Finalizers cr' = Organization.Finalizers cr
  ∧ Organization.Conditions cr' = Organization.Conditions cr.
Proof.
  intros kmsKeyID Hcreate Hput. subst kmsKeyID. run.
  rewrite Hcreate; cbn. same_name cr. rewrite Hput; cbn. same_name cr.
  tidy_trace. split_and!; try done.
  exact (GetExternalName_SetExternalName cr (mongodb.Organization.ID org)).
Qed.

(** X8. After a [Create] whose [CreateOrganization] step succeeded, whether
    or not the secret was stored, an immediate [Observe] of the returned
    resource reports it as existing exactly when the identifier the API
    returned is non-empty: an organization that comes back with an empty
    identifier is taken as not created. *)
Theorem Create_then_Observe (cr : Organization.t) (s : State W)
    (org : mongodb.Organization.t) (apiKey : mongodb.APIKeyPair.t) (w1 : W) :
  mongodb.CreateOrganization (createInput cr) (world s)
  = (inr (org, apiKey), w1) →
  let '(cr1, _, _, s1) := Create cr s in
  let '(_, obs, err, _) := Observe cr1 s1 in
  err = None
  ∧ (ExternalObservation.ResourceExists obs = true
     ↔ mongodb.Organization.ID org ≠ "").
Proof.
  intros Hcreate.
  assert (Hname : meta.GetExternalName (Create cr s).1.1.1
                  = mongodb.Organization.ID org).
  { run. rewrite Hcreate; cbn.
    destruct (aws.PutSecret _ _ _ _ w1) as [[e|arn] w2]; cbn;
      apply GetExternalName_SetExternalName. }
  destruct (Create cr s) as [[[cr1 creation] err1] s1]. cbn in Hname.
  pose proof (Observe_exists_iff cr1 s1) as Hobs.
  destruct (Observe cr1 s1) as [[[cr2 obs] err] s2].
  destruct Hobs as [Herr Hex]. split; [exact Herr|].
  rewrite <- Hname. destruct (ExternalObservation.ResourceExists obs).
  - split; [|done]. intros _ Hempty. apply Hex in Hempty. discriminate.
  - split; [done|]. intros Hne. destruct Hne. by apply Hex.
Qed.

(** X9. With the finalizer token present on a created resource, and
    recorded no more than once, [Delete] returns, and it succeeds exactly
    when the client's [DeleteOrganization] returned no error or a
    not-found error, and then the token is removed.  On any other error
    [Delete] returns it wrapped, keeps the token, records the
    [ReconcileError] condition and does not call the credential store. *)
Theorem Delete_outcome (cr : Organization.t) (s : State W)
    (derr : option error) (w1 : W) :
  meta.GetExternalName cr ≠ "" →
  meta.FinalizerExists cr FinalizerOrganizationCleanup = true →
  (finalizerCount cr FinalizerOrganizationCleanup ≤ 1)%nat →
  mongodb.DeleteOrganization (meta.GetExternalName cr) (world s) = (derr, w1) →
  let '(out, s') := Delete cr s in
  ∃ cr' err,
    out = Returns (cr', err)
    ∧ (err = None ↔ derr = None ∨ mongodb.IsNotFoundError derr = true)
    ∧ (err = None →
       meta.FinalizerExists cr' FinalizerOrganizationCleanup = false)
    ∧ (∀ e, derr = Some e → mongodb.IsNotFoundError derr = false →
       err = Some (errors_Wrap e errDeleteExternal)
       ∧ meta.FinalizerExists cr' FinalizerOrganizationCleanup = true
       ∧ world s' = w1
       ∧ remoteCalls (trace s')
         = (remoteCalls (trace s)
              ++ [CallDeleteOrganization (meta.GetExternalName cr)])%list
       ∧ Organization.Conditions cr'
         = xpv1.SetCondition (Organization.Conditions cr)
             (xpv1.ReconcileError e)).
Proof.
  intros Hid Hfin Hcount Hdel. run.
  rewrite bool_decide_eq_false_2 by exact Hid.
  cbn. rewrite Hfin. cbn. rewrite Hdel. cbn.
  rewrite (RemoveFinalizer_once cr _ Hcount).
  destruct (mongodb.IsNotFoundError derr) eqn:Hnf; cbn.
  - destruct (aws.DeleteSecret _ true w1) as [[e|] w2]; cbn;
      (eexists _, _; split; [reflexivity|]);
      rewrite FinalizerExists_SetConditions, FinalizerExists_filter;
      (split_and!; [split; auto| done | intros; discriminate ]).
  - destruct derr as [e|]; cbn.
    + eexists _, _; split; [reflexivity|].
      rewrite FinalizerExists_SetConditions, Hfin. tidy_trace.
      split_and!; [split; [done|by intros [?|?]] | done |].
      intros e' [= <-] _. done.
    + destruct (aws.DeleteSecret _ true w1) as [[e|] w2]; cbn;
        (eexists _, _; split; [reflexivity|]);
        rewrite FinalizerExists_SetConditions, FinalizerExists_filter;
        (split_and!; [split; auto| done | intros; discriminate ]).
Qed.

(** X10. Deletion takes two invocations.  On a created resource without the
    finalizer token the first [Delete] makes no remote call and leaves the
    remote world alone; a second [Delete] on the resource it returns then
    calls the client's [DeleteOrganization] with the external name, as its
    first remote call.  Neither invocation panics. *)
Theorem Delete_twice (cr : Organization.t) (s : State W) :
  meta.GetExternalName cr ≠ "" →
  meta.FinalizerExists cr FinalizerOrganizationCleanup = false →
  let '(out1, s1) := Delete cr s in
  ∃ cr1 err1,
    out1 = Returns (cr1, err1)
    ∧ let '(out2, s2) := Delete cr1 s1 in
      err1 = None
      ∧ world s1 = world s
      ∧ remoteCalls (trace s1) = remoteCalls (trace s)
      ∧ (∃ later : list Event,
           remoteCalls (trace s2)
           = (remoteCalls (trace s)
                ++ CallDeleteOrganization (meta.GetExternalName cr)
                   :: later)%list)
      ∧ ∃ cr2 err2, out2 = Returns (cr2, err2).
Proof.
  intros Hid Hfin.
  pose proof (finalizerCount_AddFinalizer cr _ Hfin) as Hcount.
  run. rewrite bool_decide_eq_false_2 by exact Hid. cbn.
  rewrite Hfin. cbn. eexists _, _. split; [reflexivity|].
  rewrite RemoveFinalizer_once by lia.
  change (meta.GetExternalName (meta.AddFinalizer cr FinalizerOrganizationCleanup))
    with (meta.GetExternalName
            (if meta.FinalizerExists cr FinalizerOrganizationCleanup then cr
             else Organization.with_Finalizers
                    (Organization.Finalizers cr ++ [FinalizerOrganizationCleanup])
                    cr)).
  rewrite Hfin. frame cr.
  rewrite bool_decide_eq_false_2 by exact Hid. cbn.
  rewrite FinalizerExists_AddFinalizer. cbn.
  destruct (mongodb.DeleteOrganization (meta.GetExternalName cr) (world s))
    as [derr w1]. cbn.
  destruct (mongodb.IsNotFoundError derr); cbn;
    [|destruct derr as [e|]; cbn];
    try (destruct (aws.DeleteSecret _ true w1) as [[e'|] w2]; cbn);
    tidy_trace; (split_and!; [done|done|done| |]); by eauto.
Qed.

(** X11. What the operations leave alone.  [Observe] never changes the
    annotations (so the external name), the finalizers or the deletion
    timestamp; [Create] never changes the finalizers, the deletion
    timestamp or the conditions; [Delete], whenever it returns, has not
    changed the annotations, the deletion timestamp or the observed
    status. *)
Theorem operations_frame (cr : Organization.t) (s : State W) :
  let observed := (Observe cr s).1.1.1 in
  let created := (Create cr s).1.1.1 in
  (Organization.Annotations observed = Organization.Annotations cr
   ∧ Organization.Finalizers observed = Organization.Finalizers cr
   ∧ Organization.DeletionTimestamp observed
     = Organization.DeletionTimestamp cr)
  ∧ (Organization.Finalizers created = Organization.Finalizers cr
     ∧ Organization.DeletionTimestamp created
       = Organization.DeletionTimestamp cr
     ∧ Organization.Conditions created = Organization.Conditions cr)
  ∧ (∀ deleted err, (Delete cr s).1 = Returns (deleted, err) →
     Organization.Annotations deleted = Organization.Annotations cr
     ∧ Organization.DeletionTimestamp deleted
       = Organization.DeletionTimestamp cr
     ∧ Organization.AtProvider deleted = Organization.AtProvider cr).
Proof.
  intros observed created. split_and!.
  - subst observed. run.
    case_bool_decide; [done|]. cbn.
    destruct (Organization.DeletionTimestamp cr); [done|].
    destruct (aws.DescribeSecret _ (world s)) as [[e|desc] w1]; [done|].
    cbn. by destruct (aws.DescribeSecretOutput.ARN desc).
  - subst observed. run.
    case_bool_decide; [done|]. cbn.
    destruct (Organization.DeletionTimestamp cr); [done|].
    destruct (aws.DescribeSecret _ (world s)) as [[e|desc] w1]; [done|].
    cbn. by destruct (aws.DescribeSecretOutput.ARN desc).
  - subst observed. run.
    case_bool_decide; [done|]. cbn.
    destruct (Organization.DeletionTimestamp cr) eqn:Hts; [done|].
    destruct (aws.DescribeSecret _ (world s)) as [[e|desc] w1]; [done|].
    cbn. by destruct (aws.DescribeSecretOutput.ARN desc).
  - subst created. run.
    destruct (mongodb.CreateOrganization _ (world s))
      as [[e|[org apiKey]] w1]; [done|].
    cbn. by destruct (aws.PutSecret _ _ _ _ w1) as [[e|arn] w2].
  - subst created. run.
    destruct (mongodb.CreateOrganization _ (world s))
      as [[e|[org apiKey]] w1]; [done|].
    cbn. by destruct (aws.PutSecret _ _ _ _ w1) as [[e|arn] w2].
  - subst created. run.
    destruct (mongodb.CreateOrganization _ (world s))
      as [[e|[org apiKey]] w1]; [done|].
    cbn. by destruct (aws.PutSecret _ _ _ _ w1) as [[e|arn] w2].
  - intros deleted err Hret. by eapply Delete_frame.
Qed.

(** X12. Two resources resolve to the same secret name exactly when their
    short names coincide, the short name being the explicit secret name
    of the spec when it is present and non-empty and [metadata.name]
    otherwise.  So a resource whose explicit secret name is the
    [metadata.name] of another resource shares that resource's secret. *)
Theorem finalSecretName_collision (cr1 cr2 : Organization.t) :
  let short (cr : Organization.t) :=
    match AWSSecretsManagerReference.SecretName
            (OrganizationParameters.AWSSecretsConfig
               (Organization.ForProvider cr)) with
    | Some n => if bool_decide (n = "") then Organization.Name cr else n
    | None => Organization.Name cr
    end in
  finalSecretName cr1 = finalSecretName cr2 ↔ short cr1 = short cr2.
Proof.
  intros short.
  assert (Hshort : ∀ cr, finalSecretName cr = secretPrefix +:+ short cr).
  { intros cr. unfold finalSecretName, short.
    destruct (AWSSecretsManagerReference.SecretName _) as [n|]; [|done].
    by repeat case_bool_decide. }
  rewrite !Hshort. split; [apply append_inj_r | by intros ->].
Qed.

(** X28. A token recorded more than once can make [Delete] panic after the
    remote deletions.  When the finalizer token closes the list of
    finalizers and also occurs before, and the client's
    [DeleteOrganization] returns success or a not-found error, [Delete]
    calls [DeleteOrganization] and [DeleteSecret] and then panics inside
    [meta.RemoveFinalizer], whatever the secret deletion returned: it
    returns neither a resource nor an error. *)
Theorem Delete_panics_on_trailing_token (cr : Organization.t) (s : State W)
    (pre : list string) (derr : option error) (w1 : W) :
  meta.GetExternalName cr ≠ "" →
  Organization.Finalizers cr = (pre ++ [FinalizerOrganizationCleanup])%list →
  FinalizerOrganizationCleanup ∈ pre →
  mongodb.DeleteOrganization (meta.GetExternalName cr) (world s) = (derr, w1) →
  derr = None ∨ mongodb.IsNotFoundError derr = true →
  let '(out, s') := Delete cr s in
  (∃ msg, out = Panics msg)
  ∧ world s' = (aws.DeleteSecret (finalSecretName cr) true w1).2
  ∧ remoteCalls (trace s')
    = (remoteCalls (trace s)
         ++ [CallDeleteOrganization (meta.GetExternalName cr);
             CallDeleteSecret (finalSecretName cr) true])%list.
Proof.
  intros Hid Hfs Hin Hdel Hderr.
  assert (Hfin : meta.FinalizerExists cr FinalizerOrganizationCleanup = true).
  { unfold meta.FinalizerExists. apply bool_decide_eq_true. rewrite Hfs.
    apply elem_of_app. right. apply list_elem_of_here. }
  destruct (RemoveFinalizer_trailing cr _ pre Hfs Hin) as [msg Hmsg].
  run. rewrite bool_decide_eq_false_2 by exact Hid. cbn.
  rewrite Hfin. cbn. rewrite Hdel. cbn. rewrite Hmsg.
  assert (Hgo : mongodb.IsNotFoundError derr = true
                ∨ (mongodb.IsNotFoundError derr = false ∧ derr = None)).
  { destruct (mongodb.IsNotFoundError derr); [by left|right].
    by destruct Hderr. }
  clear Hderr. destruct Hgo as [Hnf|[Hnf ->]]; rewrite Hnf; cbn.
  all: destruct (aws.DeleteSecret (finalSecretName cr) true w1)
         as [[e|] w2]; cbn; tidy_trace; split_and!; by eauto.
Qed.

(** X29. A token recorded twice can survive a successful [Delete].  When
    the finalizer token sits at two neighbouring places of the list of
    finalizers that are followed by another finalizer, and at no other
    place, and the client's [DeleteOrganization] returns success or a
    not-found error, [Delete] makes its two remote calls and returns no
    error, and the resource it returns still carries the token: the loop
    of [meta.RemoveFinalizer] removed the first of the two and stepped
    over the second. *)
Theorem Delete_keeps_repeated_token (cr : Organization.t) (s : State W)
    (pre post : list string) (derr : option error) (w1 : W) :
  meta.GetExternalName cr ≠ "" →
  Organization.Finalizers cr
  = (pre ++ FinalizerOrganizationCleanup :: FinalizerOrganizationCleanup
         :: post)%list →
  FinalizerOrganizationCleanup ∉ pre →
  FinalizerOrganizationCleanup ∉ post →
  post ≠ [] →
  mongodb.DeleteOrganization (meta.GetExternalName cr) (world s) = (derr, w1) →
  derr = None ∨ mongodb.IsNotFoundError derr = true →
  let '(out, s') := Delete cr s in
  ∃ cr',
    out = Returns (cr', None)
    ∧ Organization.Finalizers cr'
      = (pre ++ FinalizerOrganizationCleanup :: post)%list
    ∧ meta.FinalizerExists cr' FinalizerOrganizationCleanup = true
    ∧ world s' = (aws.DeleteSecret (finalSecretName cr) true w1).2
    ∧ remoteCalls (trace s')
      = (remoteCalls (trace s)
           ++ [CallDeleteOrganization (meta.GetExternalName cr);
               CallDeleteSecret (finalSecretName cr) true])%list.
Proof.
  intros Hid Hfs Hpre Hpost Hne Hdel Hderr.
  assert (Hfin : meta.FinalizerExists cr FinalizerOrganizationCleanup = true).
  { unfold meta.FinalizerExists. apply bool_decide_eq_true. rewrite Hfs.
    apply elem_of_app. right. apply list_elem_of_here. }
  run. rewrite bool_decide_eq_false_2 by exact Hid. cbn.
  rewrite Hfin. cbn. rewrite Hdel. cbn.
  rewrite (RemoveFinalizer_neighbours cr _ pre post Hfs Hpre Hpost Hne).
  assert (Hgo : mongodb.IsNotFoundError derr = true
                ∨ (mongodb.IsNotFoundError derr = false ∧ derr = None)).
  { destruct (mongodb.IsNotFoundError derr); [by left|right].
    by destruct Hderr. }
  clear Hderr. destruct Hgo as [Hnf|[Hnf ->]]; rewrite Hnf; cbn.
  all: destruct (aws.DeleteSecret (finalSecretName cr) true w1)
         as [[e|] w2]; cbn; tidy_trace;
       (eexists; split; [reflexivity|]); split_and!; try done.
  all: unfold meta.FinalizerExists; apply bool_decide_eq_true; cbn;
       set_solver.
Qed.

End more_properties.

(** * Properties of the connector *)

Section connector_properties.
Import connector.
Context {W : Type} `{!Collaborators W, !aws.SecretsManager W}.
Context `{!mongodb.Unmarshal aws.MongoDBAPICredentials.t}.

(** X13. A provider config whose credentials source is not [AWS] is
    rejected as soon as it has been read: [Connect] returns the
    invalid-config error, whatever the [aws] block holds, and the world is
    the one [kube.Get] left, so no AWS client is built and no secret is
    read. *)
Theorem Connect_rejects_other_source (cr : Organization.t) (name : string)
    (pc : apisv1alpha1.ProviderConfig.t) (w w1 w2 : W) :
  usage_Track (IsOrganization cr (Some name)) w = (None, w1) →
  kube_Get name w1 = (inr pc, w2) →
  apisv1alpha1.ProviderCredentials.Source
    (apisv1alpha1.ProviderConfig.Credentials pc) ≠ "AWS" →
  Connect (IsOrganization cr (Some name)) w
  = (Returns (inl (errors_New errInvalidPCConfig)), w2).
Proof.
  intros Htrack Hget Hsrc. unfold Connect. rewrite Htrack, Hget.
  by rewrite bool_decide_eq_true_2.
Qed.

(** X14. [Connect] panics, instead of returning an error, exactly when
    usage tracking succeeded and then either the provider config
    reference is nil, or the provider config was read with source [AWS]
    and lacks its [aws] block or its [secretsManager] block, or it lacks
    the secret name; in this last case the AWS client has already been
    created. *)
Theorem Connect_panics_iff (mg : Managed) (w : W) :
  (∃ msg, (Connect mg w).1 = Panics msg)
  ↔ ∃ cr ref w1,
      mg = IsOrganization cr ref
      ∧ usage_Track mg w = (None, w1)
      ∧ (ref = None
         ∨ ∃ name pc w2,
             ref = Some name
             ∧ kube_Get name w1 = (inr pc, w2)
             ∧ apisv1alpha1.ProviderCredentials.Source
                 (apisv1alpha1.ProviderConfig.Credentials pc) = "AWS"
             ∧ match apisv1alpha1.ProviderCredentials.AWS
                       (apisv1alpha1.ProviderConfig.Credentials pc) with
               | None => True
               | Some awsSource =>
                   match apisv1alpha1.AWSCredentialsSource.SecretsManager
                           awsSource with
                   | None => True
                   | Some awsCfg =>
                       apisv1alpha1.AWSSecretsManagerReference.SecretName awsCfg
                       = None
                       ∧ ∃ awsClient w3,
                           newAWSClientFn
                             (apisv1alpha1.AWSSecretsManagerReference.Region
                                awsCfg) w2 = (inr awsClient, w3)
                   end
               end).
Proof.
  unfold Connect. split.
  - destruct mg as [cr ref|kind]; [|by intros [? ?]].
    destruct (usage_Track (IsOrganization cr ref) w) as [[terr|] w1]
      eqn:Htrack; [by intros [? ?]|].
    intros Hp. exists cr, ref, w1. split_and!; [done|done|].
    destruct ref as [name|]; [right|by left].
    destruct (kube_Get name w1) as [[gerr|pc] w2] eqn:Hget;
      [by destruct Hp|].
    exists name, pc, w2. revert Hp.
    case_bool_decide as Hsrc; [by intros [? ?]|].
    destruct (apisv1alpha1.ProviderCredentials.AWS _) as [awsSource|];
      [|done].
    destruct (apisv1alpha1.AWSCredentialsSource.SecretsManager awsSource)
      as [awsCfg|]; [|done].
    destruct (newAWSClientFn _ w2) as [[cerr|awsClient] w3] eqn:Hnew;
      [by intros [? ?]|].
    destruct (apisv1alpha1.AWSSecretsManagerReference.SecretName awsCfg)
      as [secretName|]; [|intros _; split_and!; try done; by eexists _, _].
    by destruct (aws.GetSecret secretName w3) as [[serr|c] w4]; intros [? ?].
  - intros (cr & ref & w1 & -> & Htrack & Hrest). rewrite Htrack.
    destruct Hrest as [->|(name & pc & w2 & -> & Hget & Hsrc & Hcfg)];
      [by eexists|].
    rewrite Hget. rewrite bool_decide_eq_false_2 by (by intros Hne).
    destruct (apisv1alpha1.ProviderCredentials.AWS _) as [awsSource|];
      [|by eexists].
    destruct (apisv1alpha1.AWSCredentialsSource.SecretsManager awsSource)
      as [awsCfg|]; [|by eexists].
    destruct Hcfg as (Hname & awsClient & w3 & Hnew).
    rewrite Hnew, Hname. by eexists.
Qed.

(** X15. When [Connect] returns a client, the provider config was read
    with source [AWS] and a complete [secretsManager] block, the AWS
    client is the one built for the configured region, and the key pair
    the service client is built from is the one stored under the
    configured secret name. *)
Theorem Connect_success (mg : Managed) (w w' : W) (ext : external.t) :
  Connect mg w = (Returns (inr ext), w') →
  ∃ cr name pc awsSource awsCfg secretName credsAWS w1 w2 w3,
    mg = IsOrganization cr (Some name)
    ∧ usage_Track mg w = (None, w1)
    ∧ kube_Get name w1 = (inr pc, w2)
    ∧ apisv1alpha1.ProviderCredentials.Source
        (apisv1alpha1.ProviderConfig.Credentials pc) = "AWS"
    ∧ apisv1alpha1.ProviderCredentials.AWS
        (apisv1alpha1.ProviderConfig.Credentials pc) = Some awsSource
    ∧ apisv1alpha1.AWSCredentialsSource.SecretsManager awsSource = Some awsCfg
    ∧ apisv1alpha1.AWSSecretsManagerReference.SecretName awsCfg
      = Some secretName
    ∧ newAWSClientFn (apisv1alpha1.AWSSecretsManagerReference.Region awsCfg) w2
      = (inr (external.awsClient ext), w3)
    ∧ aws.GetSecret secretName w3 = (inr credsAWS, w')
    ∧ external.client ext
      = Credentials.mk (aws.MongoDBAPICredentials.PublicKey credsAWS)
          (aws.MongoDBAPICredentials.PrivateKey credsAWS).
Proof.
  unfold Connect. destruct mg as [cr ref|kind]; [|done].
  destruct (usage_Track (IsOrganization cr ref) w) as [[terr|] w1] eqn:Htrack;
    [done|].
  destruct ref as [name|]; [|done].
  destruct (kube_Get name w1) as [[gerr|pc] w2] eqn:Hget; [done|].
  case_bool_decide as Hsrc; [done|].
  destruct (apisv1alpha1.ProviderCredentials.AWS _) as [awsSource|] eqn:Haws;
    [|done].
  destruct (apisv1alpha1.AWSCredentialsSource.SecretsManager awsSource)
    as [awsCfg|] eqn:Hsm; [|done].
  destruct (newAWSClientFn _ w2) as [[cerr|awsClient] w3] eqn:Hnew; [done|].
  destruct (apisv1alpha1.AWSSecretsManagerReference.SecretName awsCfg)
    as [secretName|] eqn:Hsn; [|done].
  destruct (aws.GetSecret secretName w3) as [[serr|credsAWS] w4] eqn:Hsec;
    [done|].
  intros [= <- <-]. cbn.
  by exists cr, name, pc, awsSource, awsCfg, secretName, credsAWS, w1, w2, w3.
Qed.

End connector_properties.

(** * Properties of the Atlas service client *)

Section service_properties.
Context {W : Type} `{!mongodb.HTTP W}.
Context `{!mongodb.Unmarshal Error.t, !mongodb.Unmarshal mongodb.CreateOrgResponse.t,
          !mongodb.Unmarshal mongodb.Organization.t}.
Context `{!mongodb.Marshal mongodb.CreateOrgPayload.t,
          !mongodb.Marshal (list (string * string))}.
Context `{!aws.SecretsManager W}.
Variable baseURL : string.

(** The request [makeRequest] sends for a request it has built. *)
Let sent (req : mongodb.Request.t) : mongodb.Request.t :=
  mongodb.Request.Header_Set "Accept" "application/json"
    (mongodb.Request.Header_Set "Content-Type" "application/json" req).

(** X16. Empty input is refused before any request is built or sent:
    [CreateOrganization] with an empty name or an empty owner, and
    [DeleteOrganization] and [VerifyOrganizationDeletion] with an empty
    identifier, return an error and leave the remote world as it is. *)
Theorem client_refuses_empty_input (input : mongodb.CreateOrganizationInput.t)
    (w : W) :
  (mongodb.CreateOrganizationInput.Name input = ""
   ∨ mongodb.CreateOrganizationInput.OwnerID input = "" →
   ∃ e, mongodb.client_CreateOrganization baseURL input w = (inl e, w))
  ∧ mongodb.client_DeleteOrganization baseURL "" w
    = (Some (errors_New "organization id cannot be empty"), w)
  ∧ mongodb.client_VerifyOrganizationDeletion baseURL "" w
    = (Some (errors_New "organization id cannot be empty"), w).
Proof.
  split_and!; [|done|done].
  unfold mongodb.client_CreateOrganization.
  intros [Hn|Ho]; repeat case_bool_decide; try done; by eexists.
Qed.

(** X17. Every error [CreateOrganization] returns is opaque to the three
    classification functions: a failure of the request is wrapped, so not
    even a network error, a rate limit or a conflict met while creating
    is recognised as retryable, conflicting or not found. *)
Theorem client_CreateOrganization_error_is_opaque
    (input : mongodb.CreateOrganizationInput.t) (w w' : W) (e : error) :
  mongodb.client_CreateOrganization baseURL input w = (inl e, w') →
  mongodb.IsNotFoundError (Some e) = false
  ∧ mongodb.IsRetryableError (Some e) = false
  ∧ mongodb.IsConflictError (Some e) = false.
Proof.
  unfold mongodb.client_CreateOrganization.
  repeat case_bool_decide; try by intros [= <- <-].
  destruct (mongodb.makeRequest _ _ _ _ _ w) as [[err|decoded] w1];
    by intros [= <- <-].
Qed.

(** X18. For a non-empty identifier whose request can be built,
    [DeleteOrganization] returns no error exactly when a response arrived
    with a status below 400: any such status counts as deleted, not only
    204, and the body is never looked at. *)
Theorem client_DeleteOrganization_nil_iff (id : string)
    (req : mongodb.Request.t) (w : W) :
  id ≠ "" →
  mongodb.NewRequestWithContext mongodb.http_MethodDelete
    (baseURL +:+ "/orgs/" +:+ id) None = inr req →
  (mongodb.client_DeleteOrganization baseURL id w).1 = None
  ↔ ∃ resp w', mongodb.Do (sent req) w = (inr resp, w')
               ∧ mongodb.Response.StatusCode resp < 400.
Proof.
  intros Hid Hreq.
  unfold mongodb.client_DeleteOrganization, mongodb.makeRequest.
  rewrite bool_decide_eq_false_2 by exact Hid. cbv zeta. rewrite Hreq.
  fold (sent req).
  destruct (mongodb.Do (sent req) w) as [[err|resp] w1]; cbn.
  { split; [done|]. by intros (? & ? & [= ] & _). }
  case_bool_decide as Hcode; cbn.
  - split; [done|]. intros (? & ? & [= <- <-] & ?). lia.
  - split; [|done]. intros _. exists resp, w1. split; [done|lia].
Qed.

(** X19. For a non-empty identifier whose request can be built,
    [VerifyOrganizationDeletion] confirms the deletion exactly when the
    answer is a 404 whose body decodes as an API error.  A 404 with any
    other body is a failure, and so is every successful answer, whatever
    the [isDeleted] flag of the organization it carries. *)
Theorem client_VerifyOrganizationDeletion_nil_iff (id : string)
    (req : mongodb.Request.t) (w : W) :
  id ≠ "" →
  mongodb.NewRequestWithContext mongodb.http_MethodGet
    (baseURL +:+ "/orgs/" +:+ id) None = inr req →
  (mongodb.client_VerifyOrganizationDeletion baseURL id w).1 = None
  ↔ ∃ resp w' (apiErr : Error.t),
      mongodb.Do (sent req) w = (inr resp, w')
      ∧ mongodb.Response.StatusCode resp = 404
      ∧ mongodb.json_Unmarshal (mongodb.Response.Body resp) = inr apiErr.
Proof.
  intros Hid Hreq.
  unfold mongodb.client_VerifyOrganizationDeletion, mongodb.makeRequest.
  rewrite bool_decide_eq_false_2 by exact Hid. cbv zeta. rewrite Hreq.
  fold (sent req).
  destruct (mongodb.Do (sent req) w) as [[err|resp] w1]; cbn.
  { split; [done|]. by intros (? & ? & ? & [= ] & _). }
  case_bool_decide as Hcode; cbn.
  - unfold mongodb.categorize.
    destruct (mongodb.json_Unmarshal (mongodb.Response.Body resp))
      as [perr|apiErr] eqn:Hbody.
    + split.
      * by case_bool_decide.
      * intros (? & ? & ? & [= <- <-] & _ & Hb). congruence.
    + repeat case_bool_decide; cbn; (split; [|try done]);
        try (intros _; by exists resp, w1, apiErr);
        try done; intros (? & ? & ? & [= <- <-] & ? & _); lia.
  - split.
    + case_bool_decide; [|done].
      by destruct (mongodb.json_Unmarshal (mongodb.Response.Body resp)).
    + intros (? & ? & ? & [= <- <-] & ? & _). lia.
Qed.

(** X20. A 204 answer to the creation request is a success with nothing
    decoded: [CreateOrganization] returns, with no error, an organization
    whose identifier and name are empty and an empty key pair. *)
Theorem client_CreateOrganization_no_content
    (input : mongodb.CreateOrganizationInput.t) (j : string)
    (req : mongodb.Request.t) (resp : mongodb.Response.t) (w w' : W) :
  mongodb.CreateOrganizationInput.Name input ≠ "" →
  mongodb.CreateOrganizationInput.OwnerID input ≠ "" →
  mongodb.json_Marshal
    (mongodb.CreateOrgPayload.mk (mongodb.CreateOrganizationInput.Name input)
       (mongodb.CreateOrganizationInput.OwnerID input)
       (mongodb.CreateOrganizationInput.APIKey input)) = inr j →
  mongodb.NewRequestWithContext mongodb.http_MethodPost (baseURL +:+ "/orgs")
    (Some j) = inr req →
  mongodb.Do (sent req) w = (inr resp, w') →
  mongodb.Response.StatusCode resp = 204 →
  mongodb.client_CreateOrganization baseURL input w
  = (inr (mongodb.Organization.mk "" ""
            (mongodb.CreateOrganizationInput.OwnerID input) false 0,
          mongodb.APIKeyPair.mk "" ""), w').
Proof.
  intros Hn Ho Hj Hreq Hdo Hcode.
  unfold mongodb.client_CreateOrganization, mongodb.makeRequest.
  rewrite !bool_decide_eq_false_2 by done. rewrite Hj. cbv zeta.
  rewrite Hreq. fold (sent req). rewrite Hdo, Hcode. done.
Qed.

(** X21. Over the HTTP client, a 404 whose body decodes as an API error is
    an organization already gone: with the finalizer token present, and
    recorded no more than once, [Delete] goes on to delete the secret with
    force, removes the token and returns no error. *)
Theorem Delete_succeeds_on_decodable_404 (cr : Organization.t)
    (s : State W) (req : mongodb.Request.t) (resp : mongodb.Response.t)
    (apiErr : Error.t) (w' : W) :
  meta.GetExternalName cr ≠ "" →
  meta.FinalizerExists cr FinalizerOrganizationCleanup = true →
  (finalizerCount cr FinalizerOrganizationCleanup ≤ 1)%nat →
  mongodb.NewRequestWithContext mongodb.http_MethodDelete
    (baseURL +:+ "/orgs/" +:+ meta.GetExternalName cr) None = inr req →
  mongodb.Do (sent req) (world s) = (inr resp, w') →
  mongodb.Response.StatusCode resp = 404 →
  mongodb.json_Unmarshal (mongodb.Response.Body resp) = inr apiErr →
  let '(out, s') :=
    @Delete W (mongodb.client_Service baseURL) _ cr s in
  ∃ cr' err,
    out = Returns (cr', err)
    ∧ err = None
    ∧ meta.FinalizerExists cr' FinalizerOrganizationCleanup = false
    ∧ world s' = (aws.DeleteSecret (finalSecretName cr) true w').2
    ∧ remoteCalls (trace s')
      = (remoteCalls (trace s)
           ++ [CallDeleteOrganization (meta.GetExternalName cr);
               CallDeleteSecret (finalSecretName cr) true])%list.
Proof.
  intros Hid Hfin Hcount Hreq Hdo Hcode Hbody. run.
  rewrite (RemoveFinalizer_once cr _ Hcount).
  rewrite bool_decide_eq_false_2 by exact Hid. cbn. rewrite Hfin. cbn.
  unfold mongodb.client_DeleteOrganization, mongodb.makeRequest.
  rewrite bool_decide_eq_false_2 by exact Hid. cbv zeta. rewrite Hreq.
  fold (sent req). rewrite Hdo, Hcode.
  rewrite bool_decide_eq_true_2 by lia.
  unfold mongodb.categorize. rewrite Hbody, Hcode.
  rewrite (bool_decide_eq_true_2 (404 = 404)) by done. cbn.
  destruct (aws.DeleteSecret (finalSecretName cr) true w') as [[e|] w2]; cbn;
    (eexists _, _; split; [reflexivity|]);
    rewrite FinalizerExists_SetConditions, FinalizerExists_filter;
    tidy_trace; done.
Qed.

(** X22. Over the HTTP client, a 404 whose body does not decode leaves the
    deletion stuck: with the finalizer token present, [Delete] returns
    (it does not panic) the generic error wrapped, keeps the token, and
    never calls the credential store. *)
Theorem Delete_stuck_on_undecodable_404 (cr : Organization.t)
    (s : State W) (req : mongodb.Request.t) (resp : mongodb.Response.t)
    (perr : error) (w' : W) :
  meta.GetExternalName cr ≠ "" →
  meta.FinalizerExists cr FinalizerOrganizationCleanup = true →
  mongodb.NewRequestWithContext mongodb.http_MethodDelete
    (baseURL +:+ "/orgs/" +:+ meta.GetExternalName cr) None = inr req →
  mongodb.Do (sent req) (world s) = (inr resp, w') →
  mongodb.Response.StatusCode resp = 404 →
  mongodb.json_Unmarshal (R := Error.t) (mongodb.Response.Body resp)
  = inl perr →
  let '(out, s') :=
    @Delete W (mongodb.client_Service baseURL) _ cr s in
  ∃ cr' err,
    out = Returns (cr', err)
    ∧ err = Some (errors_Wrap
                    (errors_New ("HTTP 404: " +:+ mongodb.Response.Status resp))
                    errDeleteExternal)
    ∧ meta.FinalizerExists cr' FinalizerOrganizationCleanup = true
    ∧ world s' = w'
    ∧ remoteCalls (trace s')
      = (remoteCalls (trace s)
           ++ [CallDeleteOrganization (meta.GetExternalName cr)])%list.
Proof.
  intros Hid Hfin Hreq Hdo Hcode Hbody. run.
  rewrite bool_decide_eq_false_2 by exact Hid. cbn. rewrite Hfin. cbn.
  unfold mongodb.client_DeleteOrganization, mongodb.makeRequest.
  rewrite bool_decide_eq_false_2 by exact Hid. cbv zeta. rewrite Hreq.
  fold (sent req). rewrite Hdo, Hcode. cbn.
  unfold mongodb.categorize. rewrite Hbody, Hcode.
  rewrite bool_decide_eq_true_2 by lia.
  rewrite bool_decide_eq_false_2 by lia.
  replace (pretty (404 : Z)) with "404" by (vm_compute; reflexivity).
  cbn. eexists _, _. split; [reflexivity|].
  rewrite FinalizerExists_SetConditions, Hfin. tidy_trace. done.
Qed.

End service_properties.

(** * Properties of the Secrets Manager wrapper *)

Section store_properties.
Context {W : Type} `{!aws.SecretsManager W}.
Context `{!mongodb.Marshal aws.MongoDBAPICredentials.t,
          !mongodb.Unmarshal aws.MongoDBAPICredentials.t}.

(** X23. Once the credentials are encoded, [PutSecret] succeeds exactly
    when [CreateSecret] succeeds, or [CreateSecret] fails because the
    secret exists and [UpdateSecret] then succeeds.  The update carries
    the secret string and the key identifier only: the description and
    the tags, with the organization identifier, are sent on creation
    alone. *)
Theorem PutSecret_succeeds_iff (secretName : string)
    (creds : aws.MongoDBAPICredentials.t) (OrgID : string)
    (kmsKeyID : option string) (data : string) (w : W) :
  mongodb.json_Marshal creds = inr data →
  let input :=
    aws.CreateSecretInput.mk secretName data
      ("MongoDB API credentials for organization " +:+ OrgID)
      [("Provider", "mongodb-crossplane"); ("OrgID", OrgID);
       ("CreatedBy", "crossplane-mongodb-provider")] kmsKeyID in
  let updateInput := aws.UpdateSecretInput.mk secretName data kmsKeyID in
  (∃ arn w', aws.PutSecret secretName creds OrgID kmsKeyID w = (inr arn, w'))
  ↔ (∃ arn w1, aws.sm_CreateSecret input w = (inr arn, w1))
    ∨ (∃ err w1 arn w2,
         aws.sm_CreateSecret input w = (inl err, w1)
         ∧ aws.errors_As_ResourceExistsException err = true
         ∧ aws.sm_UpdateSecret updateInput w1 = (inr arn, w2)).
Proof.
  intros Hdata input updateInput. unfold aws.PutSecret. rewrite Hdata.
  fold input.
  destruct (aws.sm_CreateSecret input w) as [[err|arn] w1] eqn:Hc.
  2:{ split; [|by eexists _, _]. intros _. left. by eexists _, _. }
  destruct (aws.errors_As_ResourceExistsException err) eqn:Hex.
  - fold updateInput.
    destruct (aws.sm_UpdateSecret updateInput w1) as [[uerr|arn] w2] eqn:Hu.
    + split; [by intros (? & ? & ?)|].
      intros [(? & ? & ?)|(? & ? & ? & ? & [= <- <-] & _ & Hu')]; [done|].
      congruence.
    + split; [|by eexists _, _]. intros _. right.
      by exists err, w1, arn, w2.
  - split; [by intros (? & ? & ?)|].
    intros [(? & ? & ?)|(? & ? & ? & ? & [= <- <-] & ? & _)]; congruence.
Qed.

(** X24. What [PutSecret] stores, [GetSecret] returns.  Over a store in
    which a successful create or update makes the next read of that
    secret return the string just written, and for credentials whose
    encoding decodes back to them, a successful [PutSecret] is followed by
    a [GetSecret] of the same name that returns the same credentials. *)
Theorem PutSecret_then_GetSecret (secretName : string)
    (creds : aws.MongoDBAPICredentials.t) (OrgID : string)
    (kmsKeyID : option string) (arn : string) (w w1 : W) :
  (∀ input v r v1, aws.sm_CreateSecret input v = (inr r, v1) →
     aws.sm_GetSecretValue (aws.CreateSecretInput.Name input) v1
     = (inr (Some (aws.CreateSecretInput.SecretString input)), v1)) →
  (∀ input v r v1, aws.sm_UpdateSecret input v = (inr r, v1) →
     aws.sm_GetSecretValue (aws.UpdateSecretInput.SecretId input) v1
     = (inr (Some (aws.UpdateSecretInput.SecretString input)), v1)) →
  (∀ data, mongodb.json_Marshal creds = inr data →
     mongodb.json_Unmarshal data = inr creds) →
  aws.PutSecret secretName creds OrgID kmsKeyID w = (inr arn, w1) →
  aws.GetSecret secretName w1 = (inr creds, w1).
Proof.
  intros Hcreate Hupdate Hjson. unfold aws.PutSecret, aws.GetSecret.
  destruct (mongodb.json_Marshal creds) as [merr|data] eqn:Hdata; [done|].
  specialize (Hjson data eq_refl).
  destruct (aws.sm_CreateSecret _ w) as [[err|a] v1] eqn:Hc.
  - destruct (aws.errors_As_ResourceExistsException err); [|done].
    destruct (aws.sm_UpdateSecret _ v1) as [[uerr|a] v2] eqn:Hu; [done|].
    intros [= <- <-]. apply Hupdate in Hu. cbn in Hu. rewrite Hu.
    by rewrite Hjson.
  - intros [= <- <-]. apply Hcreate in Hc. cbn in Hc. rewrite Hc.
    by rewrite Hjson.
Qed.

End store_properties.

(** * Properties of the first Atlas client *)

Section atlas_properties.
Context {W : Type} `{!atlas.HTTP W}.
Context `{!mongodb.Unmarshal atlas.GetOrgResponse.t,
          !mongodb.Unmarshal atlas.ErrorResponse.t,
          !mongodb.Unmarshal atlas.CreateOrgResponse.t,
          !mongodb.Marshal atlas.CreateOrgPayload.t}.

(** X25. [GetOrganization] reports a missing organization as a success:
    on a 404 whose body could be read it returns the empty response, not
    deleted and with no name, and no error. *)
Theorem atlas_GetOrganization_404 (c : atlas.Client.t) (k : atlas.Credentials.t)
    (orgID raw : string) (req : mongodb.Request.t) (res : atlas.Response.t)
    (w w' : W) :
  atlas.Client.orgCredentials c = Some k →
  atlas.NewRequestWithContext "GET" (atlas.getOrganizationURL orgID) None
  = inr req →
  atlas.Do k req w = (inr res, w') →
  atlas.Response.StatusCode res = 404 →
  atlas.Response.Body res = inr raw →
  atlas.GetOrganization c orgID w
  = (Returns (inr (atlas.GetOrgResponse.mk false "")), w').
Proof.
  intros Hk Hreq Hdo Hcode Hbody. unfold atlas.GetOrganization.
  rewrite bool_decide_eq_false_2 by congruence. cbv zeta. rewrite Hreq.
  unfold atlas.getOrgClient. rewrite Hk, Hdo, Hbody, Hcode. done.
Qed.

(** X26. Without organization credentials [GetOrganization] returns an
    error and sends nothing, while [DeleteOrganization] panics as soon as
    its request is built.  These are the only panics: [GetOrganization]
    and [CreateOrganization] never panic, and [DeleteOrganization] panics
    exactly when the credentials are missing and the request could be
    built, and then it has sent nothing. *)
Theorem atlas_missing_org_credentials (c : atlas.Client.t) (orgID : string)
    (name : string) (apiKey : atlas.APIKey.t) (ownerID : string) (w : W) :
  (atlas.Client.orgCredentials c = None →
   atlas.GetOrganization c orgID w
   = (Returns (inl (errors_New "missing org credentials to get organization")),
      w))
  ∧ (∀ msg, (atlas.GetOrganization c orgID w).1 ≠ Panics msg)
  ∧ (∀ msg, (atlas.CreateOrganization c name apiKey ownerID w).1 ≠ Panics msg)
  ∧ ((∃ msg, atlas.DeleteOrganization c orgID w = (Panics msg, w))
     ↔ (∃ msg, (atlas.DeleteOrganization c orgID w).1 = Panics msg))
  ∧ ((∃ msg, (atlas.DeleteOrganization c orgID w).1 = Panics msg)
     ↔ atlas.Client.orgCredentials c = None
       ∧ ∃ req, atlas.NewRequestWithContext "POST"
                  (atlas.deleteOrganizationURL orgID) None = inr req).
Proof.
  split_and!.
  - intros Hk. unfold atlas.GetOrganization.
    by rewrite bool_decide_eq_true_2.
  - intros msg. unfold atlas.GetOrganization, atlas.getOrgClient.
    case_bool_decide as Hk; [done|]. cbv zeta.
    destruct (atlas.NewRequestWithContext _ _ _) as [err|req]; [done|].
    destruct (atlas.Client.orgCredentials c) as [k|]; [|done].
    destruct (atlas.Do k req w) as [[err|res] w1]; [done|].
    destruct (atlas.Response.Body res) as [err|raw]; [done|].
    repeat case_bool_decide;
      by repeat match goal with
                | |- context [mongodb.json_Unmarshal ?x] =>
                    destruct (mongodb.json_Unmarshal x)
                end.
  - intros msg. unfold atlas.CreateOrganization. cbv zeta.
    destruct (mongodb.json_Marshal _) as [err|j]; [done|].
    destruct (atlas.NewRequestWithContext _ _ _) as [err|req]; [done|].
    destruct (atlas.Do _ _ w) as [[err|res] w1]; [done|].
    destruct (atlas.Response.Body res) as [err|raw]; [done|].
    repeat case_bool_decide;
      by repeat match goal with
                | |- context [mongodb.json_Unmarshal ?x] =>
                    destruct (mongodb.json_Unmarshal x)
                end.
  - unfold atlas.DeleteOrganization, atlas.getOrgClient. cbv zeta.
    destruct (atlas.NewRequestWithContext _ _ _) as [err|req];
      [split; by intros [? ?]|].
    destruct (atlas.Client.orgCredentials c) as [k|];
      [|split; intros _; by eexists].
    destruct (atlas.Do k _ w) as [[err|res] w1]; [split; by intros [? ?]|].
    repeat case_bool_decide; try (split; by intros [? ?]).
    destruct (atlas.Response.Body res) as [err|raw];
      [split; by intros [? ?]|].
    destruct (mongodb.json_Unmarshal raw); split; by intros [? ?].
  - unfold atlas.DeleteOrganization, atlas.getOrgClient. cbv zeta.
    destruct (atlas.NewRequestWithContext _ _ _) as [err|req].
    { split; [by intros [? ?]|]. by intros (_ & ? & ?). }
    destruct (atlas.Client.orgCredentials c) as [k|].
    2:{ split; [|by eexists]. intros _. split; [done|by eexists]. }
    split; [|by intros [? _]].
    destruct (atlas.Do k _ w) as [[err|res] w1]; [by intros [? ?]|].
    repeat case_bool_decide; try by intros [? ?].
    destruct (atlas.Response.Body res) as [err|raw]; [by intros [? ?]|].
    destruct (mongodb.json_Unmarshal raw); by intros [? ?].
Qed.

(** X27. With organization credentials and a request that could be built,
    [DeleteOrganization] returns no error exactly when the status is 204,
    and returns the [ErrNotFound] sentinel when it is 404.  For these two
    statuses the body is not read, so a body that cannot be read does not
    matter. *)
Theorem atlas_DeleteOrganization_status (c : atlas.Client.t)
    (k : atlas.Credentials.t) (orgID : string) (req : mongodb.Request.t)
    (res : atlas.Response.t) (w w' : W) :
  atlas.Client.orgCredentials c = Some k →
  atlas.NewRequestWithContext "POST" (atlas.deleteOrganizationURL orgID) None
  = inr req →
  atlas.Do k
    (mongodb.Request.Header_Set "Content-Type" "application/json" req) w
  = (inr res, w') →
  (atlas.DeleteOrganization c orgID w = (Returns None, w')
   ↔ atlas.Response.StatusCode res = 204)
  ∧ (atlas.Response.StatusCode res = 404 →
     atlas.DeleteOrganization c orgID w
     = (Returns (Some atlas.ErrNotFound), w')).
Proof.
  intros Hk Hreq Hdo. unfold atlas.DeleteOrganization, atlas.getOrgClient.
  cbv zeta. rewrite Hreq, Hk, Hdo. split.
  - repeat case_bool_decide; try done.
    destruct (atlas.Response.Body res) as [err|raw]; [done|].
    by destruct (mongodb.json_Unmarshal raw).
  - intros Hcode. rewrite Hcode. done.
Qed.

End atlas_properties.

(** * The further properties on concrete inputs *)

(** X2, on [acme] before creation. *)
Lemma Observe_not_created_witness :
  meta.GetExternalName fake.acme = ""
  ∧ Observe fake.acme (fake.start fake.both)
    = (fake.acme, ExternalObservation.mk false false, None,
       fake.start fake.both).
Proof.
  split; [reflexivity|].
  apply (Observe_not_created fake.acme (fake.start fake.both)). reflexivity.
Defined.

(** X3, on [acme] once its deletion has been requested. *)
Lemma Observe_marked_for_deletion_witness :
  meta.GetExternalName testbed.acmeDeleting ≠ ""
  ∧ Organization.DeletionTimestamp testbed.acmeDeleting = Some 1762128000
  ∧ let '(cr', obs, err, s') :=
      Observe testbed.acmeDeleting (fake.start fake.both) in
    obs = ExternalObservation.mk true false
    ∧ err = None
    ∧ world s' = world (fake.start fake.both)
    ∧ remoteCalls (trace s') = remoteCalls (trace (fake.start fake.both))
    ∧ cr' = Organization.SetConditions xpv1.Deleting
              (Organization.set_OrgID
                 (meta.GetExternalName testbed.acmeDeleting)
                 testbed.acmeDeleting).
Proof.
  assert (Hid : meta.GetExternalName testbed.acmeDeleting ≠ "")
    by (vm_compute; discriminate).
  split_and!; [exact Hid | reflexivity |].
  exact (Observe_marked_for_deletion testbed.acmeDeleting
           (fake.start fake.both) 1762128000 Hid eq_refl).
Defined.

(** X4, on [acme] after creation, with its secret in the store. *)
Lemma Observe_refreshes_status_witness :
  let desc :=
    aws.DescribeSecretOutput.mk (Some (fake.arnOf "product/mongodb/acme"))
      (Some "product/mongodb/acme") in
  aws.DescribeSecret (finalSecretName fake.acmeCreated)
    (world (fake.start fake.both)) = (inr desc, fake.both)
  ∧ let '(cr', obs, err, s') :=
      Observe fake.acmeCreated (fake.start fake.both) in
    let old := Organization.AtProvider fake.acmeCreated in
    let new := Organization.AtProvider cr' in
    obs = ExternalObservation.mk true true
    ∧ world s' = fake.both
    ∧ OrganizationObservation.OrgID new = meta.GetExternalName fake.acmeCreated
    ∧ OrganizationObservation.SecretARN new
      = default (OrganizationObservation.SecretARN old)
          (aws.DescribeSecretOutput.ARN desc)
    ∧ OrganizationObservation.SecretName new
      = (if aws.DescribeSecretOutput.ARN desc is Some _
         then finalSecretName fake.acmeCreated
         else OrganizationObservation.SecretName old)
    ∧ OrganizationObservation.OrgName new = OrganizationObservation.OrgName old
    ∧ OrganizationObservation.KMSKeyID new
      = OrganizationObservation.KMSKeyID old
    ∧ OrganizationObservation.CreatedAt new
      = OrganizationObservation.CreatedAt old
    ∧ OrganizationObservation.State new = OrganizationObservation.State old
    ∧ OrganizationObservation.DeletedAt new
      = OrganizationObservation.DeletedAt old
    ∧ Organization.Conditions cr'
      = xpv1.SetCondition (Organization.Conditions fake.acmeCreated)
          xpv1.Available.
Proof.
  intros desc.
  assert (Hid : meta.GetExternalName fake.acmeCreated ≠ "")
    by (vm_compute; discriminate).
  assert (Hdesc : aws.DescribeSecret (finalSecretName fake.acmeCreated)
                    (world (fake.start fake.both)) = (inr desc, fake.both))
    by (vm_compute; reflexivity).
  split; [exact Hdesc|].
  exact (Observe_refreshes_status fake.acmeCreated (fake.start fake.both)
           desc fake.both Hid eq_refl Hdesc).
Defined.

(** X5, on the same input: the store answers the same twice. *)
Lemma Observe_idempotent_witness :
  let desc :=
    aws.DescribeSecretOutput.mk (Some (fake.arnOf "product/mongodb/acme"))
      (Some "product/mongodb/acme") in
  aws.DescribeSecret (finalSecretName fake.acmeCreated) fake.both
  = (inr desc, fake.both)
  ∧ let '(cr1, obs1, _, s1) :=
      Observe fake.acmeCreated (fake.start fake.both) in
    let '(cr2, obs2, _, _) := Observe cr1 s1 in
    cr2 = cr1 ∧ obs2 = obs1.
Proof.
  intros desc.
  assert (Hdesc : aws.DescribeSecret (finalSecretName fake.acmeCreated)
                    fake.both = (inr desc, fake.both))
    by (vm_compute; reflexivity).
  split; [exact Hdesc|].
  exact (Observe_idempotent fake.acmeCreated (fake.start fake.both)
           (inr desc) fake.both fake.both Hdesc Hdesc).
Defined.

(** X6, over the HTTP client when the API cannot be reached. *)
Lemma Create_organization_failure_witness :
  let e :=
    errors_Wrap
      (RetryableError (errors_New "dial tcp: i/o timeout")
         "HTTP request failed (network error)")
      "cannot create organization" in
  let s := mkState testbed.unreachable [] in
  mongodb.CreateOrganization (createInput fake.acme) (world s)
  = (inl e, testbed.unreachable)
  ∧ Create fake.acme s
    = (fake.acme, ExternalCreation.zero, Some e,
       mkState testbed.unreachable
         (trace s ++ [CallCreateOrganization (createInput fake.acme)])).
Proof.
  intros e s.
  assert (Hc : mongodb.CreateOrganization (createInput fake.acme) (world s)
               = (inl e, testbed.unreachable)) by (vm_compute; reflexivity).
  split; [exact Hc|].
  exact (Create_organization_failure fake.acme s e testbed.unreachable Hc).
Defined.

(** X7, on [acme] in the empty world. *)
Lemma Create_success_witness :
  let apiKey := mongodb.APIKeyPair.mk "pub" "priv" in
  let arn := fake.arnOf "product/mongodb/acme" in
  let w1 := fake.secretGone in
  let s := fake.start fake.empty in
  mongodb.CreateOrganization (createInput fake.acme) (world s)
  = (inr (fake.acmeOrg, apiKey), w1)
  ∧ aws.PutSecret (finalSecretName fake.acme) (credentials apiKey) "org-42"
      None w1 = (inr arn, fake.both)
  ∧ (Create fake.acme s).1.2 = None
  ∧ meta.GetExternalName (Create fake.acme s).1.1.1 = "org-42"
  ∧ ExternalCreation.ConnectionDetails (Create fake.acme s).1.1.2
      !! "secretARN" = Some arn.
Proof.
  intros apiKey arn w1 s.
  assert (Hc : mongodb.CreateOrganization (createInput fake.acme) (world s)
               = (inr (fake.acmeOrg, apiKey), w1))
    by (vm_compute; reflexivity).
  assert (Hp : aws.PutSecret (finalSecretName fake.acme) (credentials apiKey)
                 "org-42" None w1 = (inr arn, fake.both))
    by (vm_compute; reflexivity).
  split_and!; [exact Hc | exact Hp | | |];
    pose proof (Create_success fake.acme s fake.acmeOrg apiKey arn w1
                  fake.both Hc Hp) as Hs;
    destruct (Create fake.acme s) as [[[cr' creation] err] s'];
    cbv zeta in Hs; destruct Hs as (? & ? & ? & ? & ? & ? & ? & ? & ?);
    assumption.
Defined.

(** X8, on [acme] in the empty world. *)
Lemma Create_then_Observe_witness :
  let apiKey := mongodb.APIKeyPair.mk "pub" "priv" in
  let s := fake.start fake.empty in
  mongodb.CreateOrganization (createInput fake.acme) (world s)
  = (inr (fake.acmeOrg, apiKey), fake.secretGone)
  ∧ let '(cr1, _, _, s1) := Create fake.acme s in
    let '(_, obs, err, _) := Observe cr1 s1 in
    err = None
    ∧ (ExternalObservation.ResourceExists obs = true
       ↔ mongodb.Organization.ID fake.acmeOrg ≠ "").
Proof.
  intros apiKey s.
  assert (Hc : mongodb.CreateOrganization (createInput fake.acme) (world s)
               = (inr (fake.acmeOrg, apiKey), fake.secretGone))
    by (vm_compute; reflexivity).
  split; [exact Hc|].
  exact (Create_then_Observe fake.acme s fake.acmeOrg apiKey fake.secretGone
           Hc).
Defined.

(** X9, on the finalized resource with both backends in place. *)
Lemma Delete_outcome_witness :
  let cr := fake.acmeFinalized in
  let s := fake.start fake.both in
  meta.GetExternalName cr ≠ ""
  ∧ meta.FinalizerExists cr FinalizerOrganizationCleanup = true
  ∧ (finalizerCount cr FinalizerOrganizationCleanup ≤ 1)%nat
  ∧ mongodb.DeleteOrganization (meta.GetExternalName cr) (world s)
    = (None, fake.orgGone)
  ∧ let '(out, s') := Delete cr s in
    ∃ cr' err,
      out = Returns (cr', err)
      ∧ (err = None ↔ @None error = None ∨ mongodb.IsNotFoundError None = true)
      ∧ (err = None →
         meta.FinalizerExists cr' FinalizerOrganizationCleanup = false)
      ∧ (∀ e, None = Some e → mongodb.IsNotFoundError None = false →
         err = Some (errors_Wrap e errDeleteExternal)
         ∧ meta.FinalizerExists cr' FinalizerOrganizationCleanup = true
         ∧ world s' = fake.orgGone
         ∧ remoteCalls (trace s')
           = (remoteCalls (trace s)
                ++ [CallDeleteOrganization (meta.GetExternalName cr)])%list
         ∧ Organization.Conditions cr'
           = xpv1.SetCondition (Organization.Conditions cr)
               (xpv1.ReconcileError e)).
Proof.
  intros cr s.
  assert (Hid : meta.GetExternalName cr ≠ "") by (vm_compute; discriminate).
  assert (Hfin : meta.FinalizerExists cr FinalizerOrganizationCleanup = true)
    by reflexivity.
  assert (Hcount : (finalizerCount cr FinalizerOrganizationCleanup ≤ 1)%nat)
    by (vm_compute; lia).
  assert (Hdel : mongodb.DeleteOrganization (meta.GetExternalName cr) (world s)
                 = (None, fake.orgGone)) by (vm_compute; reflexivity).
  split_and!; [exact Hid | exact Hfin | exact Hcount | exact Hdel |].
  exact (Delete_outcome cr s None fake.orgGone Hid Hfin Hcount Hdel).
Defined.

(** X10, on [acme] after creation, before any finalizer. *)
Lemma Delete_twice_witness :
  meta.GetExternalName fake.acmeCreated ≠ ""
  ∧ meta.FinalizerExists fake.acmeCreated FinalizerOrganizationCleanup = false
  ∧ let '(out1, s1) := Delete fake.acmeCreated (fake.start fake.both) in
    ∃ cr1 err1,
      out1 = Returns (cr1, err1)
      ∧ let '(out2, s2) := Delete cr1 s1 in
        err1 = None
        ∧ world s1 = world (fake.start fake.both)
        ∧ remoteCalls (trace s1) = remoteCalls (trace (fake.start fake.both))
        ∧ (∃ later : list Event,
             remoteCalls (trace s2)
             = (remoteCalls (trace (fake.start fake.both))
                  ++ CallDeleteOrganization
                       (meta.GetExternalName fake.acmeCreated)
                     :: later)%list)
        ∧ ∃ cr2 err2, out2 = Returns (cr2, err2).
Proof.
  assert (Hid : meta.GetExternalName fake.acmeCreated ≠ "")
    by (vm_compute; discriminate).
  split_and!; [exact Hid | reflexivity |].
  exact (Delete_twice fake.acmeCreated (fake.start fake.both) Hid eq_refl).
Defined.

(** X13, on a provider config whose source is a Kubernetes secret. *)
Lemma Connect_rejects_other_source_witness :
  let mg := connector.IsOrganization fake.acme (Some "kubernetes") in
  let pc := testbed.config "Secret" None in
  connector.usage_Track mg testbed.cluster = (None, testbed.cluster)
  ∧ connector.kube_Get "kubernetes" testbed.cluster = (inr pc, testbed.cluster)
  ∧ apisv1alpha1.ProviderCredentials.Source
      (apisv1alpha1.ProviderConfig.Credentials pc) ≠ "AWS"
  ∧ connector.Connect mg testbed.cluster
    = (Returns (inl (errors_New connector.errInvalidPCConfig)),
       testbed.cluster).
Proof.
  intros mg pc.
  assert (Ht : connector.usage_Track mg testbed.cluster
               = (None, testbed.cluster)) by reflexivity.
  assert (Hg : connector.kube_Get "kubernetes" testbed.cluster
               = (inr pc, testbed.cluster)) by (vm_compute; reflexivity).
  assert (Hs : apisv1alpha1.ProviderCredentials.Source
                 (apisv1alpha1.ProviderConfig.Credentials pc) ≠ "AWS")
    by (vm_compute; discriminate).
  split_and!; [exact Ht | exact Hg | exact Hs |].
  exact (Connect_rejects_other_source fake.acme "kubernetes" pc
           testbed.cluster testbed.cluster testbed.cluster Ht Hg Hs).
Defined.

(** X15, on the complete provider config. *)
Lemma Connect_success_witness :
  let mg := connector.IsOrganization fake.acme (Some "default") in
  let ext :=
    connector.external.mk (connector.Credentials.mk "root-pub" "root-priv")
      (connector.awsClient.mk "eu-central-1") in
  connector.Connect mg testbed.cluster = (Returns (inr ext), testbed.cluster)
  ∧ ∃ secretName credsAWS w3,
      aws.GetSecret secretName w3 = (inr credsAWS, testbed.cluster)
      ∧ connector.external.client ext
        = connector.Credentials.mk
            (aws.MongoDBAPICredentials.PublicKey credsAWS)
            (aws.MongoDBAPICredentials.PrivateKey credsAWS).
Proof.
  intros mg ext.
  assert (Hc : connector.Connect mg testbed.cluster
               = (Returns (inr ext), testbed.cluster))
    by (vm_compute; reflexivity).
  split; [exact Hc|].
  destruct (Connect_success mg testbed.cluster testbed.cluster ext Hc)
    as (cr & name & pc & awsSource & awsCfg & secretName & credsAWS
        & w1 & w2 & w3 & _ & _ & _ & _ & _ & _ & _ & _ & Hsec & Hkeys).
  by exists secretName, credsAWS, w3.
Defined.

(** X17, when the API cannot be reached. *)
Lemma client_CreateOrganization_error_is_opaque_witness :
  let input :=
    mongodb.CreateOrganizationInput.mk "acme" "u-1"
      (mongodb.APIKey.mk "x" ["OWNER"]) in
  let w : result mongodb.Response.t := inl (errors_New "dial tcp: i/o timeout") in
  let e :=
    errors_Wrap
      (RetryableError (errors_New "dial tcp: i/o timeout")
         "HTTP request failed (network error)")
      "cannot create organization" in
  mongodb.client_CreateOrganization fake.baseURL input w = (inl e, w)
  ∧ mongodb.IsNotFoundError (Some e) = false
  ∧ mongodb.IsRetryableError (Some e) = false
  ∧ mongodb.IsConflictError (Some e) = false.
Proof.
  intros input w e.
  assert (Hc : mongodb.client_CreateOrganization fake.baseURL input w
               = (inl e, w)) by (vm_compute; reflexivity).
  split; [exact Hc|].
  exact (client_CreateOrganization_error_is_opaque fake.baseURL input w w e Hc).
Defined.

(** X18, on a 200 answer to the delete request. *)
Lemma client_DeleteOrganization_nil_iff_witness :
  let url := fake.baseURL +:+ "/orgs/" +:+ "org-42" in
  let req := mongodb.Request.mk mongodb.http_MethodDelete url None [] in
  let w := fake.respond 200 "200 OK" "" in
  mongodb.NewRequestWithContext mongodb.http_MethodDelete url None = inr req
  ∧ (mongodb.client_DeleteOrganization fake.baseURL "org-42" w).1 = None.
Proof.
  intros url req w.
  assert (Hreq : mongodb.NewRequestWithContext mongodb.http_MethodDelete url
                   None = inr req) by reflexivity.
  split; [exact Hreq|].
  apply (client_DeleteOrganization_nil_iff fake.baseURL "org-42" req w);
    [discriminate | exact Hreq |].
  eexists _, _. split; [reflexivity|]. cbn. lia.
Defined.

(** X19, on a 200 answer that carries the organization: the deletion is
    not confirmed. *)
Lemma client_VerifyOrganizationDeletion_nil_iff_witness :
  let url := fake.baseURL +:+ "/orgs/" +:+ "org-42" in
  let req := mongodb.Request.mk mongodb.http_MethodGet url None [] in
  let w := fake.respond 200 "200 OK" (testbed.renderOrganization fake.acmeOrg) in
  mongodb.NewRequestWithContext mongodb.http_MethodGet url None = inr req
  ∧ (mongodb.client_VerifyOrganizationDeletion fake.baseURL "org-42" w).1
    ≠ None.
Proof.
  intros url req w.
  assert (Hreq : mongodb.NewRequestWithContext mongodb.http_MethodGet url
                   None = inr req) by reflexivity.
  split; [exact Hreq|]. intros Hnil.
  apply (client_VerifyOrganizationDeletion_nil_iff fake.baseURL "org-42" req w)
    in Hnil; [|discriminate|exact Hreq].
  destruct Hnil as (resp & w' & apiErr & Hdo & Hcode & _).
  injection Hdo as <- _. discriminate Hcode.
Defined.

(** X20, on a 204 answer to the creation request. *)
Lemma client_CreateOrganization_no_content_witness :
  let input :=
    mongodb.CreateOrganizationInput.mk "acme" "u-1"
      (mongodb.APIKey.mk "x" ["OWNER"]) in
  let w := fake.respond 204 "204 No Content" "" in
  mongodb.client_CreateOrganization fake.baseURL input w
  = (inr (mongodb.Organization.mk "" "" "u-1" false 0,
          mongodb.APIKeyPair.mk "" ""), w).
Proof.
  intros input w.
  apply (client_CreateOrganization_no_content fake.baseURL input
           (testbed.renderPayload
              (mongodb.CreateOrgPayload.mk "acme" "u-1"
                 (mongodb.APIKey.mk "x" ["OWNER"])))
           (mongodb.Request.mk mongodb.http_MethodPost
              (fake.baseURL +:+ "/orgs")
              (Some (testbed.renderPayload
                       (mongodb.CreateOrgPayload.mk "acme" "u-1"
                          (mongodb.APIKey.mk "x" ["OWNER"])))) [])
           (mongodb.Response.mk 204 "204 No Content" "") w w);
    first [discriminate | reflexivity].
Defined.

(** X21, on the finalized resource when the API answers 404 with an API
    error. *)
Lemma Delete_succeeds_on_decodable_404_witness :
  let apiErr := Error.mk 404 "organization does not exist" "RESOURCE_NOT_FOUND" in
  let r := testbed.remote 404 "404 Not Found" (fake.renderError apiErr) in
  let s := mkState r [] in
  mongodb.json_Unmarshal (fake.renderError apiErr) = inr apiErr
  ∧ (finalizerCount fake.acmeFinalized FinalizerOrganizationCleanup ≤ 1)%nat
  ∧ let '(out, s') := Delete fake.acmeFinalized s in
    ∃ cr' err,
      out = Returns (cr', err)
      ∧ err = None
      ∧ meta.FinalizerExists cr' FinalizerOrganizationCleanup = false
      ∧ world s'
        = (aws.DeleteSecret (finalSecretName fake.acmeFinalized) true r).2
      ∧ remoteCalls (trace s')
        = (remoteCalls (trace s)
             ++ [CallDeleteOrganization
                   (meta.GetExternalName fake.acmeFinalized);
                 CallDeleteSecret (finalSecretName fake.acmeFinalized)
                   true])%list.
Proof.
  intros apiErr r s.
  assert (Hb : mongodb.json_Unmarshal (fake.renderError apiErr) = inr apiErr)
    by (vm_compute; reflexivity).
  split; [exact Hb|]. split; [vm_compute; lia|].
  apply (Delete_succeeds_on_decodable_404 fake.baseURL fake.acmeFinalized s
           (mongodb.Request.mk mongodb.http_MethodDelete
              (fake.baseURL +:+ "/orgs/"
                 +:+ meta.GetExternalName fake.acmeFinalized) None [])
           (mongodb.Response.mk 404 "404 Not Found" (fake.renderError apiErr))
           apiErr r);
    first [by vm_compute | reflexivity | exact Hb | vm_compute; lia].
Defined.

(** X22, on the finalized resource when the API answers 404 with an empty
    body. *)
Lemma Delete_stuck_on_undecodable_404_witness :
  let s := mkState (testbed.remote 404 "404 Not Found" "") [] in
  meta.FinalizerExists fake.acmeFinalized FinalizerOrganizationCleanup = true
  ∧ let '(out, s') := Delete fake.acmeFinalized s in
    ∃ cr' err,
      out = Returns (cr', err)
      ∧ err = Some (errors_Wrap (errors_New ("HTTP 404: " +:+ "404 Not Found"))
                      errDeleteExternal)
      ∧ meta.FinalizerExists cr' FinalizerOrganizationCleanup = true
      ∧ world s' = testbed.remote 404 "404 Not Found" ""
      ∧ remoteCalls (trace s')
        = (remoteCalls (trace s)
             ++ [CallDeleteOrganization
                   (meta.GetExternalName fake.acmeFinalized)])%list.
Proof.
  intros s. split; [reflexivity|].
  apply (Delete_stuck_on_undecodable_404 fake.baseURL fake.acmeFinalized s
           (mongodb.Request.mk mongodb.http_MethodDelete
              (fake.baseURL +:+ "/orgs/"
                 +:+ meta.GetExternalName fake.acmeFinalized) None [])
           (mongodb.Response.mk 404 "404 Not Found" "")
           (errors_New "unexpected end of JSON input")
           (testbed.remote 404 "404 Not Found" ""));
    first [by vm_compute | reflexivity].
Defined.

(** The in-memory store returns what was last written. *)
Lemma fake_create_then_get (input : aws.CreateSecretInput.t)
    (v : fake.World) (r : option string) (v1 : fake.World) :
  aws.sm_CreateSecret input v = (inr r, v1) →
  aws.sm_GetSecretValue (aws.CreateSecretInput.Name input) v1
  = (inr (Some (aws.CreateSecretInput.SecretString input)), v1).
Proof.
  cbn. destruct (fake.storeDown v) eqn:Hdown; [done|].
  destruct (fake.secrets v !! aws.CreateSecretInput.Name input); [done|].
  intros [= <- <-]. cbn. by rewrite lookup_insert_eq.
Qed.

Lemma fake_update_then_get (input : aws.UpdateSecretInput.t)
    (v : fake.World) (r : option string) (v1 : fake.World) :
  aws.sm_UpdateSecret input v = (inr r, v1) →
  aws.sm_GetSecretValue (aws.UpdateSecretInput.SecretId input) v1
  = (inr (Some (aws.UpdateSecretInput.SecretString input)), v1).
Proof.
  cbn. destruct (fake.storeDown v) eqn:Hdown; [done|].
  destruct (fake.secrets v !! aws.UpdateSecretInput.SecretId input); [|done].
  intros [= <- <-]. cbn. by rewrite lookup_insert_eq.
Qed.

(** X23, on a store that already holds the secret. *)
Lemma PutSecret_succeeds_iff_witness :
  let data := testbed.renderCreds testbed.acmeKeys in
  mongodb.json_Marshal testbed.acmeKeys = inr data
  ∧ ((∃ arn w', aws.PutSecret "product/mongodb/acme" testbed.acmeKeys "org-42"
                  None fake.both = (inr arn, w'))
     ↔ (∃ arn w1,
          aws.sm_CreateSecret
            (aws.CreateSecretInput.mk "product/mongodb/acme" data
               ("MongoDB API credentials for organization " +:+ "org-42")
               [("Provider", "mongodb-crossplane"); ("OrgID", "org-42");
                ("CreatedBy", "crossplane-mongodb-provider")] None)
            fake.both = (inr arn, w1))
       ∨ (∃ err w1 arn w2,
            aws.sm_CreateSecret
              (aws.CreateSecretInput.mk "product/mongodb/acme" data
                 ("MongoDB API credentials for organization " +:+ "org-42")
                 [("Provider", "mongodb-crossplane"); ("OrgID", "org-42");
                  ("CreatedBy", "crossplane-mongodb-provider")] None)
              fake.both = (inl err, w1)
            ∧ aws.errors_As_ResourceExistsException err = true
            ∧ aws.sm_UpdateSecret
                (aws.UpdateSecretInput.mk "product/mongodb/acme" data None) w1
              = (inr arn, w2))).
Proof.
  intros data. split; [reflexivity|].
  exact (PutSecret_succeeds_iff "product/mongodb/acme" testbed.acmeKeys
           "org-42" None data fake.both eq_refl).
Defined.

(** X24, on the in-memory store, for a secret that is created and for one
    that is overwritten. *)
Lemma PutSecret_then_GetSecret_witness :
  let arn := fake.arnOf "product/mongodb/acme" in
  aws.PutSecret "product/mongodb/acme" testbed.acmeKeys "org-42" None
    fake.secretGone = (inr arn, fake.both)
  ∧ aws.GetSecret "product/mongodb/acme" fake.both
    = (inr testbed.acmeKeys, fake.both).
Proof.
  intros arn.
  assert (Hput : aws.PutSecret "product/mongodb/acme" testbed.acmeKeys
                   "org-42" None fake.secretGone = (inr arn, fake.both))
    by (vm_compute; reflexivity).
  split; [exact Hput|].
  apply (PutSecret_then_GetSecret "product/mongodb/acme" testbed.acmeKeys
           "org-42" None arn fake.secretGone fake.both
           fake_create_then_get fake_update_then_get);
    [|exact Hput].
  intros data [= <-]. vm_compute. reflexivity.
Defined.

(** X25, on a 404 answer to the first client. *)
Lemma atlas_GetOrganization_404_witness :
  let c := atlas.Client.mk testbed.rootPair (Some testbed.orgPair) in
  let x := testbed.answer 404 (inr "") in
  atlas.GetOrganization c "org-42" x
  = (Returns (inr (atlas.GetOrgResponse.mk false "")),
     testbed.mkExchange (testbed.next x) (Some testbed.orgPair)).
Proof.
  intros c x.
  apply (atlas_GetOrganization_404 c testbed.orgPair "org-42" ""
           (mongodb.Request.mk "GET" (atlas.getOrganizationURL "org-42")
              None [])
           (atlas.Response.mk 404 (inr "")) x
           (testbed.mkExchange (testbed.next x) (Some testbed.orgPair)));
    reflexivity.
Defined.

(** X27, on a 404 answer whose body cannot be read. *)
Lemma atlas_DeleteOrganization_status_witness :
  let c := atlas.Client.mk testbed.rootPair (Some testbed.orgPair) in
  let x := testbed.answer 404 (inl (errors_New "unexpected EOF")) in
  atlas.DeleteOrganization c "org-42" x
  = (Returns (Some atlas.ErrNotFound),
     testbed.mkExchange (testbed.next x) (Some testbed.orgPair)).
Proof.
  intros c x.
  apply (atlas_DeleteOrganization_status c testbed.orgPair "org-42"
           (mongodb.Request.mk "POST" (atlas.deleteOrganizationURL "org-42")
              None [])
           (atlas.Response.mk 404 (inl (errors_New "unexpected EOF"))) x
           (testbed.mkExchange (testbed.next x) (Some testbed.orgPair)));
    reflexivity.
Defined.

(** X28, on [acme] with the finalizer token recorded twice over: the
    organization is deleted, the secret is deleted, and [Delete] panics. *)
Lemma Delete_panics_on_trailing_token_witness :
  let cr :=
    Organization.with_Finalizers
      [FinalizerOrganizationCleanup; FinalizerOrganizationCleanup]
      fake.acmeCreated in
  let s := fake.start fake.both in
  meta.GetExternalName cr ≠ ""
  ∧ mongodb.DeleteOrganization (meta.GetExternalName cr) (world s)
    = (None, fake.orgGone)
  ∧ let '(out, s') := Delete cr s in
    (∃ msg, out = Panics msg)
    ∧ world s' = (aws.DeleteSecret (finalSecretName cr) true fake.orgGone).2
    ∧ remoteCalls (trace s')
      = (remoteCalls (trace s)
           ++ [CallDeleteOrganization (meta.GetExternalName cr);
               CallDeleteSecret (finalSecretName cr) true])%list.
Proof.
  intros cr s.
  assert (Hid : meta.GetExternalName cr ≠ "") by (vm_compute; discriminate).
  assert (Hdel : mongodb.DeleteOrganization (meta.GetExternalName cr) (world s)
                 = (None, fake.orgGone)) by (vm_compute; reflexivity).
  split_and!; [exact Hid | exact Hdel |].
  exact (Delete_panics_on_trailing_token cr s [FinalizerOrganizationCleanup]
           None fake.orgGone Hid eq_refl
           (list_elem_of_here FinalizerOrganizationCleanup [])
           Hdel (or_introl eq_refl)).
Defined.

(** X29, on [acme] with the finalizer token recorded twice between two
    other finalizers. *)
Lemma Delete_keeps_repeated_token_witness :
  let cr :=
    Organization.with_Finalizers
      ["a"; FinalizerOrganizationCleanup; FinalizerOrganizationCleanup; "b"]
      fake.acmeCreated in
  let s := fake.start fake.both in
  meta.GetExternalName cr ≠ ""
  ∧ (FinalizerOrganizationCleanup ∉ ["a"])
  ∧ (FinalizerOrganizationCleanup ∉ ["b"])
  ∧ mongodb.DeleteOrganization (meta.GetExternalName cr) (world s)
    = (None, fake.orgGone)
  ∧ let '(out, s') := Delete cr s in
    ∃ cr',
      out = Returns (cr', None)
      ∧ Organization.Finalizers cr'
        = (["a"] ++ FinalizerOrganizationCleanup :: ["b"])%list
      ∧ meta.FinalizerExists cr' FinalizerOrganizationCleanup = true
      ∧ world s' = (aws.DeleteSecret (finalSecretName cr) true fake.orgGone).2
      ∧ remoteCalls (trace s')
        = (remoteCalls (trace s)
             ++ [CallDeleteOrganization (meta.GetExternalName cr);
                 CallDeleteSecret (finalSecretName cr) true])%list.
Proof.
  intros cr s.
  assert (Hid : meta.GetExternalName cr ≠ "") by (vm_compute; discriminate).
  assert (Ha : FinalizerOrganizationCleanup ∉ ["a"])
    by (apply (bool_decide_unpack _); vm_compute; exact I).
  assert (Hb : FinalizerOrganizationCleanup ∉ ["b"])
    by (apply (bool_decide_unpack _); vm_compute; exact I).
  assert (Hdel : mongodb.DeleteOrganization (meta.GetExternalName cr) (world s)
                 = (None, fake.orgGone)) by (vm_compute; reflexivity).
  split_and!; [exact Hid | exact Ha | exact Hb | exact Hdel |].
  exact (Delete_keeps_repeated_token cr s ["a"] ["b"] None fake.orgGone
           Hid eq_refl Ha Hb (λ H, nil_cons (eq_sym H)) Hdel
           (or_introl eq_refl)).
Defined.
